(** * QuantitativeReporting: the characteristics lookup, the per-segment
    characteristics store and the DICOM SR report assembly

    A shallow embedding of the non-UI part of
    [QuantitativeReporting/QuantitativeReporting.py]:

    - [_find_characteristics_from_concept_name_and_choice] and
      [create_dataset_from_characteristics] (module level functions),
    - the pruning of [self.segment_characteristics] done by
      [QuantitativeReportingWidget.updateSegmentationCharacteristics],
    - [saveReport], [createSEG], [createDICOMSR] and [cleanupTemporaryData].

    Python exceptions are values carrying the method resolution order of their
    class, so that an [except] clause is a membership test.  The widget, the
    DICOM files on disk and a trace of the calls that write, read or register
    files form the state threaded through the methods; what the external
    collaborators answer is read from an environment record. *)

From Stdlib Require Import String Ascii List ZArith Lia Sorting.Sorted.
From stdpp Require Import base option list gmap strings sorting pretty.

Set Warnings "-register-all".

Local Open Scope string_scope.
Local Open Scope list_scope.

(** ** Python values, exceptions and outcomes *)

Module Py.

(** The values found in [exc.args] and in what [saveReport] returns. *)
Inductive PyVal : Type :=
| PNone
| PInt (z : Z)
| PStr (s : string)
| PTuple (items : list PyVal).

(** An exception: the method resolution order of its class, most specific
    class first, and its [args] tuple. *)
Record exn : Type := mkExn { mro : list string; args : list PyVal }.

Definition mro_Exception : list string := ["Exception"; "BaseException"; "object"].

Definition Exception (a : list PyVal) : exn := mkExn mro_Exception a.
Definition ValueError (a : list PyVal) : exn := mkExn ("ValueError" :: mro_Exception) a.
Definition RuntimeError (a : list PyVal) : exn := mkExn ("RuntimeError" :: mro_Exception) a.
Definition AttributeError (a : list PyVal) : exn := mkExn ("AttributeError" :: mro_Exception) a.
Definition TypeError (a : list PyVal) : exn := mkExn ("TypeError" :: mro_Exception) a.
Definition LookupError (a : list PyVal) : exn := mkExn ("LookupError" :: mro_Exception) a.
Definition IndexError (a : list PyVal) : exn :=
  mkExn ("IndexError" :: "LookupError" :: mro_Exception) a.
Definition KeyError (a : list PyVal) : exn :=
  mkExn ("KeyError" :: "LookupError" :: mro_Exception) a.
Definition FileNotFoundError (a : list PyVal) : exn :=
  mkExn ("FileNotFoundError" :: "OSError" :: mro_Exception) a.

(** [isinstance(e, cls)] *)
Definition isinstance (e : exn) (cls : string) : bool :=
  existsb (String.eqb cls) (mro e).

(** [except (c1, c2, ...)] catches [e] when it is an instance of one of them. *)
Definition caught_by (e : exn) (classes : list string) : bool :=
  existsb (isinstance e) classes.

(** [str(exc)] for an exception class without a [__str__] of its own: the
    empty string without arguments, [str(arg)] for one argument.  The text of
    a tuple (one argument that is a tuple, or several arguments) is its
    [repr], which is not modelled: statements about the text of an exception
    are made for one argument that is not a tuple. *)
Definition str_exn (e : exn) : string :=
  match args e with
  | [PStr s] => s
  | [PInt z] => pretty z
  | [PNone] => "None"
  | _ => ""
  end.

Inductive Outcome (A : Type) : Type :=
| Return (a : A)
| Raise (e : exn).
Arguments Return {A} a.
Arguments Raise {A} e.

Definition returned {A} (o : Outcome A) : bool :=
  match o with Return _ => true | Raise _ => false end.

#[global] Instance Outcome_ret : MRet Outcome := @Return.
#[global] Instance Outcome_bind : MBind Outcome := fun A B f o =>
  match o with
  | Return a => f a
  | Raise e => Raise e
  end.

(** [d.get(key)] on a dict with string keys, given as the list of its items. *)
Fixpoint dict_get {V} (key : string) (d : list (string * V)) : option V :=
  match d with
  | [] => None
  | (k, v) :: rest => if String.eqb k key then Some v else dict_get key rest
  end.

(** [os.path.join(a, b)] of [posixpath] for two components. *)
Definition ends_with_slash (a : string) : bool :=
  match rev (list_ascii_of_string a) with
  | c :: _ => Ascii.eqb c "/"%char
  | [] => false
  end.

Definition starts_with_slash (b : string) : bool :=
  match b with
  | String c _ => Ascii.eqb c "/"%char
  | EmptyString => false
  end.

Definition path_join (a b : string) : string :=
  if starts_with_slash b then b
  else if (String.eqb a "" || ends_with_slash a)%bool then a ++ b
  else a ++ "/" ++ b.

End Py.
Export Py.

(** ** pydicom datasets *)

Module Dicom.

(** The value of a data element: a string, or a sequence of datasets.  A
    dataset is the list of its elements, keyed by keyword. *)
Inductive Value : Type :=
| VStr (s : string)
| VSeq (items : list (list (string * Value))).

Definition Dataset : Type := list (string * Value).

(** [ds.<keyword>], [None] where pydicom raises [AttributeError]. *)
Definition get_attr (keyword : string) (ds : Dataset) : option Value :=
  dict_get keyword ds.

(** [ds.<keyword> = v] *)
Fixpoint set_attr (keyword : string) (v : Value) (ds : Dataset) : Dataset :=
  match ds with
  | [] => [(keyword, v)]
  | (k, v0) :: rest =>
      if String.eqb k keyword then (k, v) :: rest
      else (k, v0) :: set_attr keyword v rest
  end.

(** [ds.<keyword>] read as a sequence. *)
Definition get_seq (keyword : string) (ds : Dataset) : option (list Dataset) :=
  match get_attr keyword ds with
  | Some (VSeq items) => Some items
  | _ => None
  end.

(** What pydicom raises for a keyword the dataset does not have; [cls] is the
    class of the dataset: [FileDataset] for one read from a file, [Dataset]
    for an item of a sequence. *)
Definition no_attribute (cls keyword : string) : exn :=
  AttributeError [PStr ("'" ++ cls ++ "' object has no attribute '" ++ keyword ++ "'")].

Definition attr_seq (cls keyword : string) (ds : Dataset) : Outcome (list Dataset) :=
  match get_seq keyword ds with
  | Some items => Return items
  | None => Raise (no_attribute cls keyword)
  end.

End Dicom.
Export Dicom.

(** ** The characteristics catalog and the lookup *)

(** A code of [characteristics.json]. *)
Record Code : Type := mkCode {
  CodeValue : string;
  CodingSchemeDesignator : string;
  CodeMeaning : string
}.

(** An entry of [characteristics_config]. *)
Record CatalogEntry : Type := mkEntry {
  ConceptNameCodeSequence : Code;
  choices : list Code
}.

(** The dict returned by the lookup. *)
Record Characteristics : Type := mkCharacteristics {
  found_ConceptNameCodeSequence : Code;
  found_ConceptCodeSequence : Code
}.

(** The inner loop [for j in i['choices']]. *)
Fixpoint scan_choices (choice_label : string) (cs : list Code) : option Code :=
  match cs with
  | [] => None
  | j :: rest =>
      if String.eqb (CodeMeaning j) choice_label then Some j
      else scan_choices choice_label rest
  end.

(** The outer loop [for i in characteristics_config]: an entry whose choices
    hold no match is passed over and the scan goes on. *)
Fixpoint scan_config (concept_name choice_label : string)
    (characteristics_config : list CatalogEntry) : option Characteristics :=
  match characteristics_config with
  | [] => None
  | i :: rest =>
      if String.eqb (CodeMeaning (ConceptNameCodeSequence i)) concept_name then
        match scan_choices choice_label (choices i) with
        | Some j => Some (mkCharacteristics (ConceptNameCodeSequence i) j)
        | None => scan_config concept_name choice_label rest
        end
      else scan_config concept_name choice_label rest
  end.

Definition not_found_message (concept_name choice_label : string) : string :=
  "Concept name code (CodeMeaning=" ++ concept_name ++ ") with choices "
    ++ choice_label ++ " not found".

Definition _find_characteristics_from_concept_name_and_choice
    (concept_name choice_label : string)
    (characteristics_config : list CatalogEntry) : Outcome (option Characteristics) :=
  if String.eqb choice_label "N/A" then Return None
  else
    match scan_config concept_name choice_label characteristics_config with
    | Some found => Return (Some found)
    | None => Raise (ValueError [PStr (not_found_message concept_name choice_label)])
    end.

(** The dataset of one code. *)
Definition code_dataset (c : Code) : Dataset :=
  set_attr "CodeMeaning" (VStr (CodeMeaning c))
    (set_attr "CodingSchemeDesignator" (VStr (CodingSchemeDesignator c))
       (set_attr "CodeValue" (VStr (CodeValue c)) [])).

Definition create_dataset_from_characteristics (characteristics_dict : Characteristics)
    : Dataset :=
  let ds := set_attr "ValueType" (VStr "CODE")
              (set_attr "RelationshipType" (VStr "CONTAINS") []) in
  let concept_name_code_sequence :=
    code_dataset (found_ConceptNameCodeSequence characteristics_dict) in
  let ds := set_attr "ConceptNameCodeSequence" (VSeq [concept_name_code_sequence]) ds in
  let concept_code_sequence :=
    code_dataset (found_ConceptCodeSequence characteristics_dict) in
  set_attr "ConceptCodeSequence" (VSeq [concept_code_sequence]) ds.

(** ** The segment characteristics store *)

(** The characteristics of one segment: a dict from concept name to choice
    label, as the list of its items in insertion order. *)
Abbreviation Entry := (list (string * string)).

(** A segment of the segmentation node, as far as the module reads it. *)
Record Segment : Type := mkSegment { GetName : string; GetLabelValue : Z }.

(** [{s: c for s, c in self.segment_characteristics.items() if s in segment_ids}] *)
Definition prune (segment_ids : list Z) (store : gmap Z Entry) : gmap Z Entry :=
  filter (fun sc => sc.1 ∈ segment_ids) store.

(** [if segmentID not in self.segment_characteristics: ...[segmentID] = {}] *)
Definition get_or_create (segmentID : Z) (store : gmap Z Entry) : gmap Z Entry :=
  match store !! segmentID with
  | Some _ => store
  | None => <[segmentID := []]> store
  end.

(** What [updateSegmentationCharacteristics] does to the store (the widgets it
    rebuilds are left out). *)
Definition updateSegmentationCharacteristics_store (segments : list Segment)
    (store : gmap Z Entry) : gmap Z Entry :=
  let segment_ids := map GetLabelValue segments in
  let new_segment_characteristics := prune segment_ids store in
  fold_left (fun st segment => get_or_create (GetLabelValue segment) st)
    segments new_segment_characteristics.

(** [sorted(self.segment_characteristics)] *)
Definition sorted_keys (store : gmap Z Entry) : list Z :=
  merge_sort Z.le (map fst (map_to_list store)).

(** ** The widget state, the host's answers and the monad of the methods *)

(** The [DICOMSegmentationExporter] object, as far as the widget reads it. *)
Record Exporter : Type := mkExporter { tempDir : string; currentDateTime : string }.

(** The calls that write, read or register the files of a report, and the
    two cleanups, in the order they are made.  The calls that only query the
    scene or the user ([hiddenSegmentsAvailable], [confirmYesNoDisplay],
    [updateMeasurementsTable], [getVisibleSegments], [getSeriesAttributes],
    [getDICOMFileList], [generateJSON4DcmSR]) are not recorded. *)
Inductive Event : Type :=
| EvExport (segFileName : string)
| EvDatabaseInsert (path : string)
| EvSaveJSON (path : string)
| EvCliRun (outputFileName : string)
| EvDcmRead (path : string)
| EvSaveAs (path : string)
| EvIndexerAddFile (path : string)
| EvCleanupTemporaryData
| EvExporterCleanup (dir : string).

(** The fields of [self] the report assembly uses, and the DICOM files on
    disk (parsed).  The JSON file that [createDICOMSR] writes for the SR
    writer is not a DICOM file: its write is recorded as a call
    ([EvSaveJSON]) only, and no statement is made about the path it is
    written to. *)
Record World : Type := mkWorld {
  segment_characteristics : gmap Z Entry;
  characteristics_config : list CatalogEntry;
  dicomSegmentationExporter : option Exporter;
  _metadata : option (list (string * string));
  files : gmap string Dataset
}.

(** What the collaborators outside this file answer during one save. *)
Record Env : Type := mkEnv {
  (** [FormsDialog.exec_()] and [getData()]: [None] when the dialog is rejected *)
  user_metadata : option (list (string * string));
  (** [DICOMSegmentationExporter(segmentationNode)] *)
  new_exporter : Outcome Exporter;
  (** [exporter.export(...)]: the SEG file it writes, or what it raises *)
  export_result : Outcome Dataset;
  (** [slicer.dicomDatabase.insert(path)] *)
  database_insert_result : option exn;
  (** [getSeriesAttributes()] and [getDICOMFileList(masterVolumeNode)] *)
  series_attributes_result : option exn;
  (** [segmentStatisticsLogic.generateJSON4DcmSR(...)] *)
  measurements_result : option exn;
  (** [slicer.cli.run(tid1500writer, ...)]: the status string of the node and
      the file written at [outputFileName], if any *)
  cli_status : string;
  cli_output : option Dataset;
  (** [ctkDICOMIndexer().addFile(...)] *)
  indexer_result : option exn
}.

(** The result of running a method: its outcome, the state it leaves and the
    calls it made. *)
Record Step (A : Type) : Type := mkStep {
  outcome : Outcome A;
  world : World;
  events : list Event
}.
Arguments mkStep {A} _ _ _.
Arguments outcome {A} _.
Arguments world {A} _.
Arguments events {A} _.

Definition M (A : Type) : Type := World -> Step A.

#[global] Instance M_ret : MRet M := fun A a w => mkStep (Return a) w [].

#[global] Instance M_bind : MBind M := fun A B f m w =>
  let r := m w in
  match outcome r with
  | Return a => let r2 := f a (world r) in
                mkStep (outcome r2) (world r2) (events r ++ events r2)
  | Raise e => mkStep (Raise e) (world r) (events r)
  end.

Definition raise {A} (e : exn) : M A := fun w => mkStep (Raise e) w [].
Definition lift {A} (o : Outcome A) : M A := fun w => mkStep o w [].
Definition gets {A} (f : World -> A) : M A := fun w => mkStep (Return (f w)) w [].
Definition modify (f : World -> World) : M unit := fun w => mkStep (Return tt) (f w) [].
Definition emit (ev : Event) : M unit := fun w => mkStep (Return tt) w [ev].

(** An external call that either returns or raises. *)
Definition external (r : option exn) : M unit :=
  match r with
  | None => mret tt
  | Some e => raise e
  end.

(** [try: body  except c1 as exc: h1(exc)  except c2 as exc: h2(exc) ...]: the
    first clause that matches handles the exception; what a handler raises is
    not offered to the other clauses. *)
Definition try_except {A} (body : M A) (clauses : list (list string * (exn -> M A)))
    : M A := fun w =>
  let r := body w in
  match outcome r with
  | Return a => r
  | Raise e =>
      match find (fun cl => caught_by e cl.1) clauses with
      | Some cl =>
          let r2 := cl.2 e (world r) in
          mkStep (outcome r2) (world r2) (events r ++ events r2)
      | None => r
      end
  end.

(** [try: body  finally: final]: [final] runs whatever [body] did; when it
    returns, the outcome of [body] stands. *)
Definition try_finally {A} (body : M A) (final : M unit) : M A := fun w =>
  let r := body w in
  let r2 := final (world r) in
  match outcome r2 with
  | Return _ => mkStep (outcome r) (world r2) (events r ++ events r2)
  | Raise e => mkStep (Raise e) (world r2) (events r ++ events r2)
  end.

Definition set_files (f : gmap string Dataset) (w : World) : World :=
  mkWorld (segment_characteristics w) (characteristics_config w)
    (dicomSegmentationExporter w) (_metadata w) f.

Definition set_exporter (e : option Exporter) (w : World) : World :=
  mkWorld (segment_characteristics w) (characteristics_config w)
    e (_metadata w) (files w).

Definition set_metadata (m : option (list (string * string))) (w : World) : World :=
  mkWorld (segment_characteristics w) (characteristics_config w)
    (dicomSegmentationExporter w) m (files w).

(** [pydicom.dcmread(path)] *)
Definition dcmread (path : string) : M Dataset :=
  _ ← emit (EvDcmRead path);
  fs ← gets files;
  match fs !! path with
  | Some ds => mret ds
  | None => raise (FileNotFoundError [PInt 2; PStr "No such file or directory"])
  end.

(** [ds.save_as(path)] *)
Definition save_as (ds : Dataset) (path : string) : M unit :=
  _ ← emit (EvSaveAs path);
  modify (fun w => set_files (<[path := ds]> (files w)) w).

(** ** The merge of the characteristics into the SR content tree *)

(** The inner loop of the merge, for one SR content item and the items of one
    segment's characteristics: every resolved pair is appended to
    [dataset.ContentSequence], every ["N/A"] is skipped. *)
Fixpoint append_characteristics (config : list CatalogEntry) (dataset : Dataset)
    (items : Entry) : Outcome Dataset :=
  match items with
  | [] => Return dataset
  | (concept_name, choice_label) :: rest =>
      characteristics ←
        _find_characteristics_from_concept_name_and_choice concept_name choice_label config;
      match characteristics with
      | None => append_characteristics config dataset rest
      | Some found =>
          let characteristics_ds := create_dataset_from_characteristics found in
          content ← attr_seq "Dataset" "ContentSequence" dataset;
          append_characteristics config
            (set_attr "ContentSequence" (VSeq (content ++ [characteristics_ds])) dataset)
            rest
      end
  end.

(** The outer loop, [for dataset, key in zip(children, sorted_keys)]: the
    paired content items are updated in place, the unpaired ones are not
    visited. *)
Fixpoint merge_characteristics (store : gmap Z Entry) (config : list CatalogEntry)
    (children : list Dataset) (keys : list Z) : Outcome (list Dataset) :=
  match children, keys with
  | dataset :: children', key :: keys' =>
      entry ← match store !! key with
              | Some entry => Return entry
              | None => Raise (KeyError [PInt key])
              end;
      dataset' ← append_characteristics config dataset entry;
      rest ← merge_characteristics store config children' keys';
      Return (dataset' :: rest)
  | _, _ => Return children
  end.

(** [seq[i]] *)
Definition index {A} (l : list A) (i : nat) : Outcome A :=
  match l !! i with
  | Some x => Return x
  | None => Raise (IndexError [PStr "list index out of range"])
  end.

Definition consistency_message (seg_ds : Dataset) (store : gmap Z Entry) : string :=
  "Number of segmentation (" ++ pretty (length seg_ds)
    ++ ") in SEG DICOM != Number of segmentation charateristics ("
    ++ pretty (size store) ++ ")".

(** ** The methods of the widget *)

Section Methods.

Variable env : Env.

Definition truthy_metadata (m : option (list (string * string))) : bool :=
  match m with
  | Some (_ :: _) => true
  | _ => false
  end.

Definition truthy_str (s : string) : bool := negb (String.eqb s "").

(** [self._metadata[key]] *)
Definition metadata_item (key : string) : M string :=
  md ← gets _metadata;
  match md with
  | None => raise (TypeError [PStr "'NoneType' object is not subscriptable"])
  | Some d =>
      match dict_get key d with
      | Some v => mret v
      | None => raise (KeyError [PStr key])
      end
  end.

(** Only the reads that can fail are kept; the dict built is handed to the
    external SR writer. *)
Definition _getAdditionalSRInformation (completed : bool) : M unit :=
  _ ← metadata_item "ContentCreatorName";
  _ ← metadata_item "ClinicalTrialTimePointID";
  mret tt.

Definition exporter_export (dcmSegmentationPath : string) : M unit :=
  _ ← emit (EvExport dcmSegmentationPath);
  match export_result env with
  | Return seg => modify (fun w => set_files (<[dcmSegmentationPath := seg]> (files w)) w)
  | Raise e => raise e
  end.

(** The check for hidden segments, the question to the user and the update
    of the measurements table that follows it only choose the [segmentIDs]
    handed to the exporter and touch neither the store nor the files; they
    are taken to return.  What the exporter then does is [export_result]. *)
Definition createSEG : M string :=
  exporter ← lift (new_exporter env);
  _ ← modify (set_exporter (Some exporter));
  let segFilename : string :=
    "quantitative_reporting_export.SEG" +:+ currentDateTime exporter +:+ ".dcm" in
  let dcmSegmentationPath := path_join (tempDir exporter) segFilename in
  _ ← try_except
        (_ ← try_except (exporter_export dcmSegmentationPath)
               [ (["DICOMSegmentationExporter.MissingAttributeError"],
                  fun exc => raise (ValueError
                    [PStr ("Missing attributes: " +:+ str_exn exc +:+ " ")]));
                 (["DICOMSegmentationExporter.EmptySegmentsFoundError"],
                  fun _ => raise (ValueError
                    [PStr "Empty segments found. Please make sure that there are no empty segments."])) ];
         _ ← emit (EvDatabaseInsert dcmSegmentationPath);
         external (database_insert_result env))
        [ (["DICOMSegmentationExporter.NoNonEmptySegmentsFoundError"; "ValueError"],
           fun exc => raise (ValueError [PTuple (args exc)])) ];
  mret dcmSegmentationPath.

Definition run_tid1500writer (outputFileName : string) : M string :=
  _ ← emit (EvCliRun outputFileName);
  _ ← match cli_output env with
      | Some sr => modify (fun w => set_files (<[outputFileName := sr]> (files w)) w)
      | None => mret tt
      end;
  mret (cli_status env).

(** The second half of [createDICOMSR], from the read of the SEG dataset
    on: the consistency check and the merge into the SR dataset. *)
Definition merge_into_SR (referencedSegmentation outputSRPath : string) : M string :=
  seg_ds ← dcmread referencedSegmentation;
  store ← gets segment_characteristics;
  let sorted_segment_characteristics_keys := sorted_keys store in
  SegmentSequence ← lift (attr_seq "FileDataset" "SegmentSequence" seg_ds);
  if negb (length SegmentSequence =? length sorted_segment_characteristics_keys)%nat
  then raise (ValueError [PStr (consistency_message seg_ds store)])
  else
    sr_ds ← dcmread outputSRPath;
    root ← lift (attr_seq "FileDataset" "ContentSequence" sr_ds);
    container ← lift (index root 5);
    children ← lift (attr_seq "Dataset" "ContentSequence" container);
    config ← gets characteristics_config;
    children' ← lift (merge_characteristics store config children
                        sorted_segment_characteristics_keys);
    let container' := set_attr "ContentSequence" (VSeq children') container in
    let sr_ds' := set_attr "ContentSequence" (VSeq (<[5 := container']> root)) sr_ds in
    _ ← save_as sr_ds' outputSRPath;
    mret outputSRPath.

(** The dict [data] is handed to the SR writer through [saveJSON]; of its
    construction the calls that can fail are kept, of [saveJSON] the call. *)
Definition createDICOMSR (referencedSegmentation : string) (completed : bool)
    : M string :=
  exporter ← gets dicomSegmentationExporter;
  match exporter with
  | None => raise (AttributeError
              [PStr "'NoneType' object has no attribute 'getSeriesAttributes'"])
  | Some exporter =>
      _ ← external (series_attributes_result env);
      _ ← _getAdditionalSRInformation completed;
      _ ← external (measurements_result env);
      let metaFilePath := path_join (tempDir exporter) "sr_meta.json" in
      _ ← emit (EvSaveJSON metaFilePath);
      let outputSRPath := path_join (tempDir exporter) "sr.dcm" in
      status ← run_tid1500writer outputSRPath;
      if negb (String.eqb status "Completed") then
        raise (Exception [PStr "tid1500writer CLI did not complete cleanly"])
      else merge_into_SR referencedSegmentation outputSRPath
  end.

Definition cleanupTemporaryData : M unit :=
  _ ← emit EvCleanupTemporaryData;
  exporter ← gets dicomSegmentationExporter;
  _ ← match exporter with
      | Some e => emit (EvExporterCleanup (tempDir e))
      | None => mret tt
      end;
  modify (set_exporter None).

Definition indexer_addFile (path : string) : M unit :=
  _ ← emit (EvIndexerAddFile path);
  external (indexer_result env).

(** The [try] block of [saveReport]; [Some v] stands for [return v] inside
    the block, [None] for falling out of it. *)
Definition saveReport_try (completed : bool) : M (option (bool * PyVal)) :=
  try_except
    (dcmSegPath ← createSEG;
     dcmSRPath ← createDICOMSR dcmSegPath completed;
     _ ← (if (truthy_str dcmSegPath && truthy_str dcmSRPath)%bool then
            _ ← indexer_addFile dcmSegPath;
            indexer_addFile dcmSRPath
          else mret tt);
     mret None)
    [ (["RuntimeError"; "ValueError"; "AttributeError"],
       fun exc => mret (Some (false, PTuple (args exc)))) ].

Definition saveReport (completed : bool) : M (bool * PyVal) :=
  _ ← modify (set_metadata (user_metadata env));
  md ← gets _metadata;
  if negb (truthy_metadata md) then
    mret (false,
          PStr "Saving process canceled. Meta-information was not confirmed by user.")
  else
    early ← try_finally (saveReport_try completed) cleanupTemporaryData;
    match early with
    | Some v => mret v
    | None => mret (true, PNone)
    end.

End Methods.

(** * Predicates and examples used in the statements *)

(** The entry is named [concept_name]. *)
Definition names (concept_name : string) (i : CatalogEntry) : bool :=
  String.eqb (CodeMeaning (ConceptNameCodeSequence i)) concept_name.

(** The entry has a choice displayed as [choice_label]. *)
Definition offers (choice_label : string) (i : CatalogEntry) : bool :=
  existsb (fun j => String.eqb (CodeMeaning j) choice_label) (choices i).

(** The invariants the catalog is expected to satisfy, which the code does not
    check. *)
Definition unique_concept_names (config : list CatalogEntry) : Prop :=
  NoDup (map (fun i => CodeMeaning (ConceptNameCodeSequence i)) config).

Definition unique_choice_meanings (i : CatalogEntry) : Prop :=
  NoDup (map CodeMeaning (choices i)).

(** A catalog with two entries displayed as "Shape": the first one does not
    offer "Irregular", the second one does. *)
Definition shape_round : CatalogEntry :=
  mkEntry (mkCode "S1" "99QR" "Shape") [mkCode "N" "99QR" "N/A"; mkCode "A" "99QR" "Round"].

Definition shape_irregular : CatalogEntry :=
  mkEntry (mkCode "S2" "99QR" "Shape") [mkCode "B" "99QR" "Irregular"].

(** The items of an entry that carry a selection. *)
Definition selected (entry : Entry) : Entry :=
  List.filter (fun kv => negb (String.eqb kv.2 "N/A")) entry.

(** The pair (concept name, label) is found in the catalog. *)
Definition in_catalog (config : list CatalogEntry) (kv : string * string) : bool :=
  existsb (fun i => names kv.1 i && offers kv.2 i) config.

(** Every selection of the entry is found in the catalog. *)
Definition resolvable (config : list CatalogEntry) (entry : Entry) : bool :=
  forallb (in_catalog config) (selected entry).

(** What the lookup answers for the selections of an entry, in order. *)
Definition resolved (config : list CatalogEntry) (entry : Entry) : list Characteristics :=
  omap (fun kv => scan_config kv.1 kv.2 config) (selected entry).

(** The content item [child] with the coded items of [entry] appended to its
    content sequence, everything else as it was. *)
Definition gain (config : list CatalogEntry) (entry : Entry) (child : Dataset) : Dataset :=
  set_attr "ContentSequence"
    (VSeq (default [] (get_seq "ContentSequence" child)
             ++ map create_dataset_from_characteristics (resolved config entry)))
    child.

(** The paired content items can all be merged: their key has an entry whose
    selections are in the catalog, and they have a content sequence. *)
Definition pairs_resolvable (store : gmap Z Entry) (config : list CatalogEntry)
    (children : list Dataset) (keys : list Z) : Prop :=
  forall n child key entry,
    children !! n = Some child -> keys !! n = Some key -> store !! key = Some entry ->
    resolvable config entry = true /\ is_Some (get_seq "ContentSequence" child).

(** The content items of position 5 after the merge, as the zip pairs them
    with the keys: each item that has a key gains the coded items of that
    key's entry, and the items beyond the last key follow as they are. *)
Definition merged (store : gmap Z Entry) (config : list CatalogEntry)
    (children : list Dataset) (keys : list Z) : list Dataset :=
  zip_with (fun child key => gain config (default [] (store !! key)) child) children keys
    ++ drop (length keys) children.

(** The files once the SR writer has run. *)
Definition files_after_cli (env : Env) (outputSRPath : string)
    (fs : gmap string Dataset) : gmap string Dataset :=
  match cli_output env with
  | Some sr => <[outputSRPath := sr]> fs
  | None => fs
  end.

(** The first half of [createDICOMSR] goes through: the exporter is there, the
    collaborators return, the metadata holds what is read from it and the SR
    writer reports a clean completion. *)
Record generated (env : Env) (w : World) (exporter : Exporter) : Prop := {
  gen_exporter : dicomSegmentationExporter w = Some exporter;
  gen_series : series_attributes_result env = None;
  gen_creator : is_Some (_metadata w ≫= dict_get "ContentCreatorName");
  gen_timepoint : is_Some (_metadata w ≫= dict_get "ClinicalTrialTimePointID");
  gen_measurements : measurements_result env = None;
  gen_status : cli_status env = "Completed"
}.

(** The SEG dataset is on disk and has a segment sequence. *)
Record seg_readable (fs : gmap string Dataset) (referencedSegmentation : string)
    (seg_ds : Dataset) (SegmentSequence : list Dataset) : Prop := {
  seg_file : fs !! referencedSegmentation = Some seg_ds;
  seg_sequence : get_seq "SegmentSequence" seg_ds = Some SegmentSequence
}.

(** The SR dataset is on disk and has, at position 5 of its root content
    sequence, a container with a content sequence. *)
Record sr_readable (fs : gmap string Dataset) (outputSRPath : string)
    (sr_ds : Dataset) (root : list Dataset) (container : Dataset)
    (children : list Dataset) : Prop := {
  sr_file : fs !! outputSRPath = Some sr_ds;
  sr_root : get_seq "ContentSequence" sr_ds = Some root;
  sr_container : root !! 5%nat = Some container;
  sr_children : get_seq "ContentSequence" container = Some children
}.

(** The SR dataset with the children of its position 5 replaced. *)
Definition with_children (sr_ds : Dataset) (root : list Dataset) (container : Dataset)
    (children' : list Dataset) : Dataset :=
  set_attr "ContentSequence"
    (VSeq (<[5%nat := set_attr "ContentSequence" (VSeq children') container]> root))
    sr_ds.

Definition sr_path (exporter : Exporter) : string := path_join (tempDir exporter) "sr.dcm".

Definition sr_meta_path (exporter : Exporter) : string :=
  path_join (tempDir exporter) "sr_meta.json".

(** A step that follows the calls [evs]. *)
Definition after {A} (evs : list Event) (r : Step A) : Step A :=
  mkStep (outcome r) (world r) (evs ++ events r).

(** ** A report session used in the examples *)

Module Example.

Definition metadata : list (string * string) :=
  [("ContentCreatorName", "Reader1"); ("ClinicalTrialTimePointID", "1")].

Definition exporter : Exporter := mkExporter "/tmp/qr" "20200101".

Definition seg_path : string :=
  "/tmp/qr/quantitative_reporting_export.SEG20200101.dcm".

Definition segment (n : string) : Dataset := [("SegmentLabel", VStr n)].

(** A SEG dataset with two segments. *)
Definition seg2 : Dataset :=
  [("Modality", VStr "SEG"); ("SegmentSequence", VSeq [segment "a"; segment "b"])].

(** A SEG dataset with three segments. *)
Definition seg3 : Dataset :=
  [("Modality", VStr "SEG");
   ("SegmentSequence", VSeq [segment "a"; segment "b"; segment "c"])].

Definition leaf (n : string) : Dataset := [("TextValue", VStr n)].

(** The measurement group of one segment in the SR. *)
Definition group (n : string) : Dataset :=
  [("TextValue", VStr n); ("ContentSequence", VSeq [leaf "Volume"])].

Definition container (children : list Dataset) : Dataset :=
  [("ValueType", VStr "CONTAINER"); ("ContentSequence", VSeq children)].

Definition root (children : list Dataset) : list Dataset :=
  [leaf "0"; leaf "1"; leaf "2"; leaf "3"; leaf "4"; container children].

(** The SR dataset the writer produces, with the given measurement groups. *)
Definition sr (children : list Dataset) : Dataset :=
  [("Modality", VStr "SR"); ("ContentSequence", VSeq (root children))].

(** Segment 7 is "Round", segment 12 has no selection. *)
Definition store : gmap Z Entry :=
  <[12%Z := [("Shape", "N/A")]]> (<[7%Z := [("Shape", "Round")]]> ∅).

(** Segment 12 carries a label the catalog does not have. *)
Definition store_unknown_label : gmap Z Entry :=
  <[12%Z := [("Shape", "Square")]]> (<[7%Z := [("Shape", "Round")]]> ∅).

Definition widget (st : gmap Z Entry) (seg : Dataset) : World :=
  mkWorld st [shape_round] (Some exporter) (Some metadata) (<[seg_path := seg]> ∅).

(** Every collaborator returns; the SR writer ends with [status] and writes
    [sr children]. *)
Definition host (seg : Dataset) (status : string) (children : list Dataset) : Env :=
  mkEnv (Some metadata) (Return exporter) (Return seg) None None None
    status (Some (sr children)) None.

End Example.

(** * Further parts of the module *)

(** ** The path and the faults of [createSEG] *)

(** The path [createSEG] gives to the SEG file. *)
Definition seg_file_path (exporter : Exporter) : string :=
  path_join (tempDir exporter)
    ("quantitative_reporting_export.SEG" +:+ currentDateTime exporter +:+ ".dcm").

(** The classes of the exporter that [createSEG] names in its handlers. *)
Definition MissingAttributeError : string :=
  "DICOMSegmentationExporter.MissingAttributeError".
Definition EmptySegmentsFoundError : string :=
  "DICOMSegmentationExporter.EmptySegmentsFoundError".
Definition NoNonEmptySegmentsFoundError : string :=
  "DICOMSegmentationExporter.NoNonEmptySegmentsFoundError".

(** What [createSEG] raises when [exporter.export] raises [e]. *)
Definition export_fault (e : exn) : exn :=
  if isinstance e MissingAttributeError then
    ValueError [PTuple [PStr ("Missing attributes: " +:+ str_exn e +:+ " ")]]
  else if isinstance e EmptySegmentsFoundError then
    ValueError [PTuple
      [PStr "Empty segments found. Please make sure that there are no empty segments."]]
  else if (isinstance e NoNonEmptySegmentsFoundError || isinstance e "ValueError")%bool then
    ValueError [PTuple (args e)]
  else e.

(** The exception is one of those [createSEG] handles. *)
Definition is_export_fault (e : exn) : bool :=
  caught_by e [MissingAttributeError; EmptySegmentsFoundError;
               NoNonEmptySegmentsFoundError; "ValueError"].

(** What [createSEG] raises when [slicer.dicomDatabase.insert] raises [e]. *)
Definition insert_fault (e : exn) : exn :=
  if caught_by e [NoNonEmptySegmentsFoundError; "ValueError"]
  then ValueError [PTuple (args e)] else e.

(** ** The outcome of [saveReport] *)

(** The calls of a save that goes through, up to the cleanup. *)
Definition full_trace (exporter : Exporter) : list Event :=
  [EvExport (seg_file_path exporter); EvDatabaseInsert (seg_file_path exporter);
   EvSaveJSON (sr_meta_path exporter); EvCliRun (sr_path exporter);
   EvDcmRead (seg_file_path exporter); EvDcmRead (sr_path exporter);
   EvSaveAs (sr_path exporter);
   EvIndexerAddFile (seg_file_path exporter); EvIndexerAddFile (sr_path exporter)].

(** The path a call writes a file to, for the calls that write one. *)
Definition written (ev : Event) : option string :=
  match ev with
  | EvExport path | EvSaveJSON path | EvCliRun path | EvSaveAs path => Some path
  | _ => None
  end.

(** The calls [cleanupTemporaryData] makes in the state [w]. *)
Definition cleanup_events (w : World) : list Event :=
  EvCleanupTemporaryData ::
    match dicomSegmentationExporter w with
    | Some e => [EvExporterCleanup (tempDir e)]
    | None => []
    end.

(** The classes the handler of [saveReport] lists. *)
Definition saveReport_handled : list string :=
  ["RuntimeError"; "ValueError"; "AttributeError"].

(** What [saveReport] makes of an exception raised in its [try] block. *)
Definition surfaced (e : exn) : Outcome (bool * PyVal) :=
  if caught_by e saveReport_handled then Return (false, PTuple (args e)) else Raise e.

(** ** The characteristics dialog *)

(** [d[key] = v] on a dict given as the list of its items: the value of a key
    that is there is replaced in place, a new key goes to the end. *)
Fixpoint dict_set {V} (key : string) (v : V) (d : list (string * V)) : list (string * V) :=
  match d with
  | [] => [(key, v)]
  | (k, v0) :: rest =>
      if String.eqb k key then (k, v) :: rest
      else (k, v0) :: dict_set key v rest
  end.

(** A combo box of the dialog: the texts added to it with [addItem], and its
    current text. *)
Record ComboBox : Type := mkComboBox { combo_items : list string; currentText : string }.

(** The loop of [CharacteristicsWindow.__init__] over the catalog: the keys of
    [characteristic_widgets] and the items of the combo box of each key. *)
Definition characteristic_widget_items (config : list CatalogEntry)
    : list (string * list string) :=
  fold_left
    (fun widgets characteristic =>
       let char_name := CodeMeaning (ConceptNameCodeSequence characteristic) in
       dict_set char_name (map CodeMeaning (choices characteristic)) widgets)
    config [].

(** [CharacteristicsWindow._set_characteristics_data_and_close], on the dict
    of the segment the dialog was opened on. *)
Definition _set_characteristics_data_and_close
    (characteristic_widgets : list (string * ComboBox)) (segment_characteristics : Entry)
    : Entry :=
  fold_left (fun entry cw => dict_set cw.1 (currentText cw.2) entry)
    characteristic_widgets segment_characteristics.

(** [open_characteristic_window]: the dialog is given the dict of the segment
    and changes it in place.  [accepted] is the state of the widgets when OK
    is clicked, [None] when the dialog is closed without it. *)
Definition open_characteristic_window (segment_index : Z)
    (accepted : option (list (string * ComboBox))) (store : gmap Z Entry)
    : Outcome (gmap Z Entry) :=
  match store !! segment_index with
  | None => Raise (KeyError [PInt segment_index])
  | Some entry =>
      match accepted with
      | Some characteristic_widgets =>
          Return (<[segment_index :=
                      _set_characteristics_data_and_close characteristic_widgets entry]>
                    store)
      | None => Return store
      end
  end.

(** The widgets are those the dialog builds from the catalog, and the current
    text of each is one of its items. *)
Definition dialog_of (config : list CatalogEntry)
    (characteristic_widgets : list (string * ComboBox)) : Prop :=
  map (fun cw => (cw.1, combo_items cw.2)) characteristic_widgets
  = characteristic_widget_items config /\
  Forall (fun cw => currentText cw.2 ∈ combo_items cw.2) characteristic_widgets.

(** Every selection of every entry of the store is in the catalog. *)
Definition store_resolvable (config : list CatalogEntry) (store : gmap Z Entry) : Prop :=
  forall key entry, store !! key = Some entry -> resolvable config entry = true.

(** ** The buttons that save *)

(** A message box shown to the user. *)
Inductive Dialog : Type :=
| InfoDisplay (text : string)
| WarningDisplay (err : PyVal).

(** What the two handlers set. *)
Record Buttons : Type := mkButtons {
  saveReportButton_enabled : bool;
  completeReportButton_enabled : bool;
  tableNode_readonly : bool
}.

(** The truth value of [err] in [if err:]. *)
Definition truthy (v : PyVal) : bool :=
  match v with
  | PNone => false
  | PInt z => negb (z =? 0)%Z
  | PStr s => negb (String.eqb s "")
  | PTuple items => match items with [] => false | _ :: _ => true end
  end.

(** The result of a click: the run of [saveReport], the buttons and the
    message boxes shown. *)
Record Click : Type := mkClick {
  click_run : Step unit;
  click_buttons : Buttons;
  click_dialogs : list Dialog
}.

Definition onSaveReportButtonClicked (env : Env) (w : World) (b : Buttons) : Click :=
  let r := saveReport env false w in
  match outcome r with
  | Raise e => mkClick (mkStep (Raise e) (world r) (events r)) b []
  | Return (success, err) =>
      mkClick (mkStep (Return tt) (world r) (events r))
        (mkButtons (negb success) (completeReportButton_enabled b) (tableNode_readonly b))
        ((if success
          then [InfoDisplay "Report successfully saved into SlicerDICOMDatabase"]
          else [])
           ++ (if truthy err then [WarningDisplay err] else []))
  end.

Definition onCompleteReportButtonClicked (env : Env) (w : World) (b : Buttons) : Click :=
  let r := saveReport env true w in
  match outcome r with
  | Raise e => mkClick (mkStep (Raise e) (world r) (events r)) b []
  | Return (success, err) =>
      mkClick (mkStep (Return tt) (world r) (events r))
        (mkButtons (negb success) (negb success)
           (if success then true else tableNode_readonly b))
        (if success
         then [InfoDisplay
                 "Report successfully completed and saved into SlicerDICOMDatabase"]
         else [WarningDisplay err])
  end.

(** ** More sessions used in the examples *)

Module Cases.

(** The export raises [e]; every other collaborator returns. *)
Definition host_export_raises (e : exn) : Env :=
  mkEnv (Some Example.metadata) (Return Example.exporter) (Raise e) None None None
    "Completed" None None.

(** The metadata dialog answers [md]; every other collaborator returns. *)
Definition host_metadata (md : option (list (string * string))) : Env :=
  mkEnv md (Return Example.exporter) (Return Example.seg2) None None None
    "Completed" (Some (Example.sr [Example.group "a"; Example.group "b"])) None.

(** The exporter reports missing attributes. *)
Definition missing_attribute : exn :=
  mkExn [MissingAttributeError; "ValueError"; "Exception"; "BaseException"; "object"]
    [PStr "SeriesDescription"].

(** Two visible segments. *)
Definition segments : list Segment := [mkSegment "tumor" 7; mkSegment "edema" 12].

(** Nothing is selected for either segment. *)
Definition store_without_selection : gmap Z Entry :=
  <[12%Z := []]> (<[7%Z := [("Shape", "N/A")]]> ∅).

(** The dialog built from the catalog [[shape_round]], with "Round" chosen. *)
Definition round_chosen : list (string * ComboBox) :=
  [("Shape", mkComboBox ["N/A"; "Round"] "Round")].

End Cases.

(** * Properties *)

(** ** The lookup *)

Section Lookup.

Implicit Types (concept_name choice_label : string) (config : list CatalogEntry).

Lemma scan_choices_Some choice_label cs j :
  scan_choices choice_label cs = Some j ->
  j ∈ cs /\ CodeMeaning j = choice_label.
Proof.
  induction cs as [|c cs IH]; simpl; [discriminate|].
  destruct (String.eqb_spec (CodeMeaning c) choice_label) as [E|E].
  - intros [= <-]. split; [constructor | exact E].
  - intros H. destruct (IH H) as [Hin Hm]. split; [by constructor | exact Hm].
Qed.

Lemma scan_choices_None choice_label cs :
  scan_choices choice_label cs = None <->
  forall j, j ∈ cs -> CodeMeaning j ≠ choice_label.
Proof.
  induction cs as [|c cs IH]; simpl.
  - split; [intros _ j Hj; inversion Hj | reflexivity].
  - destruct (String.eqb_spec (CodeMeaning c) choice_label) as [E|E].
    + split; [discriminate|]. intros H. exfalso. apply (H c); [constructor | exact E].
    + rewrite IH. split.
      * intros H j Hj. inversion Hj; subst; auto.
      * intros H j Hj. apply H. by constructor.
Qed.

Lemma offers_scan_choices choice_label i :
  offers choice_label i = true <-> is_Some (scan_choices choice_label (choices i)).
Proof.
  unfold offers. induction (choices i) as [|c cs IH]; simpl.
  - split; [discriminate | intros [? ?]; discriminate].
  - destruct (String.eqb (CodeMeaning c) choice_label); simpl; [|exact IH].
    split; eauto.
Qed.

(** The scan returns the codes of the first entry that is named
    [concept_name] and offers [choice_label], with the first such choice. *)
Lemma scan_config_Some concept_name choice_label config found :
  scan_config concept_name choice_label config = Some found ->
  exists i j,
    find (fun i => names concept_name i && offers choice_label i) config = Some i /\
    scan_choices choice_label (choices i) = Some j /\
    found = mkCharacteristics (ConceptNameCodeSequence i) j.
Proof.
  induction config as [|e config IH]; simpl; [discriminate|].
  unfold names at 1.
  destruct (String.eqb (CodeMeaning (ConceptNameCodeSequence e)) concept_name); simpl.
  - destruct (scan_choices choice_label (choices e)) as [j|] eqn:Hj.
    + intros [= <-]. exists e, j.
      assert (offers choice_label e = true) as ->
        by (apply offers_scan_choices; rewrite Hj; eauto).
      auto.
    + assert (offers choice_label e = false) as ->.
      { destruct (offers choice_label e) eqn:Ho; [|reflexivity].
        apply offers_scan_choices in Ho. rewrite Hj in Ho.
        destruct Ho as [? ?]; discriminate. }
      exact IH.
  - exact IH.
Qed.

Lemma scan_config_None concept_name choice_label config :
  scan_config concept_name choice_label config = None <->
  forall i, i ∈ config ->
    CodeMeaning (ConceptNameCodeSequence i) = concept_name ->
    forall j, j ∈ choices i -> CodeMeaning j ≠ choice_label.
Proof.
  induction config as [|e config IH]; simpl.
  - split; [intros _ i Hi; inversion Hi | reflexivity].
  - destruct (String.eqb_spec (CodeMeaning (ConceptNameCodeSequence e)) concept_name)
      as [E|E].
    + destruct (scan_choices choice_label (choices e)) as [j|] eqn:Hj.
      * split; [discriminate|]. intros H. exfalso.
        apply scan_choices_Some in Hj as [Hin Hm]. exact (H e ltac:(constructor) E j Hin Hm).
      * rewrite IH. split.
        -- intros H i Hi. inversion Hi; subst; [|by apply H].
           intros _. by apply scan_choices_None.
        -- intros H i Hi. apply H. by constructor.
    + rewrite IH. split.
      * intros H i Hi. inversion Hi; subst; [contradiction | by apply H].
      * intros H i Hi. apply H. by constructor.
Qed.

Lemma find_characteristics_Some concept_name choice_label config found :
  _find_characteristics_from_concept_name_and_choice concept_name choice_label config
    = Return (Some found) ->
  scan_config concept_name choice_label config = Some found.
Proof.
  unfold _find_characteristics_from_concept_name_and_choice.
  destruct (String.eqb choice_label "N/A"); [discriminate|].
  destruct (scan_config concept_name choice_label config); [|discriminate].
  by intros [= ->].
Qed.

Lemma find_characteristics_not_NA concept_name choice_label config :
  choice_label ≠ "N/A" ->
  _find_characteristics_from_concept_name_and_choice concept_name choice_label config
  = match scan_config concept_name choice_label config with
    | Some found => Return (Some found)
    | None => Raise (ValueError [PStr (not_found_message concept_name choice_label)])
    end.
Proof.
  intros H. unfold _find_characteristics_from_concept_name_and_choice.
  by destruct (String.eqb_spec choice_label "N/A").
Qed.

(** Two members of a list that agree on an injective-on-the-list key are the
    same member. *)
Lemma NoDup_map_eq {A B} (f : A -> B) (l : list A) x y :
  NoDup (map f l) -> x ∈ l -> y ∈ l -> f x = f y -> x = y.
Proof.
  induction l as [|a l IH]; simpl; intros Hnd Hx Hy E; [inversion Hx|].
  apply NoDup_cons in Hnd as [Hna Hnd].
  inversion Hx; subst; inversion Hy; subst; auto.
  - exfalso. apply Hna. rewrite E. apply list_elem_of_fmap. eauto.
  - exfalso. apply Hna. rewrite <- E. apply list_elem_of_fmap. eauto.
Qed.

Lemma find_elem_of {A} (p : A -> bool) (l : list A) x :
  find p l = Some x -> x ∈ l /\ p x = true.
Proof.
  intros H. apply find_some in H as [Hin Hp]. split; [by apply list_elem_of_In | exact Hp].
Qed.

End Lookup.

(** C4, as stated, fails: with two entries named alike, the concept-name code
    returned need not be that of the first entry whose display meaning equals
    the concept name; the lookup returns the second entry's code when only
    that one offers the label. *)
Lemma C4_first_named_entry_counterexample :
  ~ (forall config concept_name choice_label found,
       choice_label ≠ "N/A" ->
       _find_characteristics_from_concept_name_and_choice concept_name choice_label config
         = Return (Some found) ->
       exists i, find (names concept_name) config = Some i /\
                 found_ConceptNameCodeSequence found = ConceptNameCodeSequence i).
Proof.
  intros H.
  destruct (H [shape_round; shape_irregular] "Shape" "Irregular"
              (mkCharacteristics (mkCode "S2" "99QR" "Shape") (mkCode "B" "99QR" "Irregular")))
    as (i & Hi & Hc).
  - discriminate.
  - reflexivity.
  - simpl in Hi. injection Hi as <-. discriminate Hc.
Qed.

(** C4, amended: when the lookup returns a result for a label other than
    "N/A", the concept-name code returned is that of the first catalog entry
    whose display meaning equals the concept name and which offers a choice
    displayed as the label. *)
Theorem C4_first_matching_pair_wins config concept_name choice_label found :
  choice_label ≠ "N/A" ->
  _find_characteristics_from_concept_name_and_choice concept_name choice_label config
    = Return (Some found) ->
  exists i,
    find (fun i => names concept_name i && offers choice_label i) config = Some i /\
    found_ConceptNameCodeSequence found = ConceptNameCodeSequence i.
Proof.
  intros _ H. apply find_characteristics_Some, scan_config_Some in H.
  destruct H as (i & j & Hfind & _ & ->). exists i. split; [exact Hfind | reflexivity].
Qed.

Lemma C4_first_matching_pair_wins_witness :
  exists i,
    find (fun i => names "Shape" i && offers "Irregular" i) [shape_round; shape_irregular]
      = Some i /\
    found_ConceptNameCodeSequence
      (mkCharacteristics (mkCode "S2" "99QR" "Shape") (mkCode "B" "99QR" "Irregular"))
    = ConceptNameCodeSequence i.
Proof.
  apply (C4_first_matching_pair_wins [shape_round; shape_irregular] "Shape" "Irregular").
  - discriminate.
  - reflexivity.
Defined.

(** When concept names are unique in the catalog, the first entry with the
    name is the only one, and it is the one the lookup answers from. *)
Lemma first_named_entry_when_unique config concept_name choice_label found :
  unique_concept_names config ->
  _find_characteristics_from_concept_name_and_choice concept_name choice_label config
    = Return (Some found) ->
  exists i, find (names concept_name) config = Some i /\
            found_ConceptNameCodeSequence found = ConceptNameCodeSequence i.
Proof.
  intros Hu H. apply find_characteristics_Some, scan_config_Some in H.
  destruct H as (i & j & Hfind & _ & ->).
  apply find_elem_of in Hfind as [Hin Hp]. apply andb_prop in Hp as [Hn _].
  destruct (find (names concept_name) config) as [i'|] eqn:Hf.
  - exists i'. split; [reflexivity|]. simpl.
    apply find_elem_of in Hf as [Hin' Hn'].
    unfold names in *. apply String.eqb_eq in Hn, Hn'.
    f_equal. eapply (NoDup_map_eq _ config); eauto. congruence.
  - exfalso. apply list_elem_of_In in Hin.
    pose proof (find_none _ _ Hf i Hin) as Hn'. congruence.
Qed.

(** The exception of the lookup is a [ValueError]: it is not an instance of
    Python's [LookupError], and it is among the classes [saveReport] catches. *)
Lemma lookup_fault_class (a : list PyVal) :
  isinstance (ValueError a) "ValueError" = true /\
  isinstance (ValueError a) "LookupError" = false /\
  caught_by (ValueError a) ["RuntimeError"; "ValueError"; "AttributeError"] = true.
Proof. repeat split. Qed.

(** C5: for a label other than "N/A", when no catalog entry named
    [concept_name] has a choice displayed as [choice_label] (the name is absent,
    or present without that choice), the lookup raises; the exception is a
    [ValueError] whose message contains both the concept name and the label. *)
Theorem C5_lookup_fault config concept_name choice_label :
  choice_label ≠ "N/A" ->
  (forall i, i ∈ config ->
     CodeMeaning (ConceptNameCodeSequence i) = concept_name ->
     forall j, j ∈ choices i -> CodeMeaning j ≠ choice_label) ->
  _find_characteristics_from_concept_name_and_choice concept_name choice_label config
    = Raise (ValueError [PStr (not_found_message concept_name choice_label)]) /\
  exists a b c : string,
    not_found_message concept_name choice_label
    = (a ++ concept_name ++ b ++ choice_label ++ c)%string.
Proof.
  intros Hna Hno. split.
  - rewrite find_characteristics_not_NA by exact Hna.
    apply scan_config_None in Hno. by rewrite Hno.
  - by exists "Concept name code (CodeMeaning=", ") with choices ", " not found".
Qed.

Lemma C5_lookup_fault_witness :
  _find_characteristics_from_concept_name_and_choice "Shape" "Square" [shape_round]
    = Raise (ValueError
        [PStr "Concept name code (CodeMeaning=Shape) with choices Square not found"]) /\
  _find_characteristics_from_concept_name_and_choice "Margin" "Round" [shape_round]
    = Raise (ValueError
        [PStr "Concept name code (CodeMeaning=Margin) with choices Round not found"]).
Proof.
  split.
  - apply (C5_lookup_fault [shape_round] "Shape" "Square"); [discriminate|].
    intros i Hi _ j Hj. apply list_elem_of_singleton in Hi as ->.
    simpl in Hj. apply elem_of_cons in Hj as [-> | Hj]; [discriminate|].
    apply list_elem_of_singleton in Hj as ->. discriminate.
  - apply (C5_lookup_fault [shape_round] "Margin" "Round"); [discriminate|].
    intros i Hi Hm. apply list_elem_of_singleton in Hi as ->. discriminate Hm.
Defined.

(** C6: for a pair (concept name, label) present in the catalog with a label
    other than "N/A", the lookup returns a concept-name code and a choice code
    taken unchanged from one entry of the catalog that carries this name and
    this label; under the catalog's uniqueness invariants they are the codes
    of the very entry and choice one started from. *)
Theorem C6_lookup_returns_catalog_pair config i j :
  i ∈ config -> j ∈ choices i -> CodeMeaning j ≠ "N/A" ->
  exists i' j',
    i' ∈ config /\ j' ∈ choices i' /\
    CodeMeaning (ConceptNameCodeSequence i') = CodeMeaning (ConceptNameCodeSequence i) /\
    CodeMeaning j' = CodeMeaning j /\
    _find_characteristics_from_concept_name_and_choice
      (CodeMeaning (ConceptNameCodeSequence i)) (CodeMeaning j) config
    = Return (Some (mkCharacteristics (ConceptNameCodeSequence i') j')) /\
    (unique_concept_names config -> unique_choice_meanings i -> i' = i /\ j' = j).
Proof.
  intros Hi Hj Hna.
  rewrite find_characteristics_not_NA by exact Hna.
  destruct (scan_config _ _ config) as [found|] eqn:Hs.
  - apply scan_config_Some in Hs as (i' & j' & Hfind & Hc & ->).
    apply find_elem_of in Hfind as [Hin' Hp]. apply andb_prop in Hp as [Hn _].
    apply String.eqb_eq in Hn. apply scan_choices_Some in Hc as [Hjin' Hm].
    exists i', j'. repeat split; auto.
    + eapply (NoDup_map_eq _ config); eauto.
    + assert (i' = i) as -> by (eapply (NoDup_map_eq _ config); eauto).
      eapply (NoDup_map_eq _ (choices i)); eauto.
  - exfalso. rewrite scan_config_None in Hs. exact (Hs i Hi eq_refl j Hj eq_refl).
Qed.

Lemma C6_lookup_returns_catalog_pair_witness :
  _find_characteristics_from_concept_name_and_choice "Shape" "Round" [shape_round]
  = Return (Some (mkCharacteristics (mkCode "S1" "99QR" "Shape") (mkCode "A" "99QR" "Round"))).
Proof.
  destruct (C6_lookup_returns_catalog_pair [shape_round] shape_round (mkCode "A" "99QR" "Round"))
    as (i' & j' & _ & _ & _ & _ & H & Hu).
  - apply list_elem_of_singleton. reflexivity.
  - simpl. apply elem_of_cons. right. apply list_elem_of_singleton. reflexivity.
  - discriminate.
  - destruct Hu as [-> ->].
    + unfold unique_concept_names. simpl. apply NoDup_singleton.
    + unfold unique_choice_meanings. simpl. apply NoDup_cons. split.
      * intros Hin. apply list_elem_of_singleton in Hin. discriminate Hin.
      * apply NoDup_singleton.
    + exact H.
Defined.

(** C7: with the label "N/A" the lookup returns [None], without raising,
    whatever the concept name and the catalog. *)
Theorem C7_not_applicable_is_absent concept_name config :
  _find_characteristics_from_concept_name_and_choice concept_name "N/A" config
  = Return None.
Proof. reflexivity. Qed.

(** ** The store *)

Lemma lookup_prune (segment_ids : list Z) (store : gmap Z Entry) (k : Z) :
  prune segment_ids store !! k =
  if decide (k ∈ segment_ids) then store !! k else None.
Proof.
  unfold prune. rewrite map_lookup_filter.
  destruct (store !! k) as [c|] eqn:Hk; simpl.
  - case_decide as Hin; simpl.
    + rewrite option_guard_True; [reflexivity | exact Hin].
    + rewrite option_guard_False; [reflexivity | exact Hin].
  - by case_decide.
Qed.

(** C8: pruning keeps the entry of a key that is a current segment identifier,
    with the characteristics it had, and removes the entry of every other
    key. *)
Theorem C8_prune_exact (store : gmap Z Entry) (segment_ids : list Z) (k : Z) :
  (k ∈ segment_ids -> prune segment_ids store !! k = store !! k) /\
  (k ∉ segment_ids -> prune segment_ids store !! k = None) /\
  (forall c, prune segment_ids store !! k = Some c <->
             store !! k = Some c /\ k ∈ segment_ids).
Proof.
  rewrite lookup_prune. split; [| split].
  - intros Hin. by rewrite decide_True.
  - intros Hnin. by rewrite decide_False.
  - intros c. case_decide as Hin.
    + split; [intros H; by split | by intros [H _]].
    + split; [discriminate | intros [_ H]; contradiction].
Qed.

(** [sorted(dict)] lists the keys of the dict, each once, in ascending order. *)
Lemma sorted_keys_Permutation (store : gmap Z Entry) :
  sorted_keys store ≡ₚ map fst (map_to_list store).
Proof. apply merge_sort_Permutation. Qed.

Lemma length_sorted_keys (store : gmap Z Entry) :
  length (sorted_keys store) = size store.
Proof.
  rewrite (Permutation_length (sorted_keys_Permutation store)).
  by rewrite length_map, length_map_to_list.
Qed.

Lemma elem_of_sorted_keys (store : gmap Z Entry) (k : Z) :
  k ∈ sorted_keys store <-> is_Some (store !! k).
Proof.
  rewrite (sorted_keys_Permutation store). split.
  - intros H. apply list_elem_of_fmap in H as ([k' c] & -> & H).
    apply elem_of_map_to_list in H. simpl. eauto.
  - intros [c Hc]. apply list_elem_of_fmap. exists (k, c).
    split; [reflexivity | by apply elem_of_map_to_list].
Qed.

Lemma sorted_keys_Sorted (store : gmap Z Entry) : Sorted Z.le (sorted_keys store).
Proof. apply (Sorted_merge_sort Z.le). Qed.

Lemma sorted_keys_NoDup (store : gmap Z Entry) : NoDup (sorted_keys store).
Proof.
  rewrite (sorted_keys_Permutation store). apply NoDup_fst_map_to_list.
Qed.

(** Pruning followed by the creation of the missing entries, as
    [updateSegmentationCharacteristics] does it, still leaves the surviving
    entries as they were. *)
Lemma get_or_create_lookup (store : gmap Z Entry) (s k : Z) (c : Entry) :
  store !! k = Some c -> get_or_create s store !! k = Some c.
Proof.
  intros H. unfold get_or_create. destruct (store !! s) eqn:Hs; [exact H|].
  rewrite lookup_insert_ne; [exact H | congruence].
Qed.

Lemma update_store_keeps (segments : list Segment) (store : gmap Z Entry) (k : Z) (c : Entry) :
  k ∈ map GetLabelValue segments -> store !! k = Some c ->
  updateSegmentationCharacteristics_store segments store !! k = Some c.
Proof.
  intros Hin Hk. unfold updateSegmentationCharacteristics_store.
  assert (prune (map GetLabelValue segments) store !! k = Some c) as H.
  { rewrite lookup_prune. by rewrite decide_True. }
  revert H. generalize (prune (map GetLabelValue segments) store). clear Hin Hk.
  induction segments as [|s segments IH] using rev_ind; intros st H; [exact H|].
  rewrite fold_left_app. simpl. apply get_or_create_lookup. apply IH.
  exact H.
Qed.

(** ** Datasets *)

Section DatasetLemmas.

Implicit Types (ds : Dataset) (k : string) (v : Value).

Lemma get_attr_set_attr k v ds : get_attr k (set_attr k v ds) = Some v.
Proof.
  unfold get_attr. induction ds as [|[k0 v0] ds IH]; simpl.
  - by rewrite String.eqb_refl.
  - destruct (String.eqb k0 k) eqn:E; simpl; rewrite E; [reflexivity | exact IH].
Qed.

Lemma get_attr_set_attr_ne k k' v ds :
  k ≠ k' -> get_attr k' (set_attr k v ds) = get_attr k' ds.
Proof.
  intros Hne. unfold get_attr. induction ds as [|[k0 v0] ds IH]; simpl.
  - destruct (String.eqb_spec k k'); [contradiction | reflexivity].
  - destruct (String.eqb_spec k0 k) as [->|E]; simpl.
    + destruct (String.eqb_spec k k'); [contradiction | reflexivity].
    + by rewrite IH.
Qed.

Lemma set_attr_set_attr k v1 v2 ds :
  set_attr k v2 (set_attr k v1 ds) = set_attr k v2 ds.
Proof.
  induction ds as [|[k0 v0] ds IH]; simpl.
  - by rewrite String.eqb_refl.
  - destruct (String.eqb k0 k) eqn:E; simpl; rewrite E; [reflexivity | by rewrite IH].
Qed.

Lemma set_attr_same k v ds : get_attr k ds = Some v -> set_attr k v ds = ds.
Proof.
  unfold get_attr. induction ds as [|[k0 v0] ds IH]; simpl; [discriminate|].
  destruct (String.eqb k0 k) eqn:E.
  - by intros [= ->].
  - intros H. by rewrite IH.
Qed.

Lemma get_seq_set_attr k items ds : get_seq k (set_attr k (VSeq items) ds) = Some items.
Proof. unfold get_seq. by rewrite get_attr_set_attr. Qed.

Lemma get_seq_get_attr k items ds :
  get_seq k ds = Some items -> get_attr k ds = Some (VSeq items).
Proof.
  unfold get_seq. destruct (get_attr k ds) as [[s|l]|]; try discriminate.
  by intros [= ->].
Qed.

End DatasetLemmas.

(** ** The merge loops *)

Section MergeLemmas.

Variable store : gmap Z Entry.
Variable config : list CatalogEntry.

Lemma in_catalog_scan_config concept_name choice_label :
  in_catalog config (concept_name, choice_label) = true ->
  is_Some (scan_config concept_name choice_label config).
Proof.
  intros H. destruct (scan_config concept_name choice_label config) eqn:Hs; [eauto|].
  exfalso. rewrite scan_config_None in Hs.
  apply existsb_exists in H as (i & Hi & Hp). apply andb_prop in Hp as [Hn Ho].
  apply existsb_exists in Ho as (j & Hj & Hm). simpl in *.
  apply String.eqb_eq in Hn, Hm. apply list_elem_of_In in Hi, Hj.
  exact (Hs i Hi Hn j Hj Hm).
Qed.

(** One coded item per selection: the lookup returns for each selection of
    a resolvable entry, and [resolved] lists what it returns. *)
Lemma resolved_spec entry :
  resolvable config entry = true ->
  Forall2 (fun kv found =>
             _find_characteristics_from_concept_name_and_choice kv.1 kv.2 config
             = Return (Some found))
          (selected entry) (resolved config entry).
Proof.
  unfold resolvable, resolved. induction entry as [|[cn cl] entry IH]; simpl.
  - constructor.
  - destruct (String.eqb_spec cl "N/A") as [->|Hna]; simpl; [exact IH|].
    intros H. apply andb_prop in H as [Hc Hr].
    destruct (in_catalog_scan_config _ _ Hc) as [found Hf]. rewrite Hf.
    constructor; [|by apply IH]. simpl.
    rewrite find_characteristics_not_NA by exact Hna. by rewrite Hf.
Qed.

Lemma length_resolved entry :
  resolvable config entry = true ->
  length (resolved config entry) = length (selected entry).
Proof. intros H. symmetry. eapply Forall2_length, resolved_spec, H. Qed.

Lemma append_characteristics_resolvable entry : forall dataset content,
  get_seq "ContentSequence" dataset = Some content ->
  resolvable config entry = true ->
  append_characteristics config dataset entry
  = Return (set_attr "ContentSequence"
              (VSeq (content
                       ++ map create_dataset_from_characteristics (resolved config entry)))
              dataset).
Proof.
  unfold resolvable, resolved.
  induction entry as [|[cn cl] entry IH]; intros dataset content Hc Hr; simpl.
  - rewrite app_nil_r, set_attr_same; [reflexivity | by apply get_seq_get_attr].
  - simpl in Hr. destruct (String.eqb_spec cl "N/A") as [->|Hna]; simpl in *.
    + by apply IH.
    + apply andb_prop in Hr as [Hin Hr].
      destruct (in_catalog_scan_config _ _ Hin) as [found Hf].
      rewrite find_characteristics_not_NA by exact Hna. rewrite Hf. simpl.
      unfold attr_seq. rewrite Hc. simpl.
      rewrite (IH _ (content ++ [create_dataset_from_characteristics found]));
        [| apply get_seq_set_attr | exact Hr].
      by rewrite set_attr_set_attr, <- app_assoc.
Qed.

(** The zip: what lies beyond the shorter of the two lists is not visited. *)
Lemma merge_characteristics_zip children : forall keys,
  merge_characteristics store config children keys
  = (paired ← merge_characteristics store config
                (take (Nat.min (length children) (length keys)) children)
                (take (Nat.min (length children) (length keys)) keys);
     Return (paired ++ drop (Nat.min (length children) (length keys)) children)).
Proof.
  induction children as [|c children IH]; intros [|k keys]; simpl; try reflexivity.
  destruct (store !! k) as [entry|]; simpl; [|reflexivity].
  destruct (append_characteristics config c entry) as [c'|e]; simpl; [|reflexivity].
  rewrite IH.
  destruct (merge_characteristics store config
              (take (Nat.min (length children) (length keys)) children)
              (take (Nat.min (length children) (length keys)) keys)); reflexivity.
Qed.

Lemma merge_characteristics_length children : forall keys merged,
  merge_characteristics store config children keys = Return merged ->
  length merged = length children.
Proof.
  induction children as [|c children IH]; intros [|k keys] merged; simpl;
    try (by intros [= <-]).
  destruct (store !! k) as [entry|]; simpl; [|discriminate].
  destruct (append_characteristics config c entry) as [c'|e]; simpl; [|discriminate].
  destruct (merge_characteristics store config children keys) as [rest|e] eqn:Hm;
    simpl; [|discriminate].
  intros [= <-]. simpl. f_equal. by eapply IH.
Qed.

Lemma merge_characteristics_resolvable children : forall keys,
  (forall key, key ∈ keys -> is_Some (store !! key)) ->
  pairs_resolvable store config children keys ->
  exists merged,
    merge_characteristics store config children keys = Return merged /\
    length merged = length children /\
    (forall n child key entry,
       children !! n = Some child -> keys !! n = Some key -> store !! key = Some entry ->
       merged !! n = Some (gain config entry child)) /\
    (forall n, (length keys <= n)%nat -> merged !! n = children !! n).
Proof.
  induction children as [|c children IH]; intros [|k keys] Hin Hp; simpl.
  - exists []. repeat split; auto. intros n ? ? ? H. by rewrite lookup_nil in H.
  - exists []. repeat split; auto. intros n ? ? ? H. by rewrite lookup_nil in H.
  - exists (c :: children). repeat split; auto. intros n ? ? ? _ H.
    by rewrite lookup_nil in H.
  - destruct (Hin k ltac:(constructor)) as [entry He]. rewrite He. simpl.
    destruct (Hp 0%nat c k entry eq_refl eq_refl He) as [Hr [content Hc]].
    rewrite (append_characteristics_resolvable entry c content Hc Hr). simpl.
    destruct (IH keys) as (rest & Hm & Hlen & Hpair & Hextra).
    { intros key Hk. apply Hin. by constructor. }
    { intros n child key en H1 H2 H3. exact (Hp (S n) child key en H1 H2 H3). }
    rewrite Hm. simpl. exists (gain config entry c :: rest).
    split; [| split; [| split]].
    + unfold gain. by rewrite Hc.
    + simpl. by rewrite Hlen.
    + intros [|n] child key en H1 H2 H3; simpl in *.
      * injection H1 as <-. injection H2 as <-. rewrite He in H3. by injection H3 as <-.
      * by eapply Hpair.
    + intros [|n] Hn; simpl in *; [lia|]. apply Hextra. lia.
Qed.

End MergeLemmas.

(** ** Running the methods *)

Lemma bind_Return {A B} (m : M A) (f : A -> M B) w a w1 evs :
  m w = mkStep (Return a) w1 evs ->
  (m ≫= f) w = after evs (f a w1).
Proof. intros H. unfold mbind, M_bind. by rewrite H. Qed.

Lemma bind_Raise {A B} (m : M A) (f : A -> M B) w e w1 evs :
  m w = mkStep (Raise e) w1 evs ->
  (m ≫= f) w = mkStep (Raise e) w1 evs.
Proof. intros H. unfold mbind, M_bind. by rewrite H. Qed.

Lemma ret_run {A} (a : A) w : (mret a : M A) w = mkStep (Return a) w [].
Proof. reflexivity. Qed.

Lemma gets_run {A} (f : World -> A) w : gets f w = mkStep (Return (f w)) w [].
Proof. reflexivity. Qed.

Lemma modify_run (f : World -> World) w : modify f w = mkStep (Return tt) (f w) [].
Proof. reflexivity. Qed.

Lemma emit_run ev w : emit ev w = mkStep (Return tt) w [ev].
Proof. reflexivity. Qed.

Lemma lift_run {A} (o : Outcome A) w : lift o w = mkStep o w [].
Proof. reflexivity. Qed.

Lemma raise_run {A} (e : exn) w : (raise e : M A) w = mkStep (Raise e) w [].
Proof. reflexivity. Qed.

(** One step of a run: the first action of a bind returns as [H] says. *)
Tactic Notation "run_bind" uconstr(H) :=
  rewrite (bind_Return _ _ _ _ _ _ H); cbv beta.

Section Runs.

Variable env : Env.

Lemma set_files_id w : set_files (files w) w = w.
Proof. by destruct w. Qed.

Lemma metadata_item_Some key w :
  is_Some (_metadata w ≫= dict_get key) ->
  exists v, metadata_item key w = mkStep (Return v) w [].
Proof.
  intros [v Hv]. exists v. unfold metadata_item, mbind, M_bind, gets. simpl.
  destruct (_metadata w) as [d|]; simpl in *; [|discriminate].
  by rewrite Hv.
Qed.

Lemma run_tid1500writer_run out w :
  run_tid1500writer env out w
  = mkStep (Return (cli_status env)) (set_files (files_after_cli env out (files w)) w)
      [EvCliRun out].
Proof.
  unfold run_tid1500writer, files_after_cli, mbind, M_bind, emit, modify. simpl.
  destruct (cli_output env); simpl; [reflexivity|]. by rewrite set_files_id.
Qed.

(** Past its first half, [createDICOMSR] is the merge run on the files the SR
    writer left. *)
Lemma createDICOMSR_generated referencedSegmentation completed w exporter :
  generated env w exporter ->
  createDICOMSR env referencedSegmentation completed w
  = after [EvSaveJSON (sr_meta_path exporter); EvCliRun (sr_path exporter)]
      (merge_into_SR referencedSegmentation (sr_path exporter)
         (set_files (files_after_cli env (sr_path exporter) (files w)) w)).
Proof.
  intros [Hex Hs Hc Ht Hm Hst]. simpl.
  destruct (metadata_item_Some _ _ Hc) as [v1 H1].
  destruct (metadata_item_Some _ _ Ht) as [v2 H2].
  unfold createDICOMSR, _getAdditionalSRInformation.
  rewrite (bind_Return _ _ _ _ _ _ (gets_run dicomSegmentationExporter w)). rewrite Hex.
  rewrite Hs, Hm. unfold external.
  rewrite (bind_Return _ _ _ _ _ _ (ret_run tt w)).
  erewrite (bind_Return _ _ w);
    [| rewrite (bind_Return _ _ _ _ _ _ H1);
       rewrite (bind_Return _ _ _ _ _ _ H2); reflexivity ].
  rewrite (bind_Return _ _ _ _ _ _ (ret_run tt w)).
  rewrite (bind_Return _ _ _ _ _ _ (emit_run _ w)).
  rewrite (bind_Return _ _ _ _ _ _ (run_tid1500writer_run _ w)).
  rewrite Hst, String.eqb_refl. cbn [negb].
  destruct (merge_into_SR _ _ _); reflexivity.
Qed.

Lemma dcmread_run path ds w :
  files w !! path = Some ds ->
  dcmread path w = mkStep (Return ds) w [EvDcmRead path].
Proof.
  intros H. unfold dcmread.
  rewrite (bind_Return _ _ _ _ _ _ (emit_run _ w)).
  rewrite (bind_Return _ _ _ _ _ _ (gets_run files w)).
  rewrite H. reflexivity.
Qed.

Lemma save_as_run ds path w :
  save_as ds path w
  = mkStep (Return tt) (set_files (<[path := ds]> (files w)) w) [EvSaveAs path].
Proof.
  unfold save_as. rewrite (bind_Return _ _ _ _ _ _ (emit_run _ w)). reflexivity.
Qed.

(** The consistency check fails: nothing but the SEG dataset was read. *)
Lemma merge_into_SR_mismatch referencedSegmentation outputSRPath w seg_ds segs :
  seg_readable (files w) referencedSegmentation seg_ds segs ->
  length segs ≠ size (segment_characteristics w) ->
  merge_into_SR referencedSegmentation outputSRPath w
  = mkStep (Raise (ValueError [PStr (consistency_message seg_ds (segment_characteristics w))]))
      w [EvDcmRead referencedSegmentation].
Proof.
  intros [Hf Hs] Hne. unfold merge_into_SR.
  run_bind (dcmread_run _ _ _ Hf).
  run_bind (gets_run segment_characteristics w).
  unfold attr_seq. rewrite Hs.
  run_bind (lift_run _ w).
  rewrite length_sorted_keys.
  destruct (Nat.eqb_spec (length segs) (size (segment_characteristics w)));
    [contradiction|].
  cbn [negb]. rewrite raise_run. reflexivity.
Qed.

(** The consistency check passes: the outcome is that of the merge loops, and
    the SR file is written only when they return. *)
Lemma merge_into_SR_matched referencedSegmentation outputSRPath w
    seg_ds segs sr_ds root container children :
  seg_readable (files w) referencedSegmentation seg_ds segs ->
  length segs = size (segment_characteristics w) ->
  sr_readable (files w) outputSRPath sr_ds root container children ->
  merge_into_SR referencedSegmentation outputSRPath w
  = match merge_characteristics (segment_characteristics w) (characteristics_config w)
            children (sorted_keys (segment_characteristics w)) with
    | Return children' =>
        mkStep (Return outputSRPath)
          (set_files (<[outputSRPath := with_children sr_ds root container children']>
                        (files w)) w)
          [EvDcmRead referencedSegmentation; EvDcmRead outputSRPath; EvSaveAs outputSRPath]
    | Raise e =>
        mkStep (Raise e) w [EvDcmRead referencedSegmentation; EvDcmRead outputSRPath]
    end.
Proof.
  intros [Hf Hs] Heq [Hsr Hroot Hcont Hch]. unfold merge_into_SR, attr_seq, index.
  run_bind (dcmread_run _ _ _ Hf).
  run_bind (gets_run segment_characteristics w).
  rewrite Hs.
  run_bind (lift_run _ w).
  rewrite length_sorted_keys, (proj2 (Nat.eqb_eq _ _) Heq). cbn [negb].
  run_bind (dcmread_run _ _ _ Hsr).
  rewrite Hroot.
  run_bind (lift_run _ w).
  unfold Dataset in *. rewrite Hcont.
  run_bind (lift_run _ w).
  rewrite Hch.
  run_bind (lift_run _ w).
  run_bind (gets_run characteristics_config w).
  destruct (merge_characteristics _ _ _ _) as [children'|e].
  - run_bind (lift_run _ w).
    run_bind (save_as_run _ _ w).
    reflexivity.
  - rewrite (bind_Raise _ _ _ _ _ _ (lift_run _ w)). reflexivity.
Qed.

Lemma cleanupTemporaryData_run w :
  cleanupTemporaryData w
  = mkStep (Return tt) (set_exporter None w)
      (EvCleanupTemporaryData ::
         match dicomSegmentationExporter w with
         | Some e => [EvExporterCleanup (tempDir e)]
         | None => []
         end).
Proof.
  unfold cleanupTemporaryData, mbind, M_bind, emit, gets, modify. simpl.
  destruct (dicomSegmentationExporter w); reflexivity.
Qed.

(** [finally: self.cleanupTemporaryData()]: whatever the body does, the
    cleanup runs last and the outcome of the body stands. *)
Lemma try_finally_cleanup {A} (body : M A) w :
  try_finally body cleanupTemporaryData w
  = mkStep (outcome (body w)) (set_exporter None (world (body w)))
      (events (body w) ++
         EvCleanupTemporaryData ::
           match dicomSegmentationExporter (world (body w)) with
           | Some e => [EvExporterCleanup (tempDir e)]
           | None => []
           end).
Proof. unfold try_finally. rewrite cleanupTemporaryData_run. reflexivity. Qed.

End Runs.

(** ** The example session *)

Module ExampleFacts.
Import Example.

Lemma host_generated st seg children :
  generated (host seg "Completed" children) (widget st seg) exporter.
Proof. split; try reflexivity; simpl; eauto. Qed.

Lemma seg2_readable st children :
  seg_readable
    (files_after_cli (host seg2 "Completed" children) (sr_path exporter)
       (files (widget st seg2)))
    seg_path seg2 [segment "a"; segment "b"].
Proof. split; reflexivity. Qed.

Lemma seg3_readable st children :
  seg_readable
    (files_after_cli (host seg3 "Completed" children) (sr_path exporter)
       (files (widget st seg3)))
    seg_path seg3 [segment "a"; segment "b"; segment "c"].
Proof. split; reflexivity. Qed.

Lemma sr_is_readable st seg children :
  sr_readable
    (files_after_cli (host seg "Completed" children) (sr_path exporter)
       (files (widget st seg)))
    (sr_path exporter) (sr children) (root children) (container children) children.
Proof. split; reflexivity. Qed.

End ExampleFacts.

(** ** The merge in [createDICOMSR] *)

(** C1, as stated, fails: equal counts do not make the merge succeed.  With
    one segment in the SEG dataset and one entry in the store, whose label is
    not in the catalog, [createDICOMSR] raises the [ValueError] of the lookup
    although the SR writer completed and the SR dataset has the expected
    shape. *)
Lemma C1_matched_counts_counterexample :
  ~ (forall env w referencedSegmentation completed exporter seg_ds segs
            sr_ds root container children,
       generated env w exporter ->
       seg_readable (files_after_cli env (sr_path exporter) (files w))
         referencedSegmentation seg_ds segs ->
       length segs = size (segment_characteristics w) ->
       sr_readable (files_after_cli env (sr_path exporter) (files w))
         (sr_path exporter) sr_ds root container children ->
       outcome (createDICOMSR env referencedSegmentation completed w)
       = Return (sr_path exporter)).
Proof.
  intros H.
  pose (seg1 := [("SegmentSequence", VSeq [Example.segment "a"])] : Dataset).
  pose (st := {[ 1%Z := [("Shape", "Square")] ]} : gmap Z Entry).
  pose proof (H (Example.host seg1 "Completed" [Example.group "a"])
                (Example.widget st seg1) Example.seg_path false Example.exporter
                seg1 [Example.segment "a"]
                (Example.sr [Example.group "a"]) (Example.root [Example.group "a"])
                (Example.container [Example.group "a"]) [Example.group "a"]
                (ExampleFacts.host_generated st seg1 [Example.group "a"])
                ltac:(split; reflexivity) eq_refl
                (ExampleFacts.sr_is_readable st seg1 [Example.group "a"])) as Hout.
  assert (outcome (createDICOMSR (Example.host seg1 "Completed" [Example.group "a"])
                     Example.seg_path false (Example.widget st seg1))
          = Raise (ValueError
              [PStr "Concept name code (CodeMeaning=Shape) with choices Square not found"]))
    as Hrun by (vm_compute; reflexivity).
  rewrite Hrun in Hout. discriminate Hout.
Qed.

Section MatchedCounts.

Variables (env : Env) (w : World) (referencedSegmentation : string) (completed : bool).
Variables (exporter : Exporter) (seg_ds : Dataset) (segs : list Dataset).
Variables (sr_ds : Dataset) (root : list Dataset) (container : Dataset).
Variable children : list Dataset.

Local Abbreviation store := (segment_characteristics w).
Local Abbreviation config := (characteristics_config w).
Local Abbreviation fs := (files_after_cli env (sr_path exporter) (files w)).
Local Abbreviation r := (createDICOMSR env referencedSegmentation completed w).

(** The run of [createDICOMSR] once the SR is generated and the counts of the
    SEG dataset and of the store agree. *)
Lemma createDICOMSR_matched :
  generated env w exporter ->
  seg_readable fs referencedSegmentation seg_ds segs ->
  length segs = size store ->
  sr_readable fs (sr_path exporter) sr_ds root container children ->
  r = after [EvSaveJSON (sr_meta_path exporter); EvCliRun (sr_path exporter)]
        match merge_characteristics store config children (sorted_keys store) with
        | Return children' =>
            mkStep (Return (sr_path exporter))
              (set_files (<[sr_path exporter := with_children sr_ds root container children']> fs) w)
              [EvDcmRead referencedSegmentation; EvDcmRead (sr_path exporter);
               EvSaveAs (sr_path exporter)]
        | Raise e =>
            mkStep (Raise e) (set_files fs w)
              [EvDcmRead referencedSegmentation; EvDcmRead (sr_path exporter)]
        end.
Proof.
  intros Hg Hseg Hlen Hsr.
  rewrite (createDICOMSR_generated env _ _ _ _ Hg).
  rewrite (merge_into_SR_matched _ _ _ seg_ds segs sr_ds root container children);
    [| exact Hseg | exact Hlen | exact Hsr ].
  cbn [characteristics_config segment_characteristics files set_files].
  destruct (merge_characteristics _ _ _ _); reflexivity.
Qed.

(** C1, amended: for a SEG dataset with N segment records and a store with N
    entries, when the SR writer completed, the SR dataset has at position 5
    of its root content sequence a container of content items, and every
    content item paired with a key has a content sequence and that key's
    entries other than "N/A" are all in the catalog, [createDICOMSR] returns
    the path of the SR file and writes to it the SR dataset in which each
    content item paired with a key (items in document order, keys in
    ascending order) has gained, at the end of its content sequence, one
    coded item per entry other than "N/A" of that key, built from what the
    lookup returns for it, and nothing else has changed. *)
Theorem C1_merge_on_matched_counts :
  generated env w exporter ->
  seg_readable fs referencedSegmentation seg_ds segs ->
  length segs = size store ->
  sr_readable fs (sr_path exporter) sr_ds root container children ->
  pairs_resolvable store config children (sorted_keys store) ->
  exists children',
    outcome r = Return (sr_path exporter) /\
    files (world r) = <[sr_path exporter := with_children sr_ds root container children']> fs /\
    length children' = length children /\
    (forall n child key entry,
       children !! n = Some child -> sorted_keys store !! n = Some key ->
       store !! key = Some entry ->
       children' !! n = Some (gain config entry child) /\
       Forall2 (fun kv found =>
                  _find_characteristics_from_concept_name_and_choice kv.1 kv.2 config
                  = Return (Some found))
               (selected entry) (resolved config entry)) /\
    (forall n, (length (sorted_keys store) <= n)%nat -> children' !! n = children !! n).
Proof.
  intros Hg Hseg Hlen Hsr Hp.
  destruct (merge_characteristics_resolvable store config children (sorted_keys store))
    as (children' & Hm & Hl & Hpair & Hextra).
  { intros key Hk. by apply elem_of_sorted_keys. }
  { exact Hp. }
  exists children'. rewrite (createDICOMSR_matched Hg Hseg Hlen Hsr), Hm.
  cbn [after outcome world files set_files].
  repeat split; auto.
  - by eapply Hpair.
  - apply resolved_spec. by eapply Hp.
Qed.

End MatchedCounts.

(** The end-to-end scenario: segment 7 is "Round", segment 12 is "N/A", the
    SEG dataset has two segments and the SR two measurement groups. *)
Lemma example_pairs_resolvable :
  pairs_resolvable Example.store [shape_round]
    [Example.group "a"; Example.group "b"] (sorted_keys Example.store).
Proof.
  assert (sorted_keys Example.store = [7%Z; 12%Z]) as -> by (vm_compute; reflexivity).
  intros n child key entry H1 H2 H3.
  destruct n as [|[|n]]; simpl in H1, H2; try discriminate;
    injection H1 as <-; injection H2 as <-; vm_compute in H3; injection H3 as <-;
    (split; [reflexivity | eexists; reflexivity]).
Qed.

Lemma C1_merge_on_matched_counts_witness :
  exists children' : list Dataset,
    outcome (createDICOMSR
               (Example.host Example.seg2 "Completed" [Example.group "a"; Example.group "b"])
               Example.seg_path false (Example.widget Example.store Example.seg2))
    = Return "/tmp/qr/sr.dcm" /\
    children' !! 0%nat = Some (gain [shape_round] [("Shape", "Round")] (Example.group "a")) /\
    children' !! 1%nat = Some (gain [shape_round] [("Shape", "N/A")] (Example.group "b")).
Proof.
  destruct (C1_merge_on_matched_counts
              (Example.host Example.seg2 "Completed" [Example.group "a"; Example.group "b"])
              (Example.widget Example.store Example.seg2) Example.seg_path false
              Example.exporter Example.seg2 [Example.segment "a"; Example.segment "b"]
              (Example.sr [Example.group "a"; Example.group "b"])
              (Example.root [Example.group "a"; Example.group "b"])
              (Example.container [Example.group "a"; Example.group "b"])
              [Example.group "a"; Example.group "b"])
    as (children' & Hout & _ & _ & Hpair & _).
  - apply ExampleFacts.host_generated.
  - apply ExampleFacts.seg2_readable.
  - reflexivity.
  - apply ExampleFacts.sr_is_readable.
  - exact example_pairs_resolvable.
  - exists children'. split; [exact Hout|]. split.
    + apply (Hpair 0%nat (Example.group "a") 7%Z [("Shape", "Round")]); reflexivity.
    + apply (Hpair 1%nat (Example.group "b") 12%Z [("Shape", "N/A")]); reflexivity.
Defined.

(** C2: when the SEG dataset's segment sequence and the store differ in size,
    [createDICOMSR] raises the [ValueError] of the consistency check; up to
    then it has read the SEG dataset only, so that the files are as the SR
    writer left them: the SR file is neither read nor written. *)
Theorem C2_consistency_fault env w referencedSegmentation completed exporter seg_ds segs :
  generated env w exporter ->
  seg_readable (files_after_cli env (sr_path exporter) (files w))
    referencedSegmentation seg_ds segs ->
  length segs ≠ size (segment_characteristics w) ->
  outcome (createDICOMSR env referencedSegmentation completed w)
  = Raise (ValueError [PStr (consistency_message seg_ds (segment_characteristics w))]) /\
  files (world (createDICOMSR env referencedSegmentation completed w))
  = files_after_cli env (sr_path exporter) (files w) /\
  events (createDICOMSR env referencedSegmentation completed w)
  = [EvSaveJSON (sr_meta_path exporter); EvCliRun (sr_path exporter);
     EvDcmRead referencedSegmentation].
Proof.
  intros Hg Hseg Hne.
  rewrite (createDICOMSR_generated env _ _ _ _ Hg).
  rewrite (merge_into_SR_mismatch _ _ _ seg_ds segs); [| exact Hseg | exact Hne ].
  repeat split.
Qed.

Lemma C2_consistency_fault_witness :
  outcome (createDICOMSR (Example.host Example.seg3 "Completed" [Example.group "a"])
             Example.seg_path false (Example.widget Example.store Example.seg3))
  = Raise (ValueError
      [PStr "Number of segmentation (2) in SEG DICOM != Number of segmentation charateristics (2)"]) /\
  files (world (createDICOMSR (Example.host Example.seg3 "Completed" [Example.group "a"])
                  Example.seg_path false (Example.widget Example.store Example.seg3)))
    !! "/tmp/qr/sr.dcm"
  = Some (Example.sr [Example.group "a"]).
Proof.
  destruct (C2_consistency_fault
              (Example.host Example.seg3 "Completed" [Example.group "a"])
              (Example.widget Example.store Example.seg3) Example.seg_path false
              Example.exporter Example.seg3
              [Example.segment "a"; Example.segment "b"; Example.segment "c"])
    as (Hout & Hfiles & _).
  - apply ExampleFacts.host_generated.
  - apply ExampleFacts.seg3_readable.
  - vm_compute. lia.
  - split; [rewrite Hout | rewrite Hfiles]; reflexivity.
Defined.

(** ** [saveReport] *)

(** A consistency fault is a [ValueError]: [saveReport] catches it and
    returns a failed save with the arguments of the exception. *)
Lemma consistency_fault_is_surfaced :
  outcome (saveReport (Example.host Example.seg3 "Completed" [Example.group "a"]) false
             (Example.widget Example.store Example.seg3))
  = Return (false,
            PTuple [PStr "Number of segmentation (2) in SEG DICOM != Number of segmentation charateristics (2)"]).
Proof. vm_compute. reflexivity. Qed.

(** C3 does not hold of the code: when the SR writer ends with a status other
    than 'Completed', [createDICOMSR] raises a plain [Exception], which the
    handler of [saveReport] for [RuntimeError], [ValueError] and
    [AttributeError] does not catch; [saveReport] raises it instead of
    returning a failed save. *)
Theorem C3_encoder_fault_escapes_saveReport :
  outcome (saveReport
             (Example.host Example.seg2 "CompletedWithErrors"
                [Example.group "a"; Example.group "b"])
             false (Example.widget Example.store Example.seg2))
  = Raise (Exception [PStr "tid1500writer CLI did not complete cleanly"]) /\
  caught_by (Exception [PStr "tid1500writer CLI did not complete cleanly"])
    ["RuntimeError"; "ValueError"; "AttributeError"] = false.
Proof. split; vm_compute; reflexivity. Qed.

(** ** The number of content items of the SR is not checked *)

Lemma merge_characteristics_merged store config children : forall keys,
  (forall key, key ∈ keys -> is_Some (store !! key)) ->
  pairs_resolvable store config children keys ->
  merge_characteristics store config children keys
  = Return (merged store config children keys).
Proof.
  unfold merged.
  induction children as [|c children IH]; intros [|k keys] Hin Hp;
    cbn [merge_characteristics zip_with app length drop]; try reflexivity.
  destruct (Hin k ltac:(constructor)) as [entry He]. rewrite He.
  cbn [mbind Outcome_bind default].
  destruct (Hp 0%nat c k entry eq_refl eq_refl He) as [Hr [content Hc]].
  rewrite (append_characteristics_resolvable config entry c content Hc Hr).
  cbn [mbind Outcome_bind].
  rewrite IH.
  - cbn [mbind Outcome_bind]. unfold gain. by rewrite Hc.
  - intros key Hk. apply Hin. by constructor.
  - intros n child key en H1 H2 H3. exact (Hp (S n) child key en H1 H2 H3).
Qed.

Lemma length_merged store config children keys :
  length (merged store config children keys) = length children.
Proof.
  unfold merged. rewrite length_app, length_zip_with, length_drop. lia.
Qed.

Lemma merged_paired store config children keys n child key entry :
  children !! n = Some child -> keys !! n = Some key -> store !! key = Some entry ->
  merged store config children keys !! n = Some (gain config entry child).
Proof.
  intros H1 H2 H3. unfold merged.
  rewrite lookup_app_l.
  - rewrite lookup_zip_with, H1. cbn [mbind option_bind]. rewrite H2.
    cbn [mbind option_bind]. by rewrite H3.
  - rewrite length_zip_with. apply lookup_lt_Some in H1, H2. lia.
Qed.

Lemma merged_beyond store config children keys n :
  (length keys <= n)%nat -> merged store config children keys !! n = children !! n.
Proof.
  intros Hn. unfold merged.
  rewrite lookup_app_r by (rewrite length_zip_with; lia).
  rewrite length_zip_with, lookup_drop.
  destruct (Nat.le_ge_cases (length children) n) as [Hc|Hc].
  - rewrite !lookup_ge_None_2; [reflexivity | lia | lia].
  - f_equal. lia.
Qed.

Lemma merged_take_keys store config children : forall keys,
  merged store config children keys
  = merged store config children (take (length children) keys).
Proof.
  unfold merged.
  induction children as [|c children IH]; intros [|k keys];
    cbn [zip_with app length drop take]; try reflexivity.
  f_equal. apply IH.
Qed.

(** C10, as stated, fails: with fewer SR content items than keys the merge
    need not succeed.  With two segments in the SEG dataset, two entries in
    the store and one content item in the SR, the entry of the first key,
    which is paired, carries a label that is not in the catalog, and
    [createDICOMSR] raises the [ValueError] of the lookup. *)
Lemma C10_fewer_items_counterexample :
  ~ (forall env w referencedSegmentation completed exporter seg_ds segs
            sr_ds root container children,
       generated env w exporter ->
       seg_readable (files_after_cli env (sr_path exporter) (files w))
         referencedSegmentation seg_ds segs ->
       length segs = size (segment_characteristics w) ->
       sr_readable (files_after_cli env (sr_path exporter) (files w))
         (sr_path exporter) sr_ds root container children ->
       (length children < size (segment_characteristics w))%nat ->
       outcome (createDICOMSR env referencedSegmentation completed w)
       = Return (sr_path exporter)).
Proof.
  intros H.
  pose (st := <[12%Z := [("Shape", "N/A")]]> (<[7%Z := [("Shape", "Square")]]> ∅)
              : gmap Z Entry).
  pose proof (H (Example.host Example.seg2 "Completed" [Example.group "a"])
                (Example.widget st Example.seg2) Example.seg_path false Example.exporter
                Example.seg2 [Example.segment "a"; Example.segment "b"]
                (Example.sr [Example.group "a"]) (Example.root [Example.group "a"])
                (Example.container [Example.group "a"]) [Example.group "a"]
                (ExampleFacts.host_generated st Example.seg2 [Example.group "a"])
                (ExampleFacts.seg2_readable st [Example.group "a"])
                ltac:(vm_compute; reflexivity)
                (ExampleFacts.sr_is_readable st Example.seg2 [Example.group "a"])
                ltac:(vm_compute; lia)) as Hout.
  assert (outcome (createDICOMSR (Example.host Example.seg2 "Completed" [Example.group "a"])
                     Example.seg_path false (Example.widget st Example.seg2))
          = Raise (ValueError
              [PStr "Concept name code (CodeMeaning=Shape) with choices Square not found"]))
    as Hrun by (vm_compute; reflexivity).
  rewrite Hrun in Hout. discriminate Hout.
Qed.

Section UncheckedCount.

Variables (env : Env) (w : World) (referencedSegmentation : string) (completed : bool).
Variables (exporter : Exporter) (seg_ds : Dataset) (segs : list Dataset).
Variables (sr_ds : Dataset) (root : list Dataset) (container : Dataset).
Variable children : list Dataset.

Local Abbreviation store := (segment_characteristics w).
Local Abbreviation config := (characteristics_config w).
Local Abbreviation keys := (sorted_keys (segment_characteristics w)).
Local Abbreviation fs := (files_after_cli env (sr_path exporter) (files w)).
Local Abbreviation r := (createDICOMSR env referencedSegmentation completed w).

(** C10, amended: the consistency check compares the SEG segment sequence
    with the store and nothing else; the number of SR content items at
    position 5 is compared with nothing.  Whatever that number, when the SR
    writer completed, the SR dataset has the container at position 5, and
    every content item that is paired with a key has a content sequence and
    that key's entries other than "N/A" are all in the catalog,
    [createDICOMSR] returns the SR path and writes the SR dataset whose
    content items at position 5 are as many as before: the item at each of
    the first min(len(SR items), len(keys)) positions has gained the coded
    items of the key at that position (keys in ascending order), the items
    beyond the last key are unmodified, and the keys beyond the last item
    play no part: their characteristics are not looked up and not applied. *)
Theorem C10_sr_item_count_not_validated :
  generated env w exporter ->
  seg_readable fs referencedSegmentation seg_ds segs ->
  length segs = size store ->
  sr_readable fs (sr_path exporter) sr_ds root container children ->
  pairs_resolvable store config children keys ->
  outcome r = Return (sr_path exporter) /\
  files (world r)
  = <[sr_path exporter :=
        with_children sr_ds root container (merged store config children keys)]> fs /\
  length (merged store config children keys) = length children /\
  (forall n child key entry,
     children !! n = Some child -> keys !! n = Some key -> store !! key = Some entry ->
     merged store config children keys !! n = Some (gain config entry child)) /\
  (forall n, (length keys <= n)%nat ->
     merged store config children keys !! n = children !! n) /\
  merged store config children keys
  = merged store config children (take (length children) keys).
Proof.
  intros Hg Hseg Hlen Hsr Hp.
  rewrite (createDICOMSR_matched _ _ _ _ _ _ _ _ _ _ _ Hg Hseg Hlen Hsr).
  rewrite (merge_characteristics_merged store config children keys);
    [| intros key Hk; by apply elem_of_sorted_keys | exact Hp ].
  cbn [after outcome world files set_files].
  split; [reflexivity | split; [reflexivity | split; [apply length_merged |]]].
  split; [intros n child key entry; apply merged_paired |].
  split; [apply merged_beyond | apply merged_take_keys].
Qed.

End UncheckedCount.

(** One SR content item for two keys: the second key, whose label is not in
    the catalog, is not paired. *)
Lemma example_one_item_resolvable :
  pairs_resolvable Example.store_unknown_label [shape_round]
    [Example.group "a"] (sorted_keys Example.store_unknown_label).
Proof.
  assert (sorted_keys Example.store_unknown_label = [7%Z; 12%Z]) as ->
    by (vm_compute; reflexivity).
  intros n child key entry H1 H2 H3.
  destruct n as [|n]; simpl in H1, H2; try discriminate.
  injection H1 as <-. injection H2 as <-. vm_compute in H3. injection H3 as <-.
  split; [reflexivity | eexists; reflexivity].
Qed.

(** Three SR content items for two keys. *)
Lemma example_three_items_resolvable :
  pairs_resolvable Example.store [shape_round]
    [Example.group "a"; Example.group "b"; Example.group "c"] (sorted_keys Example.store).
Proof.
  assert (sorted_keys Example.store = [7%Z; 12%Z]) as -> by (vm_compute; reflexivity).
  intros n child key entry H1 H2 H3.
  destruct n as [|[|n]]; simpl in H1, H2; try discriminate;
    injection H1 as <-; injection H2 as <-; vm_compute in H3; injection H3 as <-;
    (split; [reflexivity | eexists; reflexivity]).
Qed.

Lemma C10_sr_item_count_not_validated_witness :
  (outcome (createDICOMSR (Example.host Example.seg2 "Completed" [Example.group "a"])
              Example.seg_path false
              (Example.widget Example.store_unknown_label Example.seg2))
   = Return "/tmp/qr/sr.dcm" /\
   merged Example.store_unknown_label [shape_round] [Example.group "a"]
     (sorted_keys Example.store_unknown_label)
   = [gain [shape_round] [("Shape", "Round")] (Example.group "a")]) /\
  (outcome (createDICOMSR
              (Example.host Example.seg2 "Completed"
                 [Example.group "a"; Example.group "b"; Example.group "c"])
              Example.seg_path false (Example.widget Example.store Example.seg2))
   = Return "/tmp/qr/sr.dcm" /\
   merged Example.store [shape_round]
     [Example.group "a"; Example.group "b"; Example.group "c"]
     (sorted_keys Example.store) !! 2%nat
   = Some (Example.group "c")).
Proof.
  split.
  - destruct (C10_sr_item_count_not_validated
                (Example.host Example.seg2 "Completed" [Example.group "a"])
                (Example.widget Example.store_unknown_label Example.seg2)
                Example.seg_path false Example.exporter Example.seg2
                [Example.segment "a"; Example.segment "b"]
                (Example.sr [Example.group "a"]) (Example.root [Example.group "a"])
                (Example.container [Example.group "a"]) [Example.group "a"])
      as (Hout & _).
    + apply ExampleFacts.host_generated.
    + apply ExampleFacts.seg2_readable.
    + reflexivity.
    + apply ExampleFacts.sr_is_readable.
    + exact example_one_item_resolvable.
    + split; [exact Hout | vm_compute; reflexivity].
  - destruct (C10_sr_item_count_not_validated
                (Example.host Example.seg2 "Completed"
                   [Example.group "a"; Example.group "b"; Example.group "c"])
                (Example.widget Example.store Example.seg2)
                Example.seg_path false Example.exporter Example.seg2
                [Example.segment "a"; Example.segment "b"]
                (Example.sr [Example.group "a"; Example.group "b"; Example.group "c"])
                (Example.root [Example.group "a"; Example.group "b"; Example.group "c"])
                (Example.container [Example.group "a"; Example.group "b"; Example.group "c"])
                [Example.group "a"; Example.group "b"; Example.group "c"])
      as (Hout & _ & _ & _ & Hbeyond & _).
    + apply ExampleFacts.host_generated.
    + apply ExampleFacts.seg2_readable.
    + reflexivity.
    + apply ExampleFacts.sr_is_readable.
    + exact example_three_items_resolvable.
    + split; [exact Hout |]. apply (Hbeyond 2%nat). vm_compute. lia.
Defined.

(** * Further properties of the report assembly *)

(** ** [try] and [except] *)

Lemma try_except_Return {A} (body : M A) clauses w a w1 evs :
  body w = mkStep (Return a) w1 evs ->
  try_except body clauses w = mkStep (Return a) w1 evs.
Proof. intros H. unfold try_except. by rewrite H. Qed.

Lemma try_except_caught {A} (body : M A) clauses w e w1 evs cl :
  body w = mkStep (Raise e) w1 evs ->
  find (fun cl => caught_by e cl.1) clauses = Some cl ->
  try_except body clauses w = after evs (cl.2 e w1).
Proof. intros H Hf. unfold try_except. rewrite H. cbn [outcome world events]. by rewrite Hf. Qed.

Lemma try_except_uncaught {A} (body : M A) clauses w e w1 evs :
  body w = mkStep (Raise e) w1 evs ->
  find (fun cl => caught_by e cl.1) clauses = None ->
  try_except body clauses w = mkStep (Raise e) w1 evs.
Proof. intros H Hf. unfold try_except. rewrite H. cbn [outcome world events]. by rewrite Hf. Qed.

Lemma caught_by_ValueError a classes :
  "ValueError" ∈ classes -> caught_by (ValueError a) classes = true.
Proof.
  intros H. unfold caught_by. apply existsb_exists. exists "ValueError".
  split; [by apply list_elem_of_In | reflexivity].
Qed.

(** Closes a run once every step has been rewritten. *)
Ltac run_done := unfold after; cbn [outcome world events app]; reflexivity.

(** ** [createSEG] *)

Section CreateSEG.

Variable env : Env.
Variables (w : World) (exporter : Exporter).
Hypothesis Hexporter : new_exporter env = Return exporter.

Local Abbreviation w1 := (set_exporter (Some exporter) w).
Local Abbreviation path := (seg_file_path exporter).

Lemma exporter_export_Return seg w0 :
  export_result env = Return seg ->
  exporter_export env path w0
  = mkStep (Return tt) (set_files (<[path := seg]> (files w0)) w0) [EvExport path].
Proof.
  intros H. unfold exporter_export. run_bind (emit_run _ w0). by rewrite H.
Qed.

Lemma exporter_export_Raise e w0 :
  export_result env = Raise e ->
  exporter_export env path w0 = mkStep (Raise e) w0 [EvExport path].
Proof.
  intros H. unfold exporter_export. run_bind (emit_run _ w0). by rewrite H.
Qed.

Lemma createSEG_Return seg :
  export_result env = Return seg ->
  database_insert_result env = None ->
  createSEG env w
  = mkStep (Return path) (set_files (<[path := seg]> (files w)) w1)
      [EvExport path; EvDatabaseInsert path].
Proof.
  intros He Hi. unfold createSEG. rewrite Hexporter.
  run_bind (lift_run _ w). run_bind (modify_run _ w). cbv zeta.
  erewrite (bind_Return _ _ w1).
  2: { apply try_except_Return.
       erewrite (bind_Return _ _ w1).
       2: { apply try_except_Return. apply (exporter_export_Return seg w1). exact He. }
       cbv beta. run_bind (emit_run _ _). rewrite Hi. unfold external. rewrite ret_run.
       run_done. }
  cbv beta. rewrite ret_run. run_done.
Qed.

Lemma createSEG_export_Raise e :
  export_result env = Raise e ->
  createSEG env w = mkStep (Raise (export_fault e)) w1 [EvExport path].
Proof.
  intros He. unfold createSEG. rewrite Hexporter.
  run_bind (lift_run _ w). run_bind (modify_run _ w). cbv zeta.
  pose proof (exporter_export_Raise e w1 He) as Hx.
  unfold export_fault.
  destruct (isinstance e MissingAttributeError) eqn:Hm;
    [| destruct (isinstance e EmptySegmentsFoundError) eqn:Hs;
       [| destruct (isinstance e NoNonEmptySegmentsFoundError || isinstance e "ValueError")%bool
            eqn:Hv ] ].
  - erewrite (bind_Raise _ _ w1); [reflexivity|].
    eapply eq_trans.
    { eapply try_except_caught.
      - erewrite (bind_Raise _ _ w1); [reflexivity|].
        eapply eq_trans.
        { eapply try_except_caught; [exact Hx|].
          cbn [find fst caught_by existsb]. fold MissingAttributeError. rewrite Hm. reflexivity. }
        cbn [snd]. rewrite raise_run. run_done.
      - reflexivity. }
    cbn [snd]. rewrite raise_run. run_done.
  - erewrite (bind_Raise _ _ w1); [reflexivity|].
    eapply eq_trans.
    { eapply try_except_caught.
      - erewrite (bind_Raise _ _ w1); [reflexivity|].
        eapply eq_trans.
        { eapply try_except_caught; [exact Hx|].
          cbn [find fst caught_by existsb]. fold MissingAttributeError EmptySegmentsFoundError.
          rewrite Hm, Hs. reflexivity. }
        cbn [snd]. rewrite raise_run. run_done.
      - reflexivity. }
    cbn [snd]. rewrite raise_run. run_done.
  - erewrite (bind_Raise _ _ w1); [reflexivity|].
    eapply eq_trans.
    { eapply try_except_caught.
      - erewrite (bind_Raise _ _ w1); [reflexivity|].
        eapply try_except_uncaught; [exact Hx|].
        cbn [find fst caught_by existsb]. fold MissingAttributeError EmptySegmentsFoundError.
        rewrite Hm, Hs. reflexivity.
      - cbn [find fst caught_by existsb]. fold NoNonEmptySegmentsFoundError.
        rewrite orb_false_r. rewrite Hv. reflexivity. }
    cbn [snd]. rewrite raise_run. run_done.
  - erewrite (bind_Raise _ _ w1); [reflexivity|].
    eapply try_except_uncaught.
    + erewrite (bind_Raise _ _ w1); [reflexivity|].
      eapply try_except_uncaught; [exact Hx|].
      cbn [find fst caught_by existsb]. fold MissingAttributeError EmptySegmentsFoundError.
      rewrite Hm, Hs. reflexivity.
    + cbn [find fst caught_by existsb]. fold NoNonEmptySegmentsFoundError.
      rewrite orb_false_r. rewrite Hv. reflexivity.
Qed.

Lemma createSEG_insert_Raise seg e :
  export_result env = Return seg ->
  database_insert_result env = Some e ->
  createSEG env w
  = mkStep (Raise (if caught_by e [NoNonEmptySegmentsFoundError; "ValueError"]
                   then ValueError [PTuple (args e)] else e))
      (set_files (<[path := seg]> (files w)) w1)
      [EvExport path; EvDatabaseInsert path].
Proof.
  intros He Hi. unfold createSEG. rewrite Hexporter.
  run_bind (lift_run _ w). run_bind (modify_run _ w). cbv zeta.
  assert (forall clauses,
            ((try_except (exporter_export env path) clauses ≫= fun _ =>
              emit (EvDatabaseInsert path) ≫= fun _ =>
              external (database_insert_result env)) : M unit) w1
            = mkStep (Raise e) (set_files (<[path := seg]> (files w)) w1)
                [EvExport path; EvDatabaseInsert path]) as Hbody.
  { intros clauses.
    erewrite (bind_Return _ _ w1);
      [| apply try_except_Return; apply (exporter_export_Return seg w1); exact He ].
    cbv beta. run_bind (emit_run _ _). rewrite Hi. unfold external. rewrite raise_run.
    run_done. }
  erewrite (bind_Raise _ _ w1); [reflexivity|].
  destruct (caught_by e [NoNonEmptySegmentsFoundError; "ValueError"]) eqn:Hc.
  - eapply eq_trans.
    { eapply try_except_caught; [apply Hbody|]. cbn [find fst]. 
      fold NoNonEmptySegmentsFoundError. rewrite Hc. reflexivity. }
    cbn [snd]. rewrite raise_run. run_done.
  - eapply try_except_uncaught; [apply Hbody|]. cbn [find fst].
    fold NoNonEmptySegmentsFoundError. rewrite Hc. reflexivity.
Qed.

End CreateSEG.

Lemma createSEG_no_exporter env w e :
  new_exporter env = Raise e ->
  createSEG env w = mkStep (Raise e) w [].
Proof.
  intros H. unfold createSEG. rewrite H. by rewrite (bind_Raise _ _ _ _ _ _ (lift_run _ w)).
Qed.

(** ** [createDICOMSR], step by step *)

Lemma metadata_item_run key w :
  metadata_item key w
  = match _metadata w with
    | None => mkStep (Raise (TypeError [PStr "'NoneType' object is not subscriptable"])) w []
    | Some d =>
        match dict_get key d with
        | Some v => mkStep (Return v) w []
        | None => mkStep (Raise (KeyError [PStr key])) w []
        end
    end.
Proof.
  unfold metadata_item. run_bind (gets_run _metadata w).
  destruct (_metadata w) as [d|]; [|reflexivity].
  destruct (dict_get key d); reflexivity.
Qed.

Lemma dcmread_missing path w :
  files w !! path = None ->
  dcmread path w
  = mkStep (Raise (FileNotFoundError [PInt 2; PStr "No such file or directory"])) w
      [EvDcmRead path].
Proof.
  intros H. unfold dcmread.
  run_bind (emit_run _ w). run_bind (gets_run files w). rewrite H. reflexivity.
Qed.

(** The second half of [createDICOMSR] as a cascade of its checks. *)
Lemma merge_into_SR_run referencedSegmentation outputSRPath w :
  merge_into_SR referencedSegmentation outputSRPath w
  = match files w !! referencedSegmentation with
    | None => mkStep (Raise (FileNotFoundError [PInt 2; PStr "No such file or directory"]))
                w [EvDcmRead referencedSegmentation]
    | Some seg_ds =>
    match get_seq "SegmentSequence" seg_ds with
    | None => mkStep (Raise (no_attribute "FileDataset" "SegmentSequence")) w
                [EvDcmRead referencedSegmentation]
    | Some segs =>
    if negb (length segs =? size (segment_characteristics w))%nat then
      mkStep (Raise (ValueError
                [PStr (consistency_message seg_ds (segment_characteristics w))]))
        w [EvDcmRead referencedSegmentation]
    else
    match files w !! outputSRPath with
    | None => mkStep (Raise (FileNotFoundError [PInt 2; PStr "No such file or directory"]))
                w [EvDcmRead referencedSegmentation; EvDcmRead outputSRPath]
    | Some sr_ds =>
    match get_seq "ContentSequence" sr_ds with
    | None => mkStep (Raise (no_attribute "FileDataset" "ContentSequence")) w
                [EvDcmRead referencedSegmentation; EvDcmRead outputSRPath]
    | Some root =>
    match root !! 5%nat with
    | None => mkStep (Raise (IndexError [PStr "list index out of range"])) w
                [EvDcmRead referencedSegmentation; EvDcmRead outputSRPath]
    | Some container =>
    match get_seq "ContentSequence" container with
    | None => mkStep (Raise (no_attribute "Dataset" "ContentSequence")) w
                [EvDcmRead referencedSegmentation; EvDcmRead outputSRPath]
    | Some children =>
    match merge_characteristics (segment_characteristics w) (characteristics_config w)
            children (sorted_keys (segment_characteristics w)) with
    | Return children' =>
        mkStep (Return outputSRPath)
          (set_files (<[outputSRPath := with_children sr_ds root container children']>
                        (files w)) w)
          [EvDcmRead referencedSegmentation; EvDcmRead outputSRPath; EvSaveAs outputSRPath]
    | Raise e =>
        mkStep (Raise e) w [EvDcmRead referencedSegmentation; EvDcmRead outputSRPath]
    end end end end end end end.
Proof.
  destruct (files w !! referencedSegmentation) as [seg_ds|] eqn:Hf.
  2: { unfold merge_into_SR. by rewrite (bind_Raise _ _ _ _ _ _ (dcmread_missing _ _ Hf)). }
  destruct (get_seq "SegmentSequence" seg_ds) as [segs|] eqn:Hs.
  2: { unfold merge_into_SR, attr_seq.
       run_bind (dcmread_run _ _ _ Hf). run_bind (gets_run segment_characteristics w).
       rewrite Hs. by rewrite (bind_Raise _ _ _ _ _ _ (lift_run _ w)). }
  destruct (Nat.eqb_spec (length segs) (size (segment_characteristics w))) as [Hlen|Hlen];
    cbn [negb].
  2: { by apply (merge_into_SR_mismatch _ _ _ seg_ds segs). }
  destruct (files w !! outputSRPath) as [sr_ds|] eqn:Hsr.
  2: { unfold merge_into_SR, attr_seq.
       run_bind (dcmread_run _ _ _ Hf). run_bind (gets_run segment_characteristics w).
       rewrite Hs. run_bind (lift_run _ w).
       rewrite length_sorted_keys, (proj2 (Nat.eqb_eq _ _) Hlen). cbn [negb].
       rewrite (bind_Raise _ _ _ _ _ _ (dcmread_missing _ _ Hsr)). run_done. }
  destruct (get_seq "ContentSequence" sr_ds) as [root|] eqn:Hroot.
  2: { unfold merge_into_SR, attr_seq.
       run_bind (dcmread_run _ _ _ Hf). run_bind (gets_run segment_characteristics w).
       rewrite Hs. run_bind (lift_run _ w).
       rewrite length_sorted_keys, (proj2 (Nat.eqb_eq _ _) Hlen). cbn [negb].
       run_bind (dcmread_run _ _ _ Hsr). rewrite Hroot.
       rewrite (bind_Raise _ _ _ _ _ _ (lift_run _ w)). run_done. }
  destruct (root !! 5%nat) as [container|] eqn:Hcont.
  2: { unfold merge_into_SR, attr_seq, index.
       run_bind (dcmread_run _ _ _ Hf). run_bind (gets_run segment_characteristics w).
       rewrite Hs. run_bind (lift_run _ w).
       rewrite length_sorted_keys, (proj2 (Nat.eqb_eq _ _) Hlen). cbn [negb].
       run_bind (dcmread_run _ _ _ Hsr). rewrite Hroot. run_bind (lift_run _ w).
       unfold Dataset in *. rewrite Hcont.
       rewrite (bind_Raise _ _ _ _ _ _ (lift_run _ w)). run_done. }
  destruct (get_seq "ContentSequence" container) as [children|] eqn:Hch.
  2: { unfold merge_into_SR, attr_seq, index.
       run_bind (dcmread_run _ _ _ Hf). run_bind (gets_run segment_characteristics w).
       rewrite Hs. run_bind (lift_run _ w).
       rewrite length_sorted_keys, (proj2 (Nat.eqb_eq _ _) Hlen). cbn [negb].
       run_bind (dcmread_run _ _ _ Hsr). rewrite Hroot. run_bind (lift_run _ w).
       unfold Dataset in *. rewrite Hcont. run_bind (lift_run _ w). rewrite Hch.
       rewrite (bind_Raise _ _ _ _ _ _ (lift_run _ w)). run_done. }
  apply (merge_into_SR_matched _ _ _ seg_ds segs sr_ds root container children);
    [by split | exact Hlen | by split].
Qed.

(** [createDICOMSR] as a cascade of its checks. *)
Lemma createDICOMSR_run env referencedSegmentation completed w :
  createDICOMSR env referencedSegmentation completed w
  = match dicomSegmentationExporter w with
    | None =>
        mkStep (Raise (AttributeError
                  [PStr "'NoneType' object has no attribute 'getSeriesAttributes'"])) w []
    | Some exporter =>
    match series_attributes_result env with
    | Some e => mkStep (Raise e) w []
    | None =>
    match _metadata w with
    | None =>
        mkStep (Raise (TypeError [PStr "'NoneType' object is not subscriptable"])) w []
    | Some d =>
    match dict_get "ContentCreatorName" d with
    | None => mkStep (Raise (KeyError [PStr "ContentCreatorName"])) w []
    | Some _ =>
    match dict_get "ClinicalTrialTimePointID" d with
    | None => mkStep (Raise (KeyError [PStr "ClinicalTrialTimePointID"])) w []
    | Some _ =>
    match measurements_result env with
    | Some e => mkStep (Raise e) w []
    | None =>
    if negb (String.eqb (cli_status env) "Completed") then
      mkStep (Raise (Exception [PStr "tid1500writer CLI did not complete cleanly"]))
        (set_files (files_after_cli env (sr_path exporter) (files w)) w)
        [EvSaveJSON (sr_meta_path exporter); EvCliRun (sr_path exporter)]
    else
      after [EvSaveJSON (sr_meta_path exporter); EvCliRun (sr_path exporter)]
        (merge_into_SR referencedSegmentation (sr_path exporter)
           (set_files (files_after_cli env (sr_path exporter) (files w)) w))
    end end end end end end.
Proof.
  destruct (dicomSegmentationExporter w) as [exporter|] eqn:Hex.
  2: { unfold createDICOMSR. run_bind (gets_run dicomSegmentationExporter w).
       rewrite Hex, raise_run. run_done. }
  destruct (series_attributes_result env) as [e|] eqn:Hs.
  { unfold createDICOMSR. run_bind (gets_run dicomSegmentationExporter w).
    rewrite Hex, Hs. unfold external.
    rewrite (bind_Raise _ _ _ _ _ _ (raise_run _ w)). run_done. }
  pose proof (metadata_item_run "ContentCreatorName" w) as H1.
  pose proof (metadata_item_run "ClinicalTrialTimePointID" w) as H2.
  destruct (_metadata w) as [d|] eqn:Hmd.
  2: { unfold createDICOMSR, _getAdditionalSRInformation.
       run_bind (gets_run dicomSegmentationExporter w).
       rewrite Hex, Hs. unfold external. run_bind (ret_run tt w).
       erewrite (bind_Raise _ _ w); [run_done|].
       rewrite (bind_Raise _ _ _ _ _ _ H1). reflexivity. }
  destruct (dict_get "ContentCreatorName" d) as [v1|] eqn:Hc.
  2: { unfold createDICOMSR, _getAdditionalSRInformation.
       run_bind (gets_run dicomSegmentationExporter w).
       rewrite Hex, Hs. unfold external. run_bind (ret_run tt w).
       erewrite (bind_Raise _ _ w); [run_done|].
       rewrite (bind_Raise _ _ _ _ _ _ H1). reflexivity. }
  destruct (dict_get "ClinicalTrialTimePointID" d) as [v2|] eqn:Ht.
  2: { unfold createDICOMSR, _getAdditionalSRInformation.
       run_bind (gets_run dicomSegmentationExporter w).
       rewrite Hex, Hs. unfold external. run_bind (ret_run tt w).
       erewrite (bind_Raise _ _ w); [run_done|].
       run_bind H1. rewrite (bind_Raise _ _ _ _ _ _ H2). run_done. }
  assert ((_getAdditionalSRInformation completed : M unit) w = mkStep (Return tt) w [])
    as Hinfo.
  { unfold _getAdditionalSRInformation. run_bind H1. run_bind H2. rewrite ret_run. run_done. }
  destruct (measurements_result env) as [e|] eqn:Hm.
  { unfold createDICOMSR. run_bind (gets_run dicomSegmentationExporter w).
    rewrite Hex, Hs, Hm. unfold external. run_bind (ret_run tt w). run_bind Hinfo.
    rewrite (bind_Raise _ _ _ _ _ _ (raise_run _ w)). run_done. }
  destruct (String.eqb_spec (cli_status env) "Completed") as [Hst|Hst]; cbn [negb].
  - apply createDICOMSR_generated. split; auto; rewrite Hmd; simpl; eauto.
  - unfold createDICOMSR. run_bind (gets_run dicomSegmentationExporter w).
    rewrite Hex, Hs, Hm. unfold external. run_bind (ret_run tt w). run_bind Hinfo.
    run_bind (ret_run tt w). run_bind (emit_run _ w).
    run_bind (run_tid1500writer_run env _ w).
    destruct (String.eqb_spec (cli_status env) "Completed"); [contradiction|].
    cbn [negb]. rewrite raise_run. run_done.
Qed.

(** ** [saveReport], step by step *)

Section SaveReportRuns.

Variables (env : Env) (completed : bool).

Lemma saveReport_cancelled w :
  truthy_metadata (user_metadata env) = false ->
  saveReport env completed w
  = mkStep
      (Return (false,
               PStr "Saving process canceled. Meta-information was not confirmed by user."))
      (set_metadata (user_metadata env) w) [].
Proof.
  intros H. unfold saveReport.
  run_bind (modify_run _ w). run_bind (gets_run _metadata _).
  cbn [_metadata set_metadata]. rewrite H. cbn [negb]. rewrite ret_run. run_done.
Qed.

(** Past the confirmation, [saveReport] is its [try] block followed by the
    cleanup. *)
Lemma saveReport_confirmed w :
  truthy_metadata (user_metadata env) = true ->
  saveReport env completed w
  = mkStep
      match outcome (saveReport_try env completed (set_metadata (user_metadata env) w)) with
      | Return (Some v) => Return v
      | Return None => Return (true, PNone)
      | Raise e => Raise e
      end
      (set_exporter None
         (world (saveReport_try env completed (set_metadata (user_metadata env) w))))
      (events (saveReport_try env completed (set_metadata (user_metadata env) w))
         ++ cleanup_events
              (world (saveReport_try env completed (set_metadata (user_metadata env) w)))).
Proof.
  intros H. unfold saveReport.
  run_bind (modify_run _ w). run_bind (gets_run _metadata _).
  cbn [_metadata set_metadata]. rewrite H. cbn [negb].
  pose proof (try_finally_cleanup (saveReport_try env completed)
                (set_metadata (user_metadata env) w)) as Hf.
  fold (cleanup_events (world (saveReport_try env completed
                                 (set_metadata (user_metadata env) w)))) in Hf.
  destruct (outcome (saveReport_try env completed (set_metadata (user_metadata env) w)))
    as [[v|]|e].
  - run_bind Hf. rewrite ret_run. unfold after. cbn [outcome world events app].
    by rewrite app_nil_r.
  - run_bind Hf. rewrite ret_run. unfold after. cbn [outcome world events app].
    by rewrite app_nil_r.
  - rewrite (bind_Raise _ _ _ _ _ _ Hf). unfold after. cbn [outcome world events app].
    reflexivity.
Qed.

Lemma indexer_addFile_run path w :
  indexer_addFile env path w
  = mkStep match indexer_result env with
           | None => Return tt
           | Some e => Raise e
           end w [EvIndexerAddFile path].
Proof.
  unfold indexer_addFile, external. run_bind (emit_run _ w).
  destruct (indexer_result env); [rewrite raise_run | rewrite ret_run]; run_done.
Qed.

(** An exception of [createSEG] or of [createDICOMSR] ends the [try] block. *)
Lemma saveReport_try_createSEG_Raise w e w1 evs :
  createSEG env w = mkStep (Raise e) w1 evs ->
  saveReport_try env completed w
  = mkStep match surfaced e with
           | Return v => Return (Some v)
           | Raise e' => Raise e'
           end w1 evs.
Proof.
  intros H. unfold saveReport_try, surfaced, saveReport_handled.
  destruct (caught_by e ["RuntimeError"; "ValueError"; "AttributeError"]) eqn:Hc.
  - eapply eq_trans.
    { eapply try_except_caught; [by rewrite (bind_Raise _ _ _ _ _ _ H)|].
      cbn [find fst]. by rewrite Hc. }
    cbn [snd]. rewrite ret_run. unfold after. cbn [outcome world events].
    by rewrite app_nil_r.
  - eapply try_except_uncaught; [by rewrite (bind_Raise _ _ _ _ _ _ H)|].
    cbn [find fst]. by rewrite Hc.
Qed.

Lemma saveReport_try_createDICOMSR_Raise w p w1 evs e w2 evs2 :
  createSEG env w = mkStep (Return p) w1 evs ->
  createDICOMSR env p completed w1 = mkStep (Raise e) w2 evs2 ->
  saveReport_try env completed w
  = mkStep match surfaced e with
           | Return v => Return (Some v)
           | Raise e' => Raise e'
           end w2 (evs ++ evs2).
Proof.
  intros H1 H2. unfold saveReport_try, surfaced, saveReport_handled.
  assert (forall (k : string -> string -> M (option (bool * PyVal))),
            (createSEG env ≫= fun dcmSegPath =>
             createDICOMSR env dcmSegPath completed ≫= fun dcmSRPath =>
             k dcmSegPath dcmSRPath) w
            = mkStep (Raise e) w2 (evs ++ evs2)) as Hbody.
  { intros k. run_bind H1. rewrite (bind_Raise _ _ _ _ _ _ H2). run_done. }
  destruct (caught_by e ["RuntimeError"; "ValueError"; "AttributeError"]) eqn:Hc.
  - eapply eq_trans.
    { eapply try_except_caught; [apply Hbody|]. cbn [find fst]. by rewrite Hc. }
    cbn [snd]. rewrite ret_run. unfold after. cbn [outcome world events].
    by rewrite app_nil_r.
  - eapply try_except_uncaught; [apply Hbody|]. cbn [find fst]. by rewrite Hc.
Qed.

Lemma saveReport_try_indexed w p w1 evs q w2 evs2 :
  createSEG env w = mkStep (Return p) w1 evs ->
  createDICOMSR env p completed w1 = mkStep (Return q) w2 evs2 ->
  (truthy_str p && truthy_str q)%bool = true ->
  saveReport_try env completed w
  = match indexer_result env with
    | None =>
        mkStep (Return None) w2
          (evs ++ evs2 ++ [EvIndexerAddFile p; EvIndexerAddFile q])
    | Some e =>
        mkStep match surfaced e with
               | Return v => Return (Some v)
               | Raise e' => Raise e'
               end w2 (evs ++ evs2 ++ [EvIndexerAddFile p])
    end.
Proof.
  intros H1 H2 Ht. unfold saveReport_try, surfaced, saveReport_handled.
  destruct (indexer_result env) as [e|] eqn:Hi.
  - assert ((createSEG env ≫= fun dcmSegPath =>
             createDICOMSR env dcmSegPath completed ≫= fun dcmSRPath =>
             (if (truthy_str dcmSegPath && truthy_str dcmSRPath)%bool
              then indexer_addFile env dcmSegPath ≫= fun _ => indexer_addFile env dcmSRPath
              else mret ()) ≫= fun _ => mret None) w
            = mkStep (Raise e : Outcome (option (bool * PyVal))) w2
                (evs ++ evs2 ++ [EvIndexerAddFile p])) as Hbody.
    { run_bind H1. run_bind H2. rewrite Ht.
      erewrite (bind_Raise _ _ w2); [run_done|].
      erewrite (bind_Raise _ _ w2); [reflexivity|].
      rewrite indexer_addFile_run, Hi. reflexivity. }
    destruct (caught_by e ["RuntimeError"; "ValueError"; "AttributeError"]) eqn:Hc.
    + eapply eq_trans.
      { eapply try_except_caught; [apply Hbody|]. cbn [find fst]. by rewrite Hc. }
      cbn [snd]. rewrite ret_run. unfold after. cbn [outcome world events].
      by rewrite app_nil_r.
    + eapply try_except_uncaught; [apply Hbody|]. cbn [find fst]. by rewrite Hc.
  - apply try_except_Return.
    run_bind H1. run_bind H2. rewrite Ht.
    erewrite (bind_Return _ _ w2).
    2: { pose proof (indexer_addFile_run p w2) as Hp. rewrite Hi in Hp.
         run_bind Hp. rewrite indexer_addFile_run, Hi. run_done. }
    cbv beta. rewrite ret_run. run_done.
Qed.

End SaveReportRuns.

(** ** What [createDICOMSR] does to the SR file *)

(** Splits a run along the checks of the cascade. *)
Ltac cascade :=
  repeat first
    [ progress cbn [after outcome world events app negb files set_files]
    | match goal with
      | |- context [match ?x with _ => _ end] => destruct x eqn:?
      end ].

(** Decides the membership of an event in an explicit trace. *)
Ltac in_trace H :=
  repeat (apply elem_of_cons in H as [H|H]; [try discriminate H|]);
  try (apply elem_of_nil in H; contradiction).

(** X1: [createDICOMSR] saves the SR dataset exactly when it returns, and
    under the path it returns: no run that raises has written the SR file
    through pydicom, and every run that returns has. *)
Theorem createDICOMSR_saves_iff_returns env referencedSegmentation completed w p :
  EvSaveAs p ∈ events (createDICOMSR env referencedSegmentation completed w) <->
  outcome (createDICOMSR env referencedSegmentation completed w) = Return p.
Proof.
  rewrite createDICOMSR_run. cascade; try rewrite merge_into_SR_run; cascade;
    (split; intros H; [in_trace H | try discriminate H]).
  - by injection H as ->.
  - injection H as <-. repeat constructor.
Qed.

Lemma lookup_files_after_cli_ne env out fs path :
  path ≠ out -> files_after_cli env out fs !! path = fs !! path.
Proof.
  intros H. unfold files_after_cli. destruct (cli_output env); [|reflexivity].
  by rewrite lookup_insert_ne.
Qed.

(** X2: whatever its outcome, [createDICOMSR] writes to two paths only, both
    in the temporary directory of the exporter: [sr_meta.json], the metadata
    it hands to the SR writer, and [sr.dcm], which the SR writer and the
    final save write.  Every call of its trace that writes a file writes to
    one of the two, and every DICOM file at another path (the SEG file among
    them) holds what it held. *)
Theorem createDICOMSR_writes_two_paths env referencedSegmentation completed w exporter :
  dicomSegmentationExporter w = Some exporter ->
  (forall ev path,
     ev ∈ events (createDICOMSR env referencedSegmentation completed w) ->
     written ev = Some path ->
     path = sr_meta_path exporter \/ path = sr_path exporter) /\
  (forall path,
     path ≠ sr_meta_path exporter -> path ≠ sr_path exporter ->
     files (world (createDICOMSR env referencedSegmentation completed w)) !! path
     = files w !! path).
Proof.
  intros Hex. split.
  - intros ev path. rewrite createDICOMSR_run, Hex.
    cascade; try rewrite merge_into_SR_run; cascade; intros Hev Hw; in_trace Hev;
      subst ev; cbn [written] in Hw; first [discriminate Hw | injection Hw as <-; auto].
  - intros path _ Hne. rewrite createDICOMSR_run, Hex.
    cascade; try rewrite merge_into_SR_run; cascade;
      try reflexivity; try (by apply lookup_files_after_cli_ne).
    rewrite lookup_insert_ne by congruence. by apply lookup_files_after_cli_ne.
Qed.

(** X3: when [createDICOMSR] raises, the files are those it found or those the
    SR writer left: the SR dataset is never written back partly merged. *)
Theorem createDICOMSR_Raise_keeps_generated_SR env referencedSegmentation completed w e :
  outcome (createDICOMSR env referencedSegmentation completed w) = Raise e ->
  files (world (createDICOMSR env referencedSegmentation completed w)) = files w \/
  exists exporter,
    dicomSegmentationExporter w = Some exporter /\
    files (world (createDICOMSR env referencedSegmentation completed w))
    = files_after_cli env (sr_path exporter) (files w).
Proof.
  rewrite createDICOMSR_run.
  destruct (dicomSegmentationExporter w) as [exporter|] eqn:Hex; [|by left].
  cascade; try rewrite merge_into_SR_run; cascade; intros H;
    try (by left); try (right; exists exporter; by split).
Qed.

(** What a run of [createDICOMSR] that returns has done. *)
Lemma createDICOMSR_Return_inv env referencedSegmentation completed w q :
  outcome (createDICOMSR env referencedSegmentation completed w) = Return q ->
  exists exporter,
    dicomSegmentationExporter w = Some exporter /\
    q = sr_path exporter /\
    cli_status env = "Completed" /\
    dicomSegmentationExporter (world (createDICOMSR env referencedSegmentation completed w))
    = Some exporter /\
    events (createDICOMSR env referencedSegmentation completed w)
    = [EvSaveJSON (sr_meta_path exporter); EvCliRun (sr_path exporter);
       EvDcmRead referencedSegmentation; EvDcmRead (sr_path exporter);
       EvSaveAs (sr_path exporter)].
Proof.
  rewrite createDICOMSR_run.
  destruct (dicomSegmentationExporter w) as [exporter|] eqn:Hex; [|discriminate].
  destruct (String.eqb_spec (cli_status env) "Completed") as [Hst|Hst].
  - cascade; try rewrite merge_into_SR_run; cascade; intros H; try discriminate H.
    injection H as <-. exists exporter. by repeat split.
  - cascade; intros H; discriminate H.
Qed.

(** ** The trace of a save *)

(** [createSEG] as a cascade of what the exporter and the database answer. *)
Lemma createSEG_run env w :
  createSEG env w
  = match new_exporter env with
    | Raise e => mkStep (Raise e) w []
    | Return exporter =>
    match export_result env with
    | Raise e =>
        mkStep (Raise (export_fault e)) (set_exporter (Some exporter) w)
          [EvExport (seg_file_path exporter)]
    | Return seg =>
        mkStep match database_insert_result env with
               | None => Return (seg_file_path exporter)
               | Some e => Raise (insert_fault e)
               end
          (set_files (<[seg_file_path exporter := seg]> (files w))
             (set_exporter (Some exporter) w))
          [EvExport (seg_file_path exporter); EvDatabaseInsert (seg_file_path exporter)]
    end end.
Proof.
  destruct (new_exporter env) as [exporter|e] eqn:Hn; [|by apply createSEG_no_exporter].
  destruct (export_result env) as [seg|e] eqn:He; [|by apply createSEG_export_Raise].
  destruct (database_insert_result env) as [e|] eqn:Hi.
  - by apply createSEG_insert_Raise.
  - by apply createSEG_Return.
Qed.

Lemma truthy_str_path_join a c b : truthy_str (path_join a (String c b)) = true.
Proof.
  unfold path_join, truthy_str.
  destruct (starts_with_slash (String c b)); [reflexivity|].
  destruct (String.eqb a "" || ends_with_slash a)%bool; destruct a; reflexivity.
Qed.

Lemma truthy_seg_file_path exporter : truthy_str (seg_file_path exporter) = true.
Proof. apply truthy_str_path_join. Qed.

Lemma truthy_sr_path exporter : truthy_str (sr_path exporter) = true.
Proof. apply truthy_str_path_join. Qed.

(** The calls of [createDICOMSR] are an initial segment of its five calls,
    and the exporter stays in place. *)
Lemma createDICOMSR_events_prefix env referencedSegmentation completed w exporter :
  dicomSegmentationExporter w = Some exporter ->
  dicomSegmentationExporter (world (createDICOMSR env referencedSegmentation completed w))
  = Some exporter /\
  exists n,
    (n <= 5)%nat /\
    events (createDICOMSR env referencedSegmentation completed w)
    = take n [EvSaveJSON (sr_meta_path exporter); EvCliRun (sr_path exporter);
              EvDcmRead referencedSegmentation; EvDcmRead (sr_path exporter);
              EvSaveAs (sr_path exporter)].
Proof.
  intros Hex. rewrite createDICOMSR_run, Hex.
  cascade; try rewrite merge_into_SR_run; cascade;
    cbn [dicomSegmentationExporter set_files];
    (split; [exact Hex|]);
    first [ exists 0%nat; split; [lia | reflexivity]
          | exists 2%nat; split; [lia | reflexivity]
          | exists 3%nat; split; [lia | reflexivity]
          | exists 4%nat; split; [lia | reflexivity]
          | exists 5%nat; split; [lia | reflexivity] ].
Qed.

Section SaveReportTrace.

Variables (env : Env) (completed : bool) (w : World) (exporter : Exporter).
Hypothesis Hconfirmed : truthy_metadata (user_metadata env) = true.
Hypothesis Hexporter : new_exporter env = Return exporter.

Local Abbreviation w0 := (set_metadata (user_metadata env) w).
Local Abbreviation r := (saveReport env completed w).

(** X8: once the metadata is confirmed and the exporter is created, the calls
    of [saveReport] that write, read or register the files of the report
    ([export], [dicomDatabase.insert], [saveJSON], the run of the SR writer,
    [dcmread] of the SEG and of the SR, [save_as], [addFile] of the SEG and of
    the SR) are made in this order and form an initial segment of this
    sequence: a save that ends early has made the calls up to that point,
    skipping none, and none after it.  They are followed by
    [cleanupTemporaryData] and the exporter's cleanup.  The queries of the
    scene and of the user are not part of the trace. *)
Theorem saveReport_trace :
  exists n,
    events r
    = take n (full_trace exporter)
        ++ [EvCleanupTemporaryData; EvExporterCleanup (tempDir exporter)].
Proof.
  rewrite (saveReport_confirmed env completed w Hconfirmed).
  pose proof (createSEG_run env w0) as Hseg. rewrite Hexporter in Hseg.
  destruct (export_result env) as [seg|e] eqn:He.
  2: { rewrite (saveReport_try_createSEG_Raise env completed _ _ _ _ Hseg).
       exists 1%nat. reflexivity. }
  destruct (database_insert_result env) as [e|] eqn:Hi.
  { rewrite (saveReport_try_createSEG_Raise env completed _ _ _ _ Hseg).
    exists 2%nat. reflexivity. }
  set (w1 := set_files (<[seg_file_path exporter := seg]> (files w0))
               (set_exporter (Some exporter) w0)) in *.
  destruct (createDICOMSR_events_prefix env (seg_file_path exporter) completed w1 exporter
              eq_refl) as (Hex2 & n & Hle & Hn).
  destruct (createDICOMSR env (seg_file_path exporter) completed w1)
    as [[q|e] w2 evs2] eqn:H2; cbn [world events] in Hex2, Hn.
  - destruct (createDICOMSR_Return_inv env (seg_file_path exporter) completed w1 q)
      as (ex & Hex & -> & _ & _ & Hev).
    { by rewrite H2. }
    injection Hex as <-. rewrite H2 in Hev. cbn [events] in Hev.
    clear n Hle Hn. rewrite Hev in H2. clear Hev.
    rewrite (saveReport_try_indexed env completed _ _ _ _ _ _ _ Hseg H2)
      by (by rewrite truthy_seg_file_path, truthy_sr_path).
    destruct (indexer_result env) as [e|].
    + exists 8%nat. unfold cleanup_events. cbn [world events]. rewrite Hex2. reflexivity.
    + exists 9%nat. unfold cleanup_events. cbn [world events]. rewrite Hex2. reflexivity.
  - rewrite (saveReport_try_createDICOMSR_Raise env completed _ _ _ _ _ _ _ Hseg H2).
    exists (2 + n)%nat. unfold cleanup_events. cbn [world events]. rewrite Hex2, Hn.
    unfold full_trace. cbn [take Nat.add app].
    do 2 f_equal. f_equal.
    change [EvSaveJSON (sr_meta_path exporter); EvCliRun (sr_path exporter);
            EvDcmRead (seg_file_path exporter); EvDcmRead (sr_path exporter);
            EvSaveAs (sr_path exporter); EvIndexerAddFile (seg_file_path exporter);
            EvIndexerAddFile (sr_path exporter)]
      with ([EvSaveJSON (sr_meta_path exporter); EvCliRun (sr_path exporter);
             EvDcmRead (seg_file_path exporter); EvDcmRead (sr_path exporter);
             EvSaveAs (sr_path exporter)]
              ++ [EvIndexerAddFile (seg_file_path exporter);
                  EvIndexerAddFile (sr_path exporter)]).
    by rewrite take_app_le.
Qed.

End SaveReportTrace.

(** ** The cleanup *)

(** The exporter [createSEG] creates stays in place until the [try] block of
    [saveReport] is left. *)
Lemma saveReport_try_keeps_exporter env completed w exporter :
  new_exporter env = Return exporter ->
  dicomSegmentationExporter (world (saveReport_try env completed w)) = Some exporter.
Proof.
  intros Hexporter.
  pose proof (createSEG_run env w) as Hseg. rewrite Hexporter in Hseg.
  destruct (export_result env) as [seg|e] eqn:He.
  2: { by rewrite (saveReport_try_createSEG_Raise env completed _ _ _ _ Hseg). }
  destruct (database_insert_result env) as [e|] eqn:Hi.
  { by rewrite (saveReport_try_createSEG_Raise env completed _ _ _ _ Hseg). }
  set (w1 := set_files (<[seg_file_path exporter := seg]> (files w))
               (set_exporter (Some exporter) w)) in *.
  destruct (createDICOMSR_events_prefix env (seg_file_path exporter) completed w1 exporter
              eq_refl) as (Hex2 & _).
  destruct (createDICOMSR env (seg_file_path exporter) completed w1)
    as [[q|e] w2 evs2] eqn:H2; cbn [world] in Hex2.
  - destruct (createDICOMSR_Return_inv env (seg_file_path exporter) completed w1 q)
      as (ex & Hex & -> & _).
    { by rewrite H2. }
    rewrite (saveReport_try_indexed env completed _ _ _ _ _ _ _ Hseg H2)
      by (by rewrite truthy_seg_file_path, truthy_sr_path).
    by destruct (indexer_result env).
  - by rewrite (saveReport_try_createDICOMSR_Raise env completed _ _ _ _ _ _ _ Hseg H2).
Qed.

(** When the exporter cannot be created, the [try] block leaves the widget as
    it found it. *)
Lemma saveReport_try_no_exporter env completed w e :
  new_exporter env = Raise e ->
  world (saveReport_try env completed w) = w.
Proof.
  intros H.
  by rewrite (saveReport_try_createSEG_Raise env completed _ _ _ _
                (createSEG_no_exporter env w e H)).
Qed.

(** C9: once the metadata is confirmed, whatever the collaborators answer and
    whatever [createSEG], [createDICOMSR] or the indexer do (return, raise an
    exception that is caught, raise one that is not), [saveReport] ends with
    [cleanupTemporaryData]: its calls are those of the [try] block followed by
    the calls of the cleanup in the state the block left.  When [createSEG]
    created an exporter, these are the call of [cleanupTemporaryData] and the
    call of [cleanup()] on that exporter, which removes its temporary
    directory; when the exporter could not be created, the cleanup is that of
    the exporter the widget still held, if any.  In every case the widget
    holds no exporter afterwards. *)
Theorem C9_cleanup_always_runs env completed w :
  truthy_metadata (user_metadata env) = true ->
  events (saveReport env completed w)
  = events (saveReport_try env completed (set_metadata (user_metadata env) w))
      ++ cleanup_events
           (world (saveReport_try env completed (set_metadata (user_metadata env) w))) /\
  (forall exporter,
     new_exporter env = Return exporter ->
     cleanup_events
       (world (saveReport_try env completed (set_metadata (user_metadata env) w)))
     = [EvCleanupTemporaryData; EvExporterCleanup (tempDir exporter)]) /\
  (forall e,
     new_exporter env = Raise e ->
     cleanup_events
       (world (saveReport_try env completed (set_metadata (user_metadata env) w)))
     = cleanup_events w) /\
  dicomSegmentationExporter (world (saveReport env completed w)) = None.
Proof.
  intros Hmd. rewrite (saveReport_confirmed env completed w Hmd).
  cbn [events world]. repeat split.
  - intros exporter Hn. unfold cleanup_events.
    by rewrite (saveReport_try_keeps_exporter env completed _ exporter Hn).
  - intros e Hn. by rewrite (saveReport_try_no_exporter env completed _ e Hn).
Qed.

Lemma C9_cleanup_always_runs_witness :
  outcome (saveReport
             (Example.host Example.seg2 "CompletedWithErrors"
                [Example.group "a"; Example.group "b"])
             false (Example.widget Example.store Example.seg2))
  = Raise (Exception [PStr "tid1500writer CLI did not complete cleanly"]) /\
  exists before,
    events (saveReport
              (Example.host Example.seg2 "CompletedWithErrors"
                 [Example.group "a"; Example.group "b"])
              false (Example.widget Example.store Example.seg2))
    = before ++ [EvCleanupTemporaryData; EvExporterCleanup "/tmp/qr"].
Proof.
  destruct (C9_cleanup_always_runs
              (Example.host Example.seg2 "CompletedWithErrors"
                 [Example.group "a"; Example.group "b"])
              false (Example.widget Example.store Example.seg2) eq_refl)
    as (Hev & Hex & _ & _).
  split; [vm_compute; reflexivity|].
  eexists. rewrite Hev, (Hex Example.exporter eq_refl). reflexivity.
Defined.

Lemma surfaced_outcome e :
  match match surfaced e with
        | Return v => Return (Some v)
        | Raise e' => Raise e'
        end with
  | Return (Some v) => Return v
  | Return None => Return (true, PNone)
  | Raise e' => Raise e'
  end = surfaced e.
Proof. by destruct (surfaced e). Qed.

Lemma surfaced_not_success e v : surfaced e ≠ Return (true, v).
Proof. unfold surfaced. by destruct (caught_by e saveReport_handled). Qed.

Lemma saveReport_success_full env completed w v :
  outcome (saveReport env completed w) = Return (true, v) ->
  v = PNone /\
  exists exporter,
    new_exporter env = Return exporter /\
    cli_status env = "Completed" /\
    events (saveReport env completed w)
    = full_trace exporter
        ++ [EvCleanupTemporaryData; EvExporterCleanup (tempDir exporter)].
Proof.
  destruct (truthy_metadata (user_metadata env)) eqn:Ht.
  2: { rewrite (saveReport_cancelled env completed w Ht). discriminate. }
  rewrite (saveReport_confirmed env completed w Ht).
  pose proof (createSEG_run env (set_metadata (user_metadata env) w)) as Hseg.
  destruct (new_exporter env) as [exporter|e] eqn:Hn.
  2: { rewrite (saveReport_try_createSEG_Raise env completed _ _ _ _ Hseg).
       cbn [outcome]. rewrite surfaced_outcome. intros H. by apply surfaced_not_success in H. }
  destruct (export_result env) as [seg|e] eqn:He.
  2: { rewrite (saveReport_try_createSEG_Raise env completed _ _ _ _ Hseg).
       cbn [outcome]. rewrite surfaced_outcome. intros H. by apply surfaced_not_success in H. }
  destruct (database_insert_result env) as [e|] eqn:Hi.
  { rewrite (saveReport_try_createSEG_Raise env completed _ _ _ _ Hseg).
    cbn [outcome]. rewrite surfaced_outcome. intros H. by apply surfaced_not_success in H. }
  set (w1 := set_files (<[seg_file_path exporter := seg]>
                          (files (set_metadata (user_metadata env) w)))
               (set_exporter (Some exporter) (set_metadata (user_metadata env) w))) in *.
  destruct (createDICOMSR_events_prefix env (seg_file_path exporter) completed w1 exporter
              eq_refl) as (Hex2 & _).
  destruct (createDICOMSR env (seg_file_path exporter) completed w1)
    as [[q|e] w2 evs2] eqn:H2; cbn [world] in Hex2.
  2: { rewrite (saveReport_try_createDICOMSR_Raise env completed _ _ _ _ _ _ _ Hseg H2).
       cbn [outcome]. rewrite surfaced_outcome. intros H. by apply surfaced_not_success in H. }
  destruct (createDICOMSR_Return_inv env (seg_file_path exporter) completed w1 q)
    as (ex & Hex & -> & Hst & _ & Hev).
  { by rewrite H2. }
  injection Hex as <-. rewrite H2 in Hev. cbn [events] in Hev. rewrite Hev in H2. clear Hev.
  rewrite (saveReport_try_indexed env completed _ _ _ _ _ _ _ Hseg H2)
    by (by rewrite truthy_seg_file_path, truthy_sr_path).
  destruct (indexer_result env) as [e|].
  { cbn [outcome]. rewrite surfaced_outcome. intros H. by apply surfaced_not_success in H. }
  cbn [outcome world events]. intros [= <-]. split; [reflexivity|].
  exists exporter. split; [reflexivity|]. split; [exact Hst|].
  unfold cleanup_events. rewrite Hex2. reflexivity.
Qed.

(** X9: a save that reports success has made every call of the full sequence,
    in order: the SEG was exported and inserted, the SR writer completed, the
    merged SR was saved, both files were indexed, and the temporary data was
    cleaned up; its second component is [None]. *)
Theorem saveReport_success env completed w v :
  outcome (saveReport env completed w) = Return (true, v) ->
  v = PNone /\
  exists exporter,
    new_exporter env = Return exporter /\
    cli_status env = "Completed" /\
    events (saveReport env completed w)
    = full_trace exporter
        ++ [EvCleanupTemporaryData; EvExporterCleanup (tempDir exporter)].
Proof. apply saveReport_success_full. Qed.

(** ** Faults of the export and of the metadata *)

Lemma export_fault_ValueError e :
  is_export_fault e = true -> exists a, export_fault e = ValueError [PTuple a].
Proof.
  unfold is_export_fault, export_fault, caught_by. cbn [existsb].
  destruct (isinstance e MissingAttributeError); [eauto|].
  destruct (isinstance e EmptySegmentsFoundError); [eauto|].
  destruct (isinstance e NoNonEmptySegmentsFoundError); [eauto|].
  destruct (isinstance e "ValueError"); [eauto|]. discriminate.
Qed.

Lemma export_fault_other e : is_export_fault e = false -> export_fault e = e.
Proof.
  unfold is_export_fault, export_fault, caught_by. cbn [existsb].
  destruct (isinstance e MissingAttributeError); [discriminate|].
  destruct (isinstance e EmptySegmentsFoundError); [discriminate|].
  destruct (isinstance e NoNonEmptySegmentsFoundError); [discriminate|].
  destruct (isinstance e "ValueError"); [discriminate|]. reflexivity.
Qed.

Section ExportFaults.

Variables (env : Env) (completed : bool) (w : World) (exporter : Exporter) (e : exn).
Hypothesis Hconfirmed : truthy_metadata (user_metadata env) = true.
Hypothesis Hexporter : new_exporter env = Return exporter.
Hypothesis Hexport : export_result env = Raise e.

Lemma saveReport_export_Raise :
  saveReport env completed w
  = mkStep (surfaced (export_fault e))
      (set_exporter None (set_metadata (user_metadata env) w))
      [EvExport (seg_file_path exporter); EvCleanupTemporaryData;
       EvExporterCleanup (tempDir exporter)].
Proof.
  rewrite (saveReport_confirmed env completed w Hconfirmed).
  pose proof (createSEG_run env (set_metadata (user_metadata env) w)) as Hseg.
  rewrite Hexporter, Hexport in Hseg.
  rewrite (saveReport_try_createSEG_Raise env completed _ _ _ _ Hseg).
  cbn [outcome world events]. rewrite surfaced_outcome. by destruct w.
Qed.

(** X12: when the export raises one of the exceptions [createSEG] handles
    (missing attributes, empty segments, no non-empty segment, or a
    [ValueError]), [saveReport] returns a failed save whose error is the
    argument tuple of a [ValueError] wrapping a tuple; nothing but the export
    and the cleanup was called, and no file was written.  For missing
    attributes reported with one string [s] as argument, the inner tuple
    holds "Missing attributes: " followed by [s] and a space. *)
Theorem saveReport_export_fault :
  is_export_fault e = true ->
  exists a,
    outcome (saveReport env completed w) = Return (false, PTuple [PTuple a]) /\
    events (saveReport env completed w)
    = [EvExport (seg_file_path exporter); EvCleanupTemporaryData;
       EvExporterCleanup (tempDir exporter)] /\
    files (world (saveReport env completed w)) = files w /\
    (isinstance e MissingAttributeError = true ->
     forall s, args e = [PStr s] ->
     a = [PStr ("Missing attributes: " +:+ s +:+ " ")]).
Proof.
  intros Hf. destruct (export_fault_ValueError e Hf) as [a Ha].
  exists a. rewrite saveReport_export_Raise, Ha. repeat split.
  intros Hm s Hs. unfold export_fault, str_exn in Ha. rewrite Hm, Hs in Ha.
  by injection Ha as <-.
Qed.

(** X13: any other exception of the export leaves [createSEG] as it is:
    [saveReport] returns it as a failed save with its own arguments when it
    is a [RuntimeError] or an [AttributeError], and raises it otherwise. *)
Theorem saveReport_export_other_exception :
  is_export_fault e = false ->
  outcome (saveReport env completed w)
  = if caught_by e ["RuntimeError"; "AttributeError"]
    then Return (false, PTuple (args e)) else Raise e.
Proof.
  intros Hf. rewrite saveReport_export_Raise, (export_fault_other e Hf).
  cbn [outcome]. unfold surfaced, saveReport_handled, caught_by. cbn [existsb].
  assert (isinstance e "ValueError" = false) as ->.
  { unfold is_export_fault, caught_by in Hf. cbn [existsb] in Hf.
    do 3 (apply orb_false_elim in Hf as [_ Hf]). by apply orb_false_elim in Hf as [Hf _]. }
  by rewrite orb_false_l.
Qed.

End ExportFaults.

(** X10: when the metadata dialog is rejected, or returns an empty dict,
    [saveReport] returns a failed save with the cancel message and has done
    nothing: no call was made (not even the cleanup), and the files, the
    exporter and the store are as they were. *)
Theorem saveReport_cancel_has_no_effect env completed w :
  truthy_metadata (user_metadata env) = false ->
  outcome (saveReport env completed w)
  = Return (false,
            PStr "Saving process canceled. Meta-information was not confirmed by user.") /\
  events (saveReport env completed w) = [] /\
  files (world (saveReport env completed w)) = files w /\
  dicomSegmentationExporter (world (saveReport env completed w))
  = dicomSegmentationExporter w /\
  segment_characteristics (world (saveReport env completed w)) = segment_characteristics w.
Proof. intros H. rewrite (saveReport_cancelled env completed w H). by repeat split. Qed.

Section AfterCreateSEG.

Variables (env : Env) (completed : bool) (w : World) (exporter : Exporter) (seg : Dataset).
Hypothesis Hconfirmed : truthy_metadata (user_metadata env) = true.
Hypothesis Hexporter : new_exporter env = Return exporter.
Hypothesis Hexport : export_result env = Return seg.

Local Abbreviation w0 := (set_metadata (user_metadata env) w).
Local Abbreviation w1 :=
  (set_files (<[seg_file_path exporter := seg]> (files w0))
     (set_exporter (Some exporter) w0)).

(** X11: the SEG file is inserted in the DICOM database as soon as it is
    exported, before the SR is generated: the insert is in the trace of every
    save whose export returned, whatever the save then returns or raises. *)
Theorem saveReport_inserts_SEG_first :
  exists rest,
    events (saveReport env completed w)
    = EvExport (seg_file_path exporter) :: EvDatabaseInsert (seg_file_path exporter) :: rest.
Proof.
  rewrite (saveReport_confirmed env completed w Hconfirmed).
  pose proof (createSEG_run env w0) as Hseg. rewrite Hexporter, Hexport in Hseg.
  destruct (database_insert_result env) as [e|] eqn:Hi.
  { rewrite (saveReport_try_createSEG_Raise env completed _ _ _ _ Hseg).
    cbn [events app]. eauto. }
  destruct (createDICOMSR env (seg_file_path exporter) completed w1)
    as [[q|e] w2 evs2] eqn:H2.
  - destruct (createDICOMSR_Return_inv env (seg_file_path exporter) completed w1 q)
      as (ex & Hex & -> & _).
    { by rewrite H2. }
    injection Hex as <-.
    rewrite (saveReport_try_indexed env completed _ _ _ _ _ _ _ Hseg H2)
      by (by rewrite truthy_seg_file_path, truthy_sr_path).
    destruct (indexer_result env); cbn [events app]; eauto.
  - rewrite (saveReport_try_createDICOMSR_Raise env completed _ _ _ _ _ _ _ Hseg H2).
    cbn [events app]. eauto.
Qed.

(** X14: when the confirmed metadata lacks [ContentCreatorName], or has it and
    lacks [ClinicalTrialTimePointID], [saveReport] raises the [KeyError] of
    that key: the handler does not list it.  The SEG was exported and
    inserted by then; the SR writer was not run. *)
Theorem saveReport_missing_metadata_key d key :
  user_metadata env = Some d ->
  database_insert_result env = None ->
  series_attributes_result env = None ->
  (dict_get "ContentCreatorName" d = None /\ key = "ContentCreatorName") \/
  (is_Some (dict_get "ContentCreatorName" d) /\
   dict_get "ClinicalTrialTimePointID" d = None /\ key = "ClinicalTrialTimePointID") ->
  outcome (saveReport env completed w) = Raise (KeyError [PStr key]) /\
  events (saveReport env completed w)
  = [EvExport (seg_file_path exporter); EvDatabaseInsert (seg_file_path exporter);
     EvCleanupTemporaryData; EvExporterCleanup (tempDir exporter)].
Proof.
  intros Hd Hi Hs Hkey.
  rewrite (saveReport_confirmed env completed w Hconfirmed).
  pose proof (createSEG_run env w0) as Hseg. rewrite Hexporter, Hexport, Hi in Hseg.
  assert (createDICOMSR env (seg_file_path exporter) completed w1
          = mkStep (Raise (KeyError [PStr key])) w1 []) as H2.
  { rewrite createDICOMSR_run.
    cbn [dicomSegmentationExporter _metadata set_files set_exporter set_metadata].
    rewrite Hs, Hd.
    destruct Hkey as [[Hc ->] | ([v Hc] & Ht & ->)]; rewrite Hc; [reflexivity|].
    by rewrite Ht. }
  rewrite (saveReport_try_createDICOMSR_Raise env completed _ _ _ _ _ _ _ Hseg H2).
  split; reflexivity.
Qed.

End AfterCreateSEG.

(** * Further properties of the store *)

Lemma get_or_create_lookup_eq (store : gmap Z Entry) (s k : Z) :
  get_or_create s store !! k
  = match store !! k with
    | Some c => Some c
    | None => if decide (k = s) then Some [] else None
    end.
Proof.
  unfold get_or_create. destruct (store !! s) as [c|] eqn:Hs.
  - destruct (store !! k) eqn:Hk; [reflexivity|].
    case_decide; [congruence | reflexivity].
  - rewrite lookup_insert. case_decide as Heq.
    + subst. rewrite Hs. by rewrite decide_True.
    + destruct (store !! k); [reflexivity|]. by rewrite decide_False.
Qed.

Lemma fold_get_or_create_lookup (segments : list Segment) : forall (store : gmap Z Entry) k,
  fold_left (fun st segment => get_or_create (GetLabelValue segment) st) segments store !! k
  = match store !! k with
    | Some c => Some c
    | None => if decide (k ∈ map GetLabelValue segments) then Some [] else None
    end.
Proof.
  induction segments as [|s segments IH]; intros store k; cbn [fold_left map].
  - destruct (store !! k); [reflexivity|]. rewrite decide_False; [reflexivity|].
    apply not_elem_of_nil.
  - rewrite IH, get_or_create_lookup_eq.
    destruct (store !! k); [reflexivity|].
    destruct (decide (k = GetLabelValue s)) as [->|Hne].
    + rewrite decide_True; [reflexivity | constructor].
    + destruct (decide (k ∈ map GetLabelValue segments)) as [Hin|Hin].
      * rewrite decide_True; [reflexivity | by constructor].
      * rewrite decide_False; [reflexivity|].
        intros H. apply elem_of_cons in H as [?|?]; contradiction.
Qed.

Lemma update_store_lookup_aux (segments : list Segment) (store : gmap Z Entry) (k : Z) :
  updateSegmentationCharacteristics_store segments store !! k
  = if decide (k ∈ map GetLabelValue segments) then Some (default [] (store !! k))
    else None.
Proof.
  unfold updateSegmentationCharacteristics_store.
  rewrite fold_get_or_create_lookup, lookup_prune.
  destruct (decide (k ∈ map GetLabelValue segments)); [|reflexivity].
  by destruct (store !! k).
Qed.

(** X15: after [updateSegmentationCharacteristics], the store has exactly the
    label values of the visible segments as keys; a segment that had an entry
    keeps its characteristics, a segment that had none gets an empty entry,
    and the entries of all other keys are gone. *)
Theorem update_store_lookup (segments : list Segment) (store : gmap Z Entry) (k : Z) :
  updateSegmentationCharacteristics_store segments store !! k
  = if decide (k ∈ map GetLabelValue segments) then Some (default [] (store !! k))
    else None.
Proof. apply update_store_lookup_aux. Qed.

(** X16: refreshing the store twice from the same segments is refreshing it
    once. *)
Theorem update_store_idempotent (segments : list Segment) (store : gmap Z Entry) :
  updateSegmentationCharacteristics_store segments
    (updateSegmentationCharacteristics_store segments store)
  = updateSegmentationCharacteristics_store segments store.
Proof.
  apply map_eq. intros k. rewrite !update_store_lookup_aux.
  by destruct (decide (k ∈ map GetLabelValue segments)).
Qed.

Lemma update_store_size_aux (segments : list Segment) (store : gmap Z Entry) :
  NoDup (map GetLabelValue segments) ->
  size (updateSegmentationCharacteristics_store segments store) = length segments.
Proof.
  intros Hnd. rewrite <- size_dom.
  assert (dom (updateSegmentationCharacteristics_store segments store)
          = list_to_set (map GetLabelValue segments)) as ->.
  { apply set_eq. intros k. rewrite elem_of_dom, update_store_lookup_aux, elem_of_list_to_set.
    destruct (decide (k ∈ map GetLabelValue segments)) as [Hin|Hin].
    - split; [done | eauto].
    - split; [intros [? ?]; discriminate | done]. }
  rewrite size_list_to_set by exact Hnd. apply length_map.
Qed.

(** X17: when the visible segments have distinct label values, the refreshed
    store has as many entries as there are visible segments. *)
Theorem update_store_size (segments : list Segment) (store : gmap Z Entry) :
  NoDup (map GetLabelValue segments) ->
  size (updateSegmentationCharacteristics_store segments store) = length segments.
Proof. apply update_store_size_aux. Qed.

(** X19: the keys are paired in ascending order: [sorted(...)] lists every key
    of the store once, smallest first, and nothing else. *)
Theorem sorted_keys_ascending (store : gmap Z Entry) :
  Sorted Z.le (sorted_keys store) /\
  NoDup (sorted_keys store) /\
  length (sorted_keys store) = size store /\
  (forall k, k ∈ sorted_keys store <-> is_Some (store !! k)).
Proof.
  split; [apply sorted_keys_Sorted|]. split; [apply sorted_keys_NoDup|].
  split; [apply length_sorted_keys|]. apply elem_of_sorted_keys.
Qed.

(** X7: a store refreshed from the visible segments (distinct label values)
    passes the consistency check only against a SEG dataset with as many
    segments: when the SEG dataset holds another number of segments, as it
    does when hidden segments are exported as well, [createDICOMSR] raises
    the consistency [ValueError]. *)
Theorem refreshed_store_rejects_other_counts env w referencedSegmentation completed
    exporter seg_ds segs segments store0 :
  segment_characteristics w = updateSegmentationCharacteristics_store segments store0 ->
  NoDup (map GetLabelValue segments) ->
  generated env w exporter ->
  seg_readable (files_after_cli env (sr_path exporter) (files w))
    referencedSegmentation seg_ds segs ->
  length segs ≠ length segments ->
  outcome (createDICOMSR env referencedSegmentation completed w)
  = Raise (ValueError [PStr (consistency_message seg_ds (segment_characteristics w))]).
Proof.
  intros Hst Hnd Hg Hseg Hne.
  rewrite (createDICOMSR_generated env _ _ _ _ Hg).
  rewrite (merge_into_SR_mismatch _ _ _ seg_ds segs); [reflexivity | exact Hseg |].
  cbn [segment_characteristics set_files]. rewrite Hst, update_store_size_aux; assumption.
Qed.

(** * Further properties of the lookup and of the coded items *)

(** X20: what the lookup returns is in the catalog and is what was asked for:
    the label is not "N/A", the concept-name code is displayed as the concept
    name, the choice code is displayed as the label, and the two codes come
    from one entry of the catalog. *)
Theorem lookup_sound config concept_name choice_label found :
  _find_characteristics_from_concept_name_and_choice concept_name choice_label config
    = Return (Some found) ->
  choice_label ≠ "N/A" /\
  CodeMeaning (found_ConceptNameCodeSequence found) = concept_name /\
  CodeMeaning (found_ConceptCodeSequence found) = choice_label /\
  exists i, i ∈ config /\
            found_ConceptNameCodeSequence found = ConceptNameCodeSequence i /\
            found_ConceptCodeSequence found ∈ choices i.
Proof.
  intros H. split.
  { intros ->. discriminate H. }
  apply find_characteristics_Some, scan_config_Some in H as (i & j & Hfind & Hj & ->).
  apply find_elem_of in Hfind as [Hin Hp]. apply andb_prop in Hp as [Hn _].
  apply String.eqb_eq in Hn. apply scan_choices_Some in Hj as [Hjin Hm].
  cbn [found_ConceptNameCodeSequence found_ConceptCodeSequence]. eauto 10.
Qed.

(** X21: the lookup returns exactly when the label is "N/A" or some entry
    named like the concept offers the label; in every other case it raises. *)
Theorem lookup_returns_iff config concept_name choice_label :
  returned (_find_characteristics_from_concept_name_and_choice
              concept_name choice_label config)
  = (String.eqb choice_label "N/A" || in_catalog config (concept_name, choice_label))%bool.
Proof.
  unfold _find_characteristics_from_concept_name_and_choice.
  destruct (String.eqb choice_label "N/A"); [reflexivity|]. cbn [orb].
  destruct (in_catalog config (concept_name, choice_label)) eqn:Hc.
  - destruct (in_catalog_scan_config config _ _ Hc) as [found ->]. reflexivity.
  - destruct (scan_config concept_name choice_label config) as [found|] eqn:Hs;
      [|reflexivity].
    apply scan_config_Some in Hs as (i & j & Hfind & _).
    apply find_elem_of in Hfind as [Hin Hp].
    assert (in_catalog config (concept_name, choice_label) = true); [|congruence].
    apply existsb_exists. exists i. split; [by apply list_elem_of_In | exact Hp].
Qed.

(** X22: the coded item determines the code pair it was created from: two
    lookups' results that give the same dataset are the same pair. *)
Theorem create_dataset_injective c1 c2 :
  create_dataset_from_characteristics c1 = create_dataset_from_characteristics c2 ->
  c1 = c2.
Proof.
  destruct c1 as [[v1 s1 m1] [v1' s1' m1']], c2 as [[v2 s2 m2] [v2' s2' m2']].
  intros H. vm_compute in H. by injection H as -> -> -> -> -> ->.
Qed.

(** * Further properties of the merge *)

Lemma find_characteristics_NA concept_name config :
  _find_characteristics_from_concept_name_and_choice concept_name "N/A" config
  = Return None.
Proof. reflexivity. Qed.

Lemma selected_cons_NA cn entry : selected ((cn, "N/A") :: entry) = selected entry.
Proof. reflexivity. Qed.

Lemma selected_cons cn cl entry :
  cl ≠ "N/A" -> selected ((cn, cl) :: entry) = (cn, cl) :: selected entry.
Proof.
  intros H. unfold selected. cbn [List.filter snd].
  by destruct (String.eqb_spec cl "N/A").
Qed.

Lemma resolved_cons config cn cl entry found :
  cl ≠ "N/A" -> scan_config cn cl config = Some found ->
  resolved config ((cn, cl) :: entry) = found :: resolved config entry.
Proof.
  intros H Hs. unfold resolved. rewrite selected_cons by exact H.
  cbn [omap list_omap fst snd]. by rewrite Hs.
Qed.

(** An entry without selection leaves the content item as it is, whether or
    not the item has a content sequence. *)
Lemma append_characteristics_nothing_selected config dataset entry :
  selected entry = [] ->
  append_characteristics config dataset entry = Return dataset.
Proof.
  induction entry as [|[cn cl] entry IH]; [reflexivity|].
  destruct (String.eqb_spec cl "N/A") as [->|Hne].
  - rewrite selected_cons_NA. intros H. cbn [append_characteristics].
    rewrite find_characteristics_NA. cbn [mbind Outcome_bind]. by apply IH.
  - rewrite selected_cons by exact Hne. discriminate.
Qed.

Lemma append_characteristics_only_appends_full config entry : forall dataset dataset',
  append_characteristics config dataset entry = Return dataset' ->
  (forall k, k ≠ "ContentSequence" -> get_attr k dataset' = get_attr k dataset) /\
  ((selected entry = [] /\ dataset' = dataset) \/
   exists content,
     get_seq "ContentSequence" dataset = Some content /\
     get_seq "ContentSequence" dataset'
     = Some (content ++ map create_dataset_from_characteristics (resolved config entry)) /\
     length (resolved config entry) = length (selected entry)).
Proof.
  induction entry as [|[cn cl] entry IH]; intros dataset dataset'.
  - intros [= <-]. split; [done | by left].
  - cbn [append_characteristics].
    destruct (String.eqb_spec cl "N/A") as [->|Hne].
    + rewrite find_characteristics_NA. cbn [mbind Outcome_bind]. apply IH.
    + rewrite find_characteristics_not_NA by exact Hne.
      destruct (scan_config cn cl config) as [found|] eqn:Hs; [|discriminate].
      cbn [mbind Outcome_bind]. unfold attr_seq.
      destruct (get_seq "ContentSequence" dataset) as [content|] eqn:Hc; [|discriminate].
      cbn [mbind Outcome_bind]. intros H. apply IH in H as [Hother Hcases]. split.
      * intros k Hk. rewrite Hother by exact Hk. by apply get_attr_set_attr_ne.
      * right. exists content. split; [reflexivity|].
        rewrite (resolved_cons _ _ _ _ _ Hne Hs), selected_cons by exact Hne.
        cbn [map length].
        destruct Hcases as [[Hsel ->] | (content' & Hc' & Hres & Hlen)].
        -- unfold resolved. rewrite Hsel. cbn [omap list_omap map length].
           rewrite get_seq_set_attr. by split.
        -- rewrite get_seq_set_attr in Hc'. injection Hc' as <-.
           rewrite Hres, <- app_assoc. split; [reflexivity | by rewrite Hlen].
Qed.

Lemma append_characteristics_only_appends_aux config entry dataset dataset' k :
  append_characteristics config dataset entry = Return dataset' ->
  k ≠ "ContentSequence" -> get_attr k dataset' = get_attr k dataset.
Proof.
  intros H Hk. by apply (append_characteristics_only_appends_full config entry dataset dataset').
Qed.

(** X23: whenever the merge of one content item returns, it has only appended:
    every attribute other than the content sequence is as it was, and either
    nothing was selected and the item is unchanged, or its content sequence
    is the old one followed by one coded item per selection, in the order of
    the entry. *)
Theorem append_characteristics_only_appends config entry dataset dataset' :
  append_characteristics config dataset entry = Return dataset' ->
  (forall k, k ≠ "ContentSequence" -> get_attr k dataset' = get_attr k dataset) /\
  ((selected entry = [] /\ dataset' = dataset) \/
   exists content,
     get_seq "ContentSequence" dataset = Some content /\
     get_seq "ContentSequence" dataset'
     = Some (content ++ map create_dataset_from_characteristics (resolved config entry)) /\
     length (resolved config entry) = length (selected entry)).
Proof. apply append_characteristics_only_appends_full. Qed.

Lemma merge_characteristics_keeps_items_aux store config children : forall keys merged,
  merge_characteristics store config children keys = Return merged ->
  length merged = length children /\
  forall n child child' k,
    children !! n = Some child -> merged !! n = Some child' ->
    k ≠ "ContentSequence" -> get_attr k child' = get_attr k child.
Proof.
  induction children as [|c children IH]; intros [|key keys] merged;
    cbn [merge_characteristics]; try (intros [= <-]; split; [done | congruence]).
  destruct (store !! key) as [entry|]; cbn [mbind Outcome_bind]; [|discriminate].
  destruct (append_characteristics config c entry) as [c'|e] eqn:Hc;
    cbn [mbind Outcome_bind]; [|discriminate].
  destruct (merge_characteristics store config children keys) as [rest|e] eqn:Hm;
    cbn [mbind Outcome_bind]; [|discriminate].
  intros [= <-]. destruct (IH _ _ Hm) as [Hlen Hrest]. split; [cbn; by rewrite Hlen|].
  intros [|n] child child' k H1 H2 Hk; cbn in H1, H2.
  - injection H1 as <-. injection H2 as <-.
    by apply (append_characteristics_only_appends_aux config entry c c').
  - by eapply Hrest.
Qed.

(** X24: whenever the merge loops return, the content items of position 5 are
    as many as before and in the same order, and each of them has all its
    attributes other than the content sequence as before. *)
Theorem merge_characteristics_keeps_items store config children keys merged :
  merge_characteristics store config children keys = Return merged ->
  length merged = length children /\
  forall n child child' k,
    children !! n = Some child -> merged !! n = Some child' ->
    k ≠ "ContentSequence" -> get_attr k child' = get_attr k child.
Proof. apply merge_characteristics_keeps_items_aux. Qed.

Lemma merge_characteristics_nothing_selected_aux store config children : forall keys,
  (forall key, key ∈ keys -> exists entry, store !! key = Some entry /\ selected entry = []) ->
  merge_characteristics store config children keys = Return children.
Proof.
  induction children as [|c children IH]; intros [|key keys] H; try reflexivity.
  cbn [merge_characteristics].
  destruct (H key ltac:(constructor)) as (entry & -> & Hsel). cbn [mbind Outcome_bind].
  rewrite append_characteristics_nothing_selected by exact Hsel. cbn [mbind Outcome_bind].
  rewrite IH; [reflexivity|]. intros k Hk. apply H. by constructor.
Qed.

Lemma with_children_id fs outputSRPath sr_ds root container children :
  sr_readable fs outputSRPath sr_ds root container children ->
  with_children sr_ds root container children = sr_ds.
Proof.
  intros [_ Hroot Hcont Hch]. unfold with_children.
  rewrite (set_attr_same _ _ container) by (by apply get_seq_get_attr).
  rewrite list_insert_id by exact Hcont.
  apply set_attr_same. by apply get_seq_get_attr.
Qed.

(** X5: with a store in which nothing is selected, [createDICOMSR] returns the
    SR path and saves the SR dataset as the SR writer produced it: the files
    after the call are the files the writer left. *)
Theorem createDICOMSR_nothing_selected env w referencedSegmentation completed
    exporter seg_ds segs sr_ds root container children :
  generated env w exporter ->
  seg_readable (files_after_cli env (sr_path exporter) (files w))
    referencedSegmentation seg_ds segs ->
  length segs = size (segment_characteristics w) ->
  sr_readable (files_after_cli env (sr_path exporter) (files w))
    (sr_path exporter) sr_ds root container children ->
  (forall key entry, segment_characteristics w !! key = Some entry -> selected entry = []) ->
  outcome (createDICOMSR env referencedSegmentation completed w)
  = Return (sr_path exporter) /\
  files (world (createDICOMSR env referencedSegmentation completed w))
  = files_after_cli env (sr_path exporter) (files w).
Proof.
  intros Hg Hseg Hlen Hsr Hsel.
  rewrite (createDICOMSR_matched _ _ _ _ _ _ _ _ _ _ _ Hg Hseg Hlen Hsr).
  rewrite merge_characteristics_nothing_selected_aux.
  2: { intros key Hk. apply elem_of_sorted_keys in Hk as [entry He]. eauto. }
  cbn [after outcome world files set_files]. split; [reflexivity|].
  rewrite (with_children_id _ _ _ _ _ _ Hsr). apply insert_id. by destruct Hsr.
Qed.

(** X4: when [createDICOMSR] returns, the SR dataset it saved differs from the
    one the SR writer produced inside position 5 of the root content sequence
    only: every other top-level attribute is the same, the root content
    sequence has the same length, its items at the other positions are the
    same, and the container at position 5 has kept its other attributes and
    the number and order of its content items, each with its other
    attributes. *)
Theorem createDICOMSR_changes_position_5_only env w referencedSegmentation completed q :
  outcome (createDICOMSR env referencedSegmentation completed w) = Return q ->
  exists exporter sr_ds sr_ds' root root' container container' children children',
    q = sr_path exporter /\
    sr_readable (files_after_cli env q (files w)) q sr_ds root container children /\
    files (world (createDICOMSR env referencedSegmentation completed w)) !! q = Some sr_ds' /\
    (forall k, k ≠ "ContentSequence" -> get_attr k sr_ds' = get_attr k sr_ds) /\
    get_seq "ContentSequence" sr_ds' = Some root' /\
    length root' = length root /\
    (forall i, i ≠ 5%nat -> root' !! i = root !! i) /\
    root' !! 5%nat = Some container' /\
    (forall k, k ≠ "ContentSequence" -> get_attr k container' = get_attr k container) /\
    get_seq "ContentSequence" container' = Some children' /\
    length children' = length children /\
    (forall n child child' k,
       children !! n = Some child -> children' !! n = Some child' ->
       k ≠ "ContentSequence" -> get_attr k child' = get_attr k child).
Proof.
  rewrite createDICOMSR_run.
  destruct (dicomSegmentationExporter w) as [exporter|] eqn:Hex; [|discriminate].
  cascade; try rewrite merge_into_SR_run; cascade; intros H; try discriminate H.
  injection H as <-.
  match goal with
  | Hm : merge_characteristics _ _ ?children _ = Return ?children',
    Hf : _ !! sr_path exporter = Some ?sr_ds,
    Hr : get_seq "ContentSequence" ?sr_ds = Some ?root,
    Hc : ?root !! 5%nat = Some ?container,
    Hch : get_seq "ContentSequence" ?container = Some ?children |- _ =>
      destruct (merge_characteristics_keeps_items_aux _ _ _ _ _ Hm) as [Hlen Hattr];
      exists exporter, sr_ds, (with_children sr_ds root container children'), root,
        (<[5%nat := set_attr "ContentSequence" (VSeq children') container]> root),
        container, (set_attr "ContentSequence" (VSeq children') container),
        children, children'
  end.
  split; [reflexivity|]. split; [by split|].
  split; [apply lookup_insert_eq|].
  split; [intros k Hk; by apply get_attr_set_attr_ne|].
  split; [apply get_seq_set_attr|].
  split; [apply length_insert|].
  split; [intros i Hi; by apply list_lookup_insert_ne|].
  split; [apply list_lookup_insert_eq; by eapply lookup_lt_Some|].
  split; [intros k Hk; by apply get_attr_set_attr_ne|].
  split; [apply get_seq_set_attr|].
  split; [exact Hlen | exact Hattr].
Qed.

(** * The characteristics dialog *)

Section Dicts.

Context {V : Type}.
Implicit Types (d : list (string * V)) (k : string) (v : V).

Lemma dict_get_dict_set k k' v d :
  dict_get k' (dict_set k v d) = if String.eqb k k' then Some v else dict_get k' d.
Proof.
  induction d as [|[k0 v0] d IH]; cbn [dict_set dict_get].
  - reflexivity.
  - destruct (String.eqb_spec k0 k) as [->|Hne]; cbn [dict_get].
    + by destruct (String.eqb k k').
    + rewrite IH. destruct (String.eqb_spec k0 k') as [->|Hne'].
      * destruct (String.eqb_spec k k'); [congruence | reflexivity].
      * reflexivity.
Qed.

Lemma elem_of_dict_set k v d x : x ∈ dict_set k v d -> x = (k, v) \/ x ∈ d.
Proof.
  induction d as [|[k0 v0] d IH]; cbn [dict_set].
  - intros H. apply list_elem_of_singleton in H. by left.
  - destruct (String.eqb_spec k0 k) as [->|Hne]; intros H;
      apply elem_of_cons in H as [->|H].
    + by left.
    + right. by constructor.
    + right. constructor.
    + destruct (IH H) as [->|Hin]; [by left | right; by constructor].
Qed.

Lemma dict_get_None_not_in k d : dict_get k d = None <-> k ∉ map fst d.
Proof.
  induction d as [|[k0 v0] d IH]; cbn [dict_get map fst].
  - split; [intros _; apply not_elem_of_nil | done].
  - destruct (String.eqb_spec k0 k) as [->|Hne].
    + split; [discriminate | intros H; exfalso; apply H; constructor].
    + rewrite IH. split.
      * intros H Hin. apply elem_of_cons in Hin as [?|?]; [congruence | contradiction].
      * intros H Hin. apply H. by constructor.
Qed.

End Dicts.

Lemma set_characteristics_lookup widgets : forall (entry : Entry) n,
  NoDup (map fst widgets) ->
  dict_get n (_set_characteristics_data_and_close widgets entry)
  = match dict_get n widgets with
    | Some cw => Some (currentText cw)
    | None => dict_get n entry
    end.
Proof.
  unfold _set_characteristics_data_and_close.
  induction widgets as [|[k cw] widgets IH]; intros entry n Hnd; [reflexivity|].
  cbn [map fst] in Hnd. apply NoDup_cons in Hnd as [Hk Hnd].
  cbn [fold_left fst snd dict_get]. rewrite IH by exact Hnd. rewrite dict_get_dict_set.
  destruct (String.eqb_spec k n) as [->|Hne]; [|reflexivity].
  apply dict_get_None_not_in in Hk. by rewrite Hk.
Qed.

(** X25: clicking OK in the dialog of a segment writes the current text of
    every combo box under its concept name into the entry of that segment,
    leaves the other concept names of the entry and the entries of the other
    segments as they were; closing the dialog otherwise changes nothing, and
    opening it for a segment without an entry raises [KeyError]. *)
Theorem open_characteristic_window_effect segment_index accepted (store : gmap Z Entry) :
  match store !! segment_index with
  | None =>
      open_characteristic_window segment_index accepted store
      = Raise (KeyError [PInt segment_index])
  | Some entry =>
      match accepted with
      | None => open_characteristic_window segment_index accepted store = Return store
      | Some widgets =>
          exists store' entry',
            open_characteristic_window segment_index accepted store = Return store' /\
            store' !! segment_index = Some entry' /\
            (forall k, k ≠ segment_index -> store' !! k = store !! k) /\
            (NoDup (map fst widgets) ->
             forall n, dict_get n entry'
                       = match dict_get n widgets with
                         | Some cw => Some (currentText cw)
                         | None => dict_get n entry
                         end)
      end
  end.
Proof.
  unfold open_characteristic_window.
  destruct (store !! segment_index) as [entry|]; [|reflexivity].
  destruct accepted as [widgets|]; [|reflexivity].
  eexists _, _. split; [reflexivity|]. split; [apply lookup_insert_eq|].
  split; [intros k Hk; by apply lookup_insert_ne|].
  intros Hnd n. by apply set_characteristics_lookup.
Qed.

Lemma widget_items_fold config : forall acc n,
  dict_get n
    (fold_left
       (fun widgets characteristic =>
          dict_set (CodeMeaning (ConceptNameCodeSequence characteristic))
            (map CodeMeaning (choices characteristic)) widgets)
       config acc)
  = match find (names n) (rev config) with
    | Some i => Some (map CodeMeaning (choices i))
    | None => dict_get n acc
    end.
Proof.
  induction config as [|i config IH] using rev_ind; intros acc n; [reflexivity|].
  rewrite fold_left_app, rev_app_distr. cbn [fold_left rev app find].
  rewrite dict_get_dict_set, IH.
  change (names n i) with (String.eqb (CodeMeaning (ConceptNameCodeSequence i)) n).
  by destruct (String.eqb (CodeMeaning (ConceptNameCodeSequence i)) n).
Qed.

(** X26: the dialog has one combo box per concept name of the catalog; when
    several entries carry the same name, the combo box offers the choices of
    the last of them. *)
Theorem characteristic_widget_items_lookup config n :
  dict_get n (characteristic_widget_items config)
  = (fun i => map CodeMeaning (choices i)) <$> find (names n) (rev config).
Proof.
  unfold characteristic_widget_items. rewrite widget_items_fold.
  by destruct (find (names n) (rev config)).
Qed.

Lemma widget_items_from_config config : forall acc x,
  x ∈ fold_left
        (fun widgets characteristic =>
           dict_set (CodeMeaning (ConceptNameCodeSequence characteristic))
             (map CodeMeaning (choices characteristic)) widgets)
        config acc ->
  x ∈ acc \/
  exists i, i ∈ config /\
            x = (CodeMeaning (ConceptNameCodeSequence i), map CodeMeaning (choices i)).
Proof.
  induction config as [|i config IH]; intros acc x; cbn [fold_left]; [by left|].
  intros H. apply IH in H as [H | (i' & Hi' & ->)].
  - apply elem_of_dict_set in H as [-> | H]; [|by left].
    right. exists i. split; [constructor | reflexivity].
  - right. exists i'. split; [by constructor | reflexivity].
Qed.

(** What a widget of the dialog shows as current text is a pair of the
    catalog. *)
Lemma dialog_text_in_catalog config widgets n cw :
  dialog_of config widgets -> (n, cw) ∈ widgets ->
  in_catalog config (n, currentText cw) = true.
Proof.
  intros [Hitems Htexts] Hin.
  assert ((n, combo_items cw) ∈ characteristic_widget_items config) as Hw.
  { rewrite <- Hitems. apply list_elem_of_fmap. by exists (n, cw). }
  apply widget_items_from_config in Hw as [Hw | (i & Hi & Heq)]; [by inversion Hw|].
  injection Heq as -> Hits.
  rewrite Forall_forall in Htexts. specialize (Htexts _ Hin). cbn [snd] in Htexts.
  rewrite Hits in Htexts. apply list_elem_of_fmap in Htexts as (j & Hj & Hjin).
  apply existsb_exists. exists i. split; [by apply list_elem_of_In|].
  cbn [fst snd]. unfold names, offers. rewrite String.eqb_refl. cbn [andb].
  apply existsb_exists. exists j. split; [by apply list_elem_of_In|].
  rewrite Hj. apply String.eqb_refl.
Qed.

Lemma resolvable_Forall config entry :
  resolvable config entry = true <->
  Forall (fun kv => kv.2 = "N/A" \/ in_catalog config kv = true) entry.
Proof.
  unfold resolvable, selected. induction entry as [|[cn cl] entry IH]; cbn [List.filter snd].
  - split; [constructor | reflexivity].
  - destruct (String.eqb_spec cl "N/A") as [->|Hne]; cbn [negb forallb].
    + rewrite IH. split; [intros H; constructor; [by left | exact H] | by inversion 1].
    + rewrite andb_true_iff, IH. split.
      * intros [Hc H]. constructor; [by right | exact H].
      * inversion 1 as [|? ? [Hna|Hc] Hrest]; subst; [contradiction | by split].
Qed.

Lemma Forall_dict_set {V} (P : string * V -> Prop) k v (d : list (string * V)) :
  P (k, v) -> Forall P d -> Forall P (dict_set k v d).
Proof.
  intros Hkv Hd. rewrite Forall_forall. intros x Hx.
  apply elem_of_dict_set in Hx as [->|Hx]; [exact Hkv|].
  rewrite Forall_forall in Hd. by apply Hd.
Qed.

Lemma set_characteristics_resolvable config widgets entry :
  dialog_of config widgets ->
  resolvable config entry = true ->
  resolvable config (_set_characteristics_data_and_close widgets entry) = true.
Proof.
  intros Hd. rewrite !resolvable_Forall.
  assert (forall n cw, (n, cw) ∈ widgets -> in_catalog config (n, currentText cw) = true)
    as Hin by (intros n cw; by apply dialog_text_in_catalog).
  clear Hd. unfold _set_characteristics_data_and_close.
  revert entry. induction widgets as [|[n cw] widgets IH]; intros entry He; [exact He|].
  cbn [fold_left fst snd]. apply IH.
  - intros n' cw' H. apply Hin. by constructor.
  - apply Forall_dict_set; [|exact He]. right. apply Hin. constructor.
Qed.

(** X27: the dialog keeps the store within the catalog: when every selection
    of the store is in the catalog, the widgets are those built from the
    catalog and each shows one of its items, the store after OK still has
    every selection in the catalog. *)
Theorem open_characteristic_window_keeps_resolvable config segment_index widgets
    (store store' : gmap Z Entry) :
  store_resolvable config store ->
  dialog_of config widgets ->
  open_characteristic_window segment_index (Some widgets) store = Return store' ->
  store_resolvable config store'.
Proof.
  intros Hst Hd. unfold open_characteristic_window.
  destruct (store !! segment_index) as [entry|] eqn:He; [|discriminate].
  intros [= <-] key entry'. rewrite lookup_insert. case_decide as Hk.
  - intros [= <-]. apply set_characteristics_resolvable; [exact Hd|]. by eapply Hst.
  - apply Hst.
Qed.

(** X18: the refresh of the store keeps it within the catalog as well: the
    entries it keeps are unchanged and the entries it creates are empty. *)
Theorem update_store_keeps_resolvable config segments (store : gmap Z Entry) :
  store_resolvable config store ->
  store_resolvable config (updateSegmentationCharacteristics_store segments store).
Proof.
  intros Hst key entry. rewrite update_store_lookup_aux.
  case_decide; [|discriminate]. intros [= <-].
  destruct (store !! key) as [e|] eqn:He; [by eapply Hst | reflexivity].
Qed.

(** X6: in a store whose selections are all in the catalog, as the dialog and
    the refresh keep it, the merge cannot meet a lookup fault: with equal
    counts, a completed SR writer and SR content items that all have a
    content sequence, [createDICOMSR] returns the SR path. *)
Theorem resolvable_store_merges env w referencedSegmentation completed
    exporter seg_ds segs sr_ds root container children :
  generated env w exporter ->
  seg_readable (files_after_cli env (sr_path exporter) (files w))
    referencedSegmentation seg_ds segs ->
  length segs = size (segment_characteristics w) ->
  sr_readable (files_after_cli env (sr_path exporter) (files w))
    (sr_path exporter) sr_ds root container children ->
  Forall (fun child => is_Some (get_seq "ContentSequence" child)) children ->
  store_resolvable (characteristics_config w) (segment_characteristics w) ->
  outcome (createDICOMSR env referencedSegmentation completed w)
  = Return (sr_path exporter).
Proof.
  intros Hg Hseg Hlen Hsr Hcs Hst.
  destruct (merge_characteristics_resolvable (segment_characteristics w)
              (characteristics_config w) children (sorted_keys (segment_characteristics w)))
    as (children' & Hm & _).
  { intros key Hk. by apply elem_of_sorted_keys. }
  { intros n child key entry H1 _ H3. split; [by eapply Hst|].
    rewrite Forall_forall in Hcs. apply Hcs. by eapply list_elem_of_lookup_2. }
  rewrite (createDICOMSR_matched _ _ _ _ _ _ _ _ _ _ _ Hg Hseg Hlen Hsr), Hm.
  reflexivity.
Qed.

(** * The buttons *)

(** X28: a click on "Save Report".  When the save succeeds, one information
    box is shown and no warning, and the button is disabled; when it fails,
    the button stays enabled and the warning shows the error, unless the
    error is empty, in which case nothing is shown; when [saveReport] raises,
    the handler raises as well, shows nothing and leaves the buttons as they
    were. *)
Theorem onSaveReportButtonClicked_effect env w b :
  match outcome (saveReport env false w) with
  | Return (true, _) =>
      click_dialogs (onSaveReportButtonClicked env w b)
      = [InfoDisplay "Report successfully saved into SlicerDICOMDatabase"] /\
      saveReportButton_enabled (click_buttons (onSaveReportButtonClicked env w b)) = false
  | Return (false, err) =>
      click_dialogs (onSaveReportButtonClicked env w b)
      = (if truthy err then [WarningDisplay err] else []) /\
      saveReportButton_enabled (click_buttons (onSaveReportButtonClicked env w b)) = true
  | Raise e =>
      outcome (click_run (onSaveReportButtonClicked env w b)) = Raise e /\
      click_dialogs (onSaveReportButtonClicked env w b) = [] /\
      click_buttons (onSaveReportButtonClicked env w b) = b
  end.
Proof.
  unfold onSaveReportButtonClicked.
  destruct (outcome (saveReport env false w)) as [[[|] err]|e] eqn:Ho;
    cbn [click_dialogs click_buttons click_run outcome saveReportButton_enabled negb app];
    [| by split | by repeat split].
  apply saveReport_success_full in Ho as [-> _]. by split.
Qed.

(** X29: a click on "Complete Report" makes the table read-only only after a
    save that went through: when the table was not read-only before the click
    and is after it, the run made every call of the full sequence, from the
    export of the SEG to the indexing of both files, and both buttons are
    disabled. *)
Theorem onCompleteReportButtonClicked_readonly env w b :
  tableNode_readonly b = false ->
  tableNode_readonly (click_buttons (onCompleteReportButtonClicked env w b)) = true ->
  click_buttons (onCompleteReportButtonClicked env w b) = mkButtons false false true /\
  exists exporter,
    new_exporter env = Return exporter /\
    events (click_run (onCompleteReportButtonClicked env w b))
    = full_trace exporter
        ++ [EvCleanupTemporaryData; EvExporterCleanup (tempDir exporter)].
Proof.
  intros Hb. unfold onCompleteReportButtonClicked.
  destruct (outcome (saveReport env true w)) as [[[|] err]|e] eqn:Ho;
    cbn [click_buttons click_run tableNode_readonly events negb];
    [| congruence | congruence ].
  intros _. split; [reflexivity|].
  apply saveReport_success_full in Ho as (_ & exporter & Hn & _ & Hev). eauto.
Qed.

(** * The further properties on the example sessions *)

Lemma createDICOMSR_writes_two_paths_witness :
  (forall ev path,
     ev ∈ events (createDICOMSR
                    (Example.host Example.seg2 "Completed"
                       [Example.group "a"; Example.group "b"])
                    Example.seg_path false (Example.widget Example.store Example.seg2)) ->
     written ev = Some path ->
     path = "/tmp/qr/sr_meta.json" \/ path = "/tmp/qr/sr.dcm") /\
  files (world (createDICOMSR
                  (Example.host Example.seg2 "Completed" [Example.group "a"; Example.group "b"])
                  Example.seg_path false (Example.widget Example.store Example.seg2)))
    !! Example.seg_path
  = Some Example.seg2.
Proof.
  destruct (createDICOMSR_writes_two_paths
              (Example.host Example.seg2 "Completed" [Example.group "a"; Example.group "b"])
              Example.seg_path false (Example.widget Example.store Example.seg2)
              Example.exporter eq_refl) as [Hw Hf].
  split; [exact Hw|].
  rewrite (Hf Example.seg_path).
  - reflexivity.
  - intros H. vm_compute in H. discriminate H.
  - intros H. vm_compute in H. discriminate H.
Defined.

Lemma createDICOMSR_Raise_keeps_generated_SR_witness :
  files (world (createDICOMSR (Example.host Example.seg3 "Completed" [Example.group "a"])
                  Example.seg_path false (Example.widget Example.store Example.seg3)))
  = files (Example.widget Example.store Example.seg3) \/
  exists exporter,
    dicomSegmentationExporter (Example.widget Example.store Example.seg3) = Some exporter /\
    files (world (createDICOMSR (Example.host Example.seg3 "Completed" [Example.group "a"])
                    Example.seg_path false (Example.widget Example.store Example.seg3)))
    = files_after_cli (Example.host Example.seg3 "Completed" [Example.group "a"])
        (sr_path exporter) (files (Example.widget Example.store Example.seg3)).
Proof.
  apply (createDICOMSR_Raise_keeps_generated_SR
           (Example.host Example.seg3 "Completed" [Example.group "a"])
           Example.seg_path false (Example.widget Example.store Example.seg3)
           (ValueError [PStr "Number of segmentation (2) in SEG DICOM != Number of segmentation charateristics (2)"])).
  vm_compute. reflexivity.
Defined.

Lemma saveReport_trace_witness :
  exists n,
    events (saveReport (Example.host Example.seg3 "Completed" [Example.group "a"]) false
              (Example.widget Example.store Example.seg3))
    = take n (full_trace Example.exporter)
        ++ [EvCleanupTemporaryData; EvExporterCleanup "/tmp/qr"].
Proof.
  apply (saveReport_trace (Example.host Example.seg3 "Completed" [Example.group "a"]) false
           (Example.widget Example.store Example.seg3) Example.exporter); reflexivity.
Defined.

Lemma saveReport_success_witness :
  PNone = PNone /\
  exists exporter,
    new_exporter
      (Example.host Example.seg2 "Completed" [Example.group "a"; Example.group "b"])
    = Return exporter /\
    cli_status
      (Example.host Example.seg2 "Completed" [Example.group "a"; Example.group "b"])
    = "Completed" /\
    events (saveReport
              (Example.host Example.seg2 "Completed" [Example.group "a"; Example.group "b"])
              false (Example.widget Example.store Example.seg2))
    = full_trace exporter ++ [EvCleanupTemporaryData; EvExporterCleanup (tempDir exporter)].
Proof.
  apply (saveReport_success
           (Example.host Example.seg2 "Completed" [Example.group "a"; Example.group "b"])
           false (Example.widget Example.store Example.seg2) PNone).
  vm_compute. reflexivity.
Defined.

Lemma saveReport_export_fault_witness :
  exists a,
    outcome (saveReport (Cases.host_export_raises Cases.missing_attribute) false
               (Example.widget Example.store Example.seg2))
    = Return (false, PTuple [PTuple a]) /\
    a = [PStr "Missing attributes: SeriesDescription "].
Proof.
  destruct (saveReport_export_fault (Cases.host_export_raises Cases.missing_attribute) false
              (Example.widget Example.store Example.seg2) Example.exporter
              Cases.missing_attribute eq_refl eq_refl eq_refl eq_refl)
    as (a & Hout & _ & _ & Ha).
  exists a. split; [exact Hout | exact (Ha eq_refl "SeriesDescription" eq_refl)].
Defined.

Lemma saveReport_export_other_exception_witness :
  outcome (saveReport (Cases.host_export_raises (RuntimeError [PStr "disk full"])) false
             (Example.widget Example.store Example.seg2))
  = Return (false, PTuple [PStr "disk full"]) /\
  outcome (saveReport (Cases.host_export_raises (FileNotFoundError [PStr "/tmp/qr"])) false
             (Example.widget Example.store Example.seg2))
  = Raise (FileNotFoundError [PStr "/tmp/qr"]).
Proof.
  split.
  - apply (saveReport_export_other_exception
             (Cases.host_export_raises (RuntimeError [PStr "disk full"])) false
             (Example.widget Example.store Example.seg2) Example.exporter
             (RuntimeError [PStr "disk full"])); reflexivity.
  - apply (saveReport_export_other_exception
             (Cases.host_export_raises (FileNotFoundError [PStr "/tmp/qr"])) false
             (Example.widget Example.store Example.seg2) Example.exporter
             (FileNotFoundError [PStr "/tmp/qr"])); reflexivity.
Defined.

Lemma saveReport_cancel_has_no_effect_witness :
  events (saveReport (Cases.host_metadata None) false
            (Example.widget Example.store Example.seg2)) = [] /\
  events (saveReport (Cases.host_metadata (Some [])) true
            (Example.widget Example.store Example.seg2)) = [].
Proof.
  split.
  - apply (saveReport_cancel_has_no_effect (Cases.host_metadata None) false
             (Example.widget Example.store Example.seg2)). reflexivity.
  - apply (saveReport_cancel_has_no_effect (Cases.host_metadata (Some [])) true
             (Example.widget Example.store Example.seg2)). reflexivity.
Defined.

Lemma saveReport_inserts_SEG_first_witness :
  exists rest,
    events (saveReport (Example.host Example.seg3 "Completed" [Example.group "a"]) false
              (Example.widget Example.store Example.seg3))
    = EvExport (seg_file_path Example.exporter)
        :: EvDatabaseInsert (seg_file_path Example.exporter) :: rest.
Proof.
  apply (saveReport_inserts_SEG_first
           (Example.host Example.seg3 "Completed" [Example.group "a"]) false
           (Example.widget Example.store Example.seg3) Example.exporter Example.seg3);
    reflexivity.
Defined.

Lemma saveReport_missing_metadata_key_witness :
  outcome (saveReport (Cases.host_metadata (Some [("ClinicalTrialTimePointID", "1")])) false
             (Example.widget Example.store Example.seg2))
  = Raise (KeyError [PStr "ContentCreatorName"]).
Proof.
  apply (saveReport_missing_metadata_key
           (Cases.host_metadata (Some [("ClinicalTrialTimePointID", "1")])) false
           (Example.widget Example.store Example.seg2) Example.exporter Example.seg2
           eq_refl eq_refl eq_refl [("ClinicalTrialTimePointID", "1")] "ContentCreatorName"
           eq_refl eq_refl eq_refl).
  left. split; reflexivity.
Defined.

Lemma segments_NoDup : NoDup (map GetLabelValue Cases.segments).
Proof.
  cbn. apply NoDup_cons. split; [|apply NoDup_singleton].
  intros H. apply list_elem_of_singleton in H. discriminate H.
Qed.

Lemma update_store_size_witness :
  size (updateSegmentationCharacteristics_store Cases.segments ∅) = 2%nat.
Proof. apply (update_store_size Cases.segments ∅). exact segments_NoDup. Defined.

Lemma refreshed_store_rejects_other_counts_witness :
  outcome (createDICOMSR (Example.host Example.seg3 "Completed" [Example.group "a"])
             Example.seg_path false
             (Example.widget (updateSegmentationCharacteristics_store Cases.segments ∅)
                Example.seg3))
  = Raise (ValueError
      [PStr "Number of segmentation (2) in SEG DICOM != Number of segmentation charateristics (2)"]).
Proof.
  rewrite (refreshed_store_rejects_other_counts
             (Example.host Example.seg3 "Completed" [Example.group "a"])
             (Example.widget (updateSegmentationCharacteristics_store Cases.segments ∅)
                Example.seg3)
             Example.seg_path false Example.exporter Example.seg3
             [Example.segment "a"; Example.segment "b"; Example.segment "c"]
             Cases.segments ∅).
  - vm_compute. reflexivity.
  - reflexivity.
  - exact segments_NoDup.
  - apply ExampleFacts.host_generated.
  - apply ExampleFacts.seg3_readable.
  - cbn. lia.
Defined.

Lemma lookup_sound_witness :
  "Round" ≠ "N/A" /\
  CodeMeaning (mkCode "S1" "99QR" "Shape") = "Shape" /\
  CodeMeaning (mkCode "A" "99QR" "Round") = "Round".
Proof.
  destruct (lookup_sound [shape_round] "Shape" "Round"
              (mkCharacteristics (mkCode "S1" "99QR" "Shape") (mkCode "A" "99QR" "Round"))
              eq_refl) as (H1 & H2 & H3 & _).
  by repeat split.
Defined.

Lemma create_dataset_injective_witness :
  mkCharacteristics (mkCode "S1" "99QR" "Shape") (mkCode "A" "99QR" "Round")
  = mkCharacteristics (mkCode "S1" "99QR" "Shape") (mkCode "A" "99QR" "Round").
Proof. apply create_dataset_injective. reflexivity. Defined.

Lemma append_characteristics_only_appends_witness :
  get_attr "TextValue" (gain [shape_round] [("Shape", "Round")] (Example.group "a"))
  = Some (VStr "a").
Proof.
  destruct (append_characteristics_only_appends [shape_round] [("Shape", "Round")]
              (Example.group "a")
              (gain [shape_round] [("Shape", "Round")] (Example.group "a")) eq_refl)
    as [Hother _].
  rewrite Hother; [reflexivity | discriminate].
Defined.

Lemma merge_characteristics_keeps_items_witness :
  length [gain [shape_round] [("Shape", "Round")] (Example.group "a"); Example.group "b"]
  = length [Example.group "a"; Example.group "b"].
Proof.
  apply (merge_characteristics_keeps_items Example.store [shape_round]
           [Example.group "a"; Example.group "b"] [7%Z; 12%Z]).
  vm_compute. reflexivity.
Defined.

Lemma store_without_selection_nothing key entry :
  Cases.store_without_selection !! key = Some entry -> selected entry = [].
Proof.
  unfold Cases.store_without_selection. intros H.
  apply lookup_insert_Some in H as [[_ <-] | [_ H]]; [reflexivity|].
  apply lookup_insert_Some in H as [[_ <-] | [_ H]]; [reflexivity|].
  by rewrite lookup_empty in H.
Qed.

Lemma createDICOMSR_nothing_selected_witness :
  outcome (createDICOMSR
             (Example.host Example.seg2 "Completed" [Example.group "a"; Example.group "b"])
             Example.seg_path false
             (Example.widget Cases.store_without_selection Example.seg2))
  = Return (sr_path Example.exporter).
Proof.
  apply (createDICOMSR_nothing_selected
           (Example.host Example.seg2 "Completed" [Example.group "a"; Example.group "b"])
           (Example.widget Cases.store_without_selection Example.seg2)
           Example.seg_path false Example.exporter Example.seg2
           [Example.segment "a"; Example.segment "b"]
           (Example.sr [Example.group "a"; Example.group "b"])
           (Example.root [Example.group "a"; Example.group "b"])
           (Example.container [Example.group "a"; Example.group "b"])
           [Example.group "a"; Example.group "b"]).
  - apply ExampleFacts.host_generated.
  - apply ExampleFacts.seg2_readable.
  - reflexivity.
  - apply ExampleFacts.sr_is_readable.
  - exact store_without_selection_nothing.
Defined.

Lemma createDICOMSR_changes_position_5_only_witness :
  exists exporter sr_ds sr_ds' root root' container container' children children',
    "/tmp/qr/sr.dcm" = sr_path exporter /\
    sr_readable
      (files_after_cli
         (Example.host Example.seg2 "Completed" [Example.group "a"; Example.group "b"])
         "/tmp/qr/sr.dcm" (files (Example.widget Example.store Example.seg2)))
      "/tmp/qr/sr.dcm" sr_ds root container children /\
    files (world (createDICOMSR
                    (Example.host Example.seg2 "Completed"
                       [Example.group "a"; Example.group "b"])
                    Example.seg_path false (Example.widget Example.store Example.seg2)))
      !! "/tmp/qr/sr.dcm" = Some sr_ds' /\
    (forall k, k ≠ "ContentSequence" -> get_attr k sr_ds' = get_attr k sr_ds) /\
    get_seq "ContentSequence" sr_ds' = Some root' /\
    length root' = length root /\
    (forall i, i ≠ 5%nat -> root' !! i = root !! i) /\
    root' !! 5%nat = Some container' /\
    (forall k, k ≠ "ContentSequence" -> get_attr k container' = get_attr k container) /\
    get_seq "ContentSequence" container' = Some children' /\
    length children' = length children /\
    (forall n child child' k,
       children !! n = Some child -> children' !! n = Some child' ->
       k ≠ "ContentSequence" -> get_attr k child' = get_attr k child).
Proof.
  apply (createDICOMSR_changes_position_5_only
           (Example.host Example.seg2 "Completed" [Example.group "a"; Example.group "b"])
           (Example.widget Example.store Example.seg2) Example.seg_path false
           "/tmp/qr/sr.dcm").
  vm_compute. reflexivity.
Defined.

Lemma example_store_resolvable : store_resolvable [shape_round] Example.store.
Proof.
  unfold Example.store. intros key entry H.
  apply lookup_insert_Some in H as [[_ <-] | [_ H]]; [reflexivity|].
  apply lookup_insert_Some in H as [[_ <-] | [_ H]]; [reflexivity|].
  by rewrite lookup_empty in H.
Qed.

Lemma round_chosen_dialog : dialog_of [shape_round] Cases.round_chosen.
Proof.
  split; [reflexivity|]. repeat constructor.
Qed.

Lemma open_characteristic_window_keeps_resolvable_witness :
  store_resolvable [shape_round]
    (<[12%Z := [("Shape", "Round")]]> Example.store).
Proof.
  apply (open_characteristic_window_keeps_resolvable [shape_round] 12
           Cases.round_chosen Example.store).
  - exact example_store_resolvable.
  - exact round_chosen_dialog.
  - reflexivity.
Defined.

Lemma update_store_keeps_resolvable_witness :
  store_resolvable [shape_round]
    (updateSegmentationCharacteristics_store Cases.segments Example.store).
Proof.
  apply (update_store_keeps_resolvable [shape_round] Cases.segments Example.store).
  exact example_store_resolvable.
Defined.

Lemma resolvable_store_merges_witness :
  outcome (createDICOMSR
             (Example.host Example.seg2 "Completed" [Example.group "a"; Example.group "b"])
             Example.seg_path false (Example.widget Example.store Example.seg2))
  = Return (sr_path Example.exporter).
Proof.
  apply (resolvable_store_merges
           (Example.host Example.seg2 "Completed" [Example.group "a"; Example.group "b"])
           (Example.widget Example.store Example.seg2)
           Example.seg_path false Example.exporter Example.seg2
           [Example.segment "a"; Example.segment "b"]
           (Example.sr [Example.group "a"; Example.group "b"])
           (Example.root [Example.group "a"; Example.group "b"])
           (Example.container [Example.group "a"; Example.group "b"])
           [Example.group "a"; Example.group "b"]).
  - apply ExampleFacts.host_generated.
  - apply ExampleFacts.seg2_readable.
  - reflexivity.
  - apply ExampleFacts.sr_is_readable.
  - repeat constructor; eexists; reflexivity.
  - exact example_store_resolvable.
Defined.

Lemma onCompleteReportButtonClicked_readonly_witness :
  click_buttons
    (onCompleteReportButtonClicked
       (Example.host Example.seg2 "Completed" [Example.group "a"; Example.group "b"])
       (Example.widget Example.store Example.seg2) (mkButtons true true false))
  = mkButtons false false true.
Proof.
  apply (onCompleteReportButtonClicked_readonly
           (Example.host Example.seg2 "Completed" [Example.group "a"; Example.group "b"])
           (Example.widget Example.store Example.seg2) (mkButtons true true false)).
  - reflexivity.
  - vm_compute. reflexivity.
Defined.

